(** * WhatsApp broadcast service: connection orchestration and scheduled dispatch

    A shallow embedding of the edge functions of the repository
    (the scheduler, [whapi-simple], [whapi-webhook-simple],
    [whapi-check-status], the workflow variant with [attemptGetQR] and the
    QR endpoint with [attemptQrRetrieval]), followed by the properties of
    the dispatch loop and of the connection state handling.

    Modelling conventions.
    - JSON values received from the gateway are values of [Json]; a
      property read on [null]/[undefined] raises, as in JavaScript.
    - [fetch] is answered by an oracle [gateway] of the environment, asked
      with the number of calls made so far and the request; it either
      raises (network error) or responds.
    - Tables are lists of rows in the order the store returns them.  Store
      calls do not raise: the client reports failures in its return value,
      which the handlers ignore.  A filter [.eq(column, value)] compares the
      column with the text of the value, and an update leaves alone the
      columns whose value is undefined.
    - Every effect is appended to [trace] (newest first), so that the order
      of store writes, gateway calls and delays can be stated. *)

From Stdlib Require Import ZArith List String Ascii DecimalString Bool Lia Sorted.
Import ListNotations.
Local Open Scope string_scope.
Local Open Scope list_scope.

(** ** JSON values and their JavaScript reading *)

Module Js.

#[local] Unset Elimination Schemes.

Inductive Json : Type :=
| JNull
| JBool (b : bool)
| JNum (n : Z)
| JStr (s : string)
| JArr (items : list Json)
| JObj (fields : list (string * Json)).

#[local] Set Elimination Schemes.

(** JavaScript truthiness. *)
Definition truthy (j : Json) : bool :=
  match j with
  | JNull => false
  | JBool b => b
  | JNum n => negb (n =? 0)%Z
  | JStr s => negb (s =? "")
  | JArr _ | JObj _ => true
  end.

(** [a || b]. *)
Definition or_else (a b : Json) : Json := if truthy a then a else b.

Fixpoint assoc (k : string) (fs : list (string * Json)) : Json :=
  match fs with
  | [] => JNull
  | (k', v) :: rest => if k =? k' then v else assoc k rest
  end.

(** [j.k]: raises ([None]) on null/undefined, is undefined on the other
    values that are not objects. *)
Definition prop (j : Json) (k : string) : option Json :=
  match j with
  | JNull => None
  | JObj fs => Some (assoc k fs)
  | _ => Some JNull
  end.

(** [j?.k]. *)
Definition opt_prop (j : Json) (k : string) : Json :=
  match j with
  | JObj fs => assoc k fs
  | _ => JNull
  end.

(** [j === 's'] for a string literal. *)
Definition is_str (j : Json) (s : string) : bool :=
  match j with
  | JStr t => t =? s
  | _ => false
  end.

(** Truthiness of a nullable text column. *)
Definition truthy_text (o : option string) : bool :=
  match o with
  | Some s => negb (s =? "")
  | None => false
  end.

Definition text_is (o : option string) (s : string) : bool :=
  match o with
  | Some t => t =? s
  | None => false
  end.

Definition of_text (o : option string) : Json :=
  match o with
  | Some s => JStr s
  | None => JNull
  end.

(** The text of a number; the numbers of the model are integers, printed
    in decimal as JavaScript prints the integers it represents exactly. *)
Definition decimal (n : Z) : string := NilEmpty.string_of_int (Z.to_int n).

(** The text that a template literal makes of a value, which is also the
    text that the store client puts in a filter [.eq(column, value)]: an
    array is joined with commas, [null] elements left empty. *)
Fixpoint template_text (j : Json) : string :=
  match j with
  | JNull => "null"
  | JBool b => if b then "true" else "false"
  | JNum n => decimal n
  | JStr s => s
  | JArr items =>
      String.concat ","
        (map (fun x => match x with JNull => "" | _ => template_text x end) items)
  | JObj _ => "[object Object]"
  end.

Definition quote : string := String (ascii_of_nat 34) EmptyString.

Definition hex (n : nat) : string :=
  String.substring n 1 "0123456789abcdef".

Definition backslash : string := String (ascii_of_nat 92) EmptyString.

(** One character of a string in [JSON.stringify]. *)
Definition escape (c : ascii) : string :=
  let n := nat_of_ascii c in
  if (n =? 34)%nat then String.append backslash quote
  else if (n =? 92)%nat then String.append backslash backslash
  else if (n =? 8)%nat then String.append backslash "b"
  else if (n =? 9)%nat then String.append backslash "t"
  else if (n =? 10)%nat then String.append backslash "n"
  else if (n =? 12)%nat then String.append backslash "f"
  else if (n =? 13)%nat then String.append backslash "r"
  else if (n <? 32)%nat
       then String.append backslash
              (String.append "u00" (String.append (hex (n / 16)) (hex (n mod 16))))
  else String c EmptyString.

Definition quoted (s : string) : string :=
  String.append quote
    (String.append (String.concat "" (map escape (list_ascii_of_string s))) quote).

(** [JSON.stringify(j)] *)
Fixpoint stringify (j : Json) : string :=
  match j with
  | JNull => "null"
  | JBool b => if b then "true" else "false"
  | JNum n => decimal n
  | JStr s => quoted s
  | JArr items =>
      String.append "[" (String.append (String.concat "," (map stringify items)) "]")
  | JObj fields =>
      String.append "{"
        (String.append
           (String.concat ","
              (map (fun kv => String.append (quoted (fst kv))
                                (String.append ":" (stringify (snd kv)))) fields))
           "}")
  end.

Definition has_key (k : string) (fs : list (string * Json)) : bool :=
  existsb (fun kv => k =? fst kv) fs.

(** What a text column receives from a JSON value of the update: [null],
    the string itself, or the text of a value that is not a string. *)
Definition column_text (v : Json) : option string :=
  match v with
  | JNull => None
  | JStr s => Some s
  | _ => Some (stringify v)
  end.

(** The entry [col: j.k] of an object given to [.update(...)]: when [j.k]
    is undefined the key is dropped from the request and the column is left
    as it is. *)
Definition written (j : Json) (k : string) : option (option string) :=
  match j with
  | JObj fs => if has_key k fs then Some (column_text (assoc k fs)) else None
  | _ => None
  end.

End Js.
Import Js.

(** ** HTTP: requests, responses, the gateway oracle *)

Record Request := {
  method : string;
  url : string;
  auth : Json;   (* the credential put in the Authorization or x-api-key header *)
  body : Json
}.

Record HttpResponse := {
  status : Z;
  text : string;
  json : option Json   (* [None]: the body is not JSON, [json()] raises *)
}.

Definition ok (r : HttpResponse) : bool :=
  (200 <=? status r)%Z && (status r <=? 299)%Z.

Inductive FetchResult :=
| NetworkError (msg : string)
| Responded (r : HttpResponse).

Record Env := {
  gateway : nat -> Request -> FetchResult;
  SUPABASE_URL : string;
  WHAPI_PARTNER_TOKEN : string;
  WHAPI_PROJECT_ID : option string
}.

Record Response := {
  resp_status : Z;
  resp_body : Json
}.

(** ** The store *)

Record Profile := {
  p_id : string;
  whapi_token : option string;
  instance_id : option string;
  instance_status : option string;
  payment_plan : option string;
  trial_expires_at : option Z;
  p_updated_at : Z
}.

Record ScheduledMessage := {
  sm_id : string;
  sm_user_id : string;
  sm_message : string;
  media_url : option string;
  media_type : option string;
  group_ids : list string;
  send_at : Z;
  sm_status : string;
  sm_updated_at : Z
}.

Record HistoryRow := {
  h_user_id : string;
  scheduled_message_id : option string;
  h_group_id : string;
  h_message : string;
  h_media_url : option string;
  h_status : string;
  error_message : option string;
  whapi_message_id : Json
}.

(** The object given to [.update(...)] on [profiles]: a field that is
    absent from the object is left as it is. *)
Record ProfilePatch := {
  set_instance_id : option (option string);
  set_whapi_token : option (option string);
  set_instance_status : option (option string);
  set_updated_at : option Z
}.

Inductive ProfileFilter :=
| ById (userId : string)
| ByInstanceId (instanceId : Json).

Inductive Event :=
| EvFetch (r : Request)
| EvDelay (ms : Z)
| EvUpdateScheduled (id : string) (new_status : string)
| EvInsertHistory (row : HistoryRow)
| EvUpdateProfiles (f : ProfileFilter) (p : ProfilePatch)
| EvInsertProfile (p : Profile).

Record World := {
  profiles : list Profile;
  scheduled_messages : list ScheduledMessage;
  message_history : list HistoryRow;
  now : Z;
  trace : list Event
}.

Definition is_fetch (e : Event) : bool :=
  match e with EvFetch _ => true | _ => false end.

Definition is_scheduled_update (e : Event) : bool :=
  match e with EvUpdateScheduled _ _ => true | _ => false end.

Definition fetch_count (t : list Event) : nat := List.length (filter is_fetch t).

Fixpoint delays (t : list Event) : list Z :=
  match t with
  | [] => []
  | EvDelay ms :: rest => ms :: delays rest
  | _ :: rest => delays rest
  end.

Module Store.

Definition log (e : Event) (w : World) : World :=
  {| profiles := profiles w;
     scheduled_messages := scheduled_messages w;
     message_history := message_history w;
     now := now w;
     trace := e :: trace w |}.

(** [.eq('id', userId)] and [.eq('instance_id', value)]: the filter compares
    the column with the text of the value. *)
Definition matches (f : ProfileFilter) (p : Profile) : bool :=
  match f with
  | ById userId => p_id p =? userId
  | ByInstanceId i => text_is (instance_id p) (template_text i)
  end.

Definition patch (c : ProfilePatch) (p : Profile) : Profile :=
  {| p_id := p_id p;
     whapi_token := match set_whapi_token c with Some v => v | None => whapi_token p end;
     instance_id := match set_instance_id c with Some v => v | None => instance_id p end;
     instance_status :=
       match set_instance_status c with Some v => v | None => instance_status p end;
     payment_plan := payment_plan p;
     trial_expires_at := trial_expires_at p;
     p_updated_at := match set_updated_at c with Some v => v | None => p_updated_at p end |}.

Definition patch_where (f : ProfileFilter) (c : ProfilePatch) (tbl : list Profile)
  : list Profile :=
  map (fun p => if matches f p then patch c p else p) tbl.

(** [supabase.from('profiles').update(c).<filter>] *)
Definition update_profiles (f : ProfileFilter) (c : ProfilePatch) (w : World) : World :=
  {| profiles := patch_where f c (profiles w);
     scheduled_messages := scheduled_messages w;
     message_history := message_history w;
     now := now w;
     trace := EvUpdateProfiles f c :: trace w |}.

(** [.insert(p)]: refused by the primary key when the id is taken. *)
Definition insert_profile (p : Profile) (w : World) : World :=
  {| profiles := if existsb (fun q => p_id q =? p_id p) (profiles w)
                 then profiles w else profiles w ++ [p];
     scheduled_messages := scheduled_messages w;
     message_history := message_history w;
     now := now w;
     trace := EvInsertProfile p :: trace w |}.

(** [.select(...).<filter>.single()]: the row when exactly one matches. *)
Definition single_profile (f : ProfileFilter) (w : World) : option Profile :=
  match filter (matches f) (profiles w) with
  | [p] => Some p
  | _ => None
  end.

Definition set_message_status (id st : string) (upd : option Z) (m : ScheduledMessage)
  : ScheduledMessage :=
  if sm_id m =? id then
    {| sm_id := sm_id m;
       sm_user_id := sm_user_id m;
       sm_message := sm_message m;
       media_url := media_url m;
       media_type := media_type m;
       group_ids := group_ids m;
       send_at := send_at m;
       sm_status := st;
       sm_updated_at := match upd with Some t => t | None => sm_updated_at m end |}
  else m.

(** [supabase.from('scheduled_messages').update({status, updated_at?}).eq('id', id)]:
    the only filter is the id. *)
Definition update_scheduled (id st : string) (upd : option Z) (w : World) : World :=
  {| profiles := profiles w;
     scheduled_messages := map (set_message_status id st upd) (scheduled_messages w);
     message_history := message_history w;
     now := now w;
     trace := EvUpdateScheduled id st :: trace w |}.

Definition insert_history (row : HistoryRow) (w : World) : World :=
  {| profiles := profiles w;
     scheduled_messages := scheduled_messages w;
     message_history := message_history w ++ [row];
     now := now w;
     trace := EvInsertHistory row :: trace w |}.

(** [await fetch(...)]: the call is recorded, the oracle answers. *)
Definition fetch (env : Env) (r : Request) (w : World) : FetchResult * World :=
  (gateway env (fetch_count (trace w)) r, log (EvFetch r) w).

(** [await delay(ms)] / [setTimeout]: time passes. *)
Definition delay (ms : Z) (w : World) : World :=
  {| profiles := profiles w;
     scheduled_messages := scheduled_messages w;
     message_history := message_history w;
     now := (now w + ms)%Z;
     trace := EvDelay ms :: trace w |}.

End Store.

(** ** The scheduler (edge function run on a timer) *)

Module Scheduler.

(** The embedded resource [profiles!inner(whapi_token, instance_status)]. *)
Record ProfileView := {
  pv_whapi_token : option string;
  pv_instance_status : option string
}.

Record PendingMessage := {
  row : ScheduledMessage;
  joined : ProfileView
}.

Definition is_due (t : Z) (m : ScheduledMessage) : bool :=
  (sm_status m =? "pending") && (send_at m <=? t)%Z.

(** Inner join on the owner's profile: a row without one is dropped. *)
Definition join_profile (tbl : list Profile) (m : ScheduledMessage)
  : list PendingMessage :=
  match find (fun p => p_id p =? sm_user_id m) tbl with
  | Some p =>
      [ {| row := m;
           joined := {| pv_whapi_token := whapi_token p;
                        pv_instance_status := instance_status p |} |} ]
  | None => []
  end.

(** [.eq('status','pending').lte('send_at', now).limit(10)]: no [.order]. *)
Definition select_pending (w : World) : list PendingMessage :=
  firstn 10
    (flat_map (join_profile (profiles w))
       (filter (is_due (now w)) (scheduled_messages w))).

Definition send_body (m : ScheduledMessage) (groupId : string) : Json :=
  JObj ([("to", JStr groupId); ("body", JStr (sm_message m))]
        ++ (if truthy_text (media_url m)
            then [("media",
                   JObj [("url", of_text (media_url m));
                         ("type", or_else (of_text (media_type m)) (JStr "image"))])]
            else [])).

Definition send_request (token : string) (m : ScheduledMessage) (groupId : string)
  : Request :=
  {| method := "POST";
     url := "https://gate.whapi.cloud/messages/text";
     auth := JStr token;
     body := send_body m groupId |}.

Definition history_row (m : ScheduledMessage) (groupId st : string)
  (err : option string) (mid : Json) : HistoryRow :=
  {| h_user_id := sm_user_id m;
     scheduled_message_id := Some (sm_id m);
     h_group_id := groupId;
     h_message := sm_message m;
     h_media_url := media_url m;
     h_status := st;
     error_message := err;
     whapi_message_id := mid |}.

Record Counters := {
  successCount : nat;
  failCount : nat
}.

Definition succeeded (c : Counters) : Counters :=
  {| successCount := S (successCount c); failCount := failCount c |}.

Definition failed (c : Counters) : Counters :=
  {| successCount := successCount c; failCount := S (failCount c) |}.

(** One iteration of the loop over [message.group_ids]: the body of the
    inner [try], and its [catch], which only counts the failure. *)
Definition send_one (env : Env) (token : string) (m : ScheduledMessage)
  (st : World * Counters) (groupId : string) : World * Counters :=
  let '(w, c) := st in
  match Store.fetch env (send_request token m groupId) w with
  | (NetworkError _, w1) => (w1, failed c)
  | (Responded sendRes, w1) =>
      if ok sendRes then
        match json sendRes with
        | None => (w1, failed c)
        | Some result =>
            let c1 := succeeded c in
            match prop result "id" with
            | None => (w1, failed c1)
            | Some mid =>
                (Store.insert_history (history_row m groupId "sent" None mid) w1, c1)
            end
        end
      else
        let c1 := failed c in
        (Store.insert_history
           (history_row m groupId "failed" (Some (text sendRes)) JNull) w1, c1)
  end.

Definition send_all (env : Env) (token : string) (m : ScheduledMessage)
  (w : World) : World * Counters :=
  fold_left (send_one env token m) (group_ids m)
    (w, {| successCount := 0; failCount := 0 |}).

Definition finalStatus (c : Counters) : string :=
  if (0 <? successCount c)%nat
  then (if (0 <? failCount c)%nat then "partial" else "sent")
  else "failed".

Definition connected_view (v : ProfileView) : bool :=
  truthy_text (pv_whapi_token v) && text_is (pv_instance_status v) "connected".

Definition token_of (v : ProfileView) : string :=
  match pv_whapi_token v with Some t => t | None => "" end.

(** The body of the loop over [pendingMessages].  Its own [catch], which
    marks the broadcast [failed], is reached by a raise outside of the inner
    [try] only, that is by a store call; store calls do not raise here. *)
Definition process_message (env : Env) (w : World) (pm : PendingMessage) : World :=
  let m := row pm in
  let w1 := Store.update_scheduled (sm_id m) "sending" None w in
  if negb (connected_view (joined pm)) then
    Store.update_scheduled (sm_id m) "failed" (Some (now w1)) w1
  else
    let '(w2, c) := send_all env (token_of (joined pm)) m w1 in
    Store.update_scheduled (sm_id m) (finalStatus c) (Some (now w2)) w2.

Definition process_batch (env : Env) (batch : list PendingMessage) (w : World) : World :=
  fold_left (process_message env) batch w.

(** The pass.  The answer carries the number of processed rows (its
    message text, built from that number, is left out). *)
Definition run (env : Env) (w : World) : Response * World :=
  let pendingMessages := select_pending w in
  match pendingMessages with
  | [] =>
      ({| resp_status := 200;
          resp_body := JObj [("message", JStr "No pending messages")] |}, w)
  | _ =>
      ({| resp_status := 200;
          resp_body := JObj [("success", JBool true);
                             ("processed", JNum (Z.of_nat (List.length pendingMessages)))] |},
       process_batch env pendingMessages w)
  end.

End Scheduler.

(** ** Handlers that may raise: state and exceptions *)

Inductive Result (A : Type) : Type :=
| Ret (a : A)
| Raise (msg : string).
Arguments Ret {A} a.
Arguments Raise {A} msg.

Definition M (A : Type) : Type := World -> Result A * World.

Definition ret {A} (a : A) : M A := fun w => (Ret a, w).

Definition raise {A} (msg : string) : M A := fun w => (Raise msg, w).

Definition bind {A B} (m : M A) (k : A -> M B) : M B :=
  fun w =>
    match m w with
    | (Ret a, w1) => k a w1
    | (Raise e, w1) => (Raise e, w1)
    end.

(** [try { m } catch (e) { h e }]: the effects made before the raise stay. *)
Definition catch {A} (m : M A) (h : string -> M A) : M A :=
  fun w =>
    match m w with
    | (Ret a, w1) => (Ret a, w1)
    | (Raise e, w1) => h e w1
    end.

Definition lift (f : World -> World) : M unit := fun w => (Ret tt, f w).

Definition get {A} (f : World -> A) : M A := fun w => (Ret (f w), w).

Notation "x <- c ;; k" := (bind c (fun x => k))
  (at level 61, c at next level, right associativity).
Notation "c ;;; k" := (bind c (fun _ => k))
  (at level 61, right associativity).

(** [await fetch(r)] outside of a [try]: a network error raises. *)
Definition fetchM (env : Env) (r : Request) : M HttpResponse :=
  fun w =>
    match Store.fetch env r w with
    | (NetworkError e, w1) => (Raise e, w1)
    | (Responded res, w1) => (Ret res, w1)
    end.

(** [await res.json()] *)
Definition jsonM (res : HttpResponse) : M Json :=
  match json res with
  | Some j => ret j
  | None => raise "SyntaxError: body is not JSON"
  end.

(** [j.k] *)
Definition propM (j : Json) (k : string) : M Json :=
  match prop j k with
  | Some v => ret v
  | None => raise "TypeError: cannot read properties of null"
  end.

Definition json_response (code : Z) (fields : list (string * Json)) : Response :=
  {| resp_status := code; resp_body := JObj fields |}.

Definition status_patch (st : string) (t : Z) : ProfilePatch :=
  {| set_instance_id := None;
     set_whapi_token := None;
     set_instance_status := Some (Some st);
     set_updated_at := Some t |}.

(** [{ instance_id: null, whapi_token: null, instance_status: 'disconnected', updated_at }] *)
Definition reset_patch (t : Z) : ProfilePatch :=
  {| set_instance_id := Some None;
     set_whapi_token := Some None;
     set_instance_status := Some (Some "disconnected");
     set_updated_at := Some t |}.

(** ** The webhook receiver ([whapi-webhook-simple]) *)

Module Webhook.

Definition newStatus (remote : Json) : string :=
  if is_str remote "authenticated" || is_str remote "ready" then "connected"
  else if is_str remote "qr" || is_str remote "unauthorized" then "unauthorized"
  else "disconnected".

Definition handle_event (webhook : Json) : M Response :=
  event <- propM webhook "event" ;;
  data <- propM webhook "data" ;;
  (if is_str event "channel" && truthy (opt_prop data "id") then
     rows <- get (fun w => filter (Store.matches (ByInstanceId (opt_prop data "id")))
                                  (profiles w)) ;;
     match rows with
     | [] => ret tt
     | _ =>
         t <- get now ;;
         lift (Store.update_profiles (ByInstanceId (opt_prop data "id"))
                 (status_patch (newStatus (opt_prop data "status")) t))
     end
   else ret tt) ;;;
  ret (json_response 200 [("success", JBool true)]).

Definition serve (webhook : Json) (w : World) : Response * World :=
  match handle_event webhook w with
  | (Ret r, w1) => (r, w1)
  | (Raise e, w1) => (json_response 500 [("error", JStr e)], w1)
  end.

End Webhook.

(** ** The action endpoint ([whapi-simple]) *)

Module WhapiSimple.

Record RequestBody := {
  userId : string;
  action : string;
  data : Json
}.

Definition gate_get (path : string) (token : Json) : Request :=
  {| method := "GET";
     url := String.append "https://gate.whapi.cloud" path;
     auth := token;
     body := JNull |}.

Definition delete_channel (env : Env) (instanceId : string) : Request :=
  {| method := "DELETE";
     url := String.append "https://manager.whapi.cloud/channels/" instanceId;
     auth := JStr (WHAPI_PARTNER_TOKEN env);
     body := JNull |}.

(** [qrData.qr || qrData.qrCode || qrData.image || qrData.base64] *)
Definition pick_qr (qrData : Json) : M Json :=
  a <- propM qrData "qr" ;;
  b <- propM qrData "qrCode" ;;
  c <- propM qrData "image" ;;
  d <- propM qrData "base64" ;;
  ret (or_else (or_else (or_else a b) c) d).

(** [if (!qrCode.startsWith('data:image/')) qrCode = `data:image/png;base64,${qrCode}`] *)
Definition as_data_uri (qrCode : Json) : M Json :=
  match qrCode with
  | JStr s =>
      ret (JStr (if String.prefix "data:image/" s then s
                 else String.append "data:image/png;base64," s))
  | _ => raise "TypeError: qrCode.startsWith is not a function"
  end.

(** The exchange with [/qr], written twice in [handleConnect] with two
    messages: [Some] response when the function returns from it. *)
Definition fetch_qr (env : Env) (token : Json) (userId message : string)
  : M (option Response) :=
  qrResponse <- fetchM env (gate_get "/qr" token) ;;
  if ok qrResponse then
    qrData <- jsonM qrResponse ;;
    qrCode <- pick_qr qrData ;;
    if truthy qrCode then
      uri <- as_data_uri qrCode ;;
      t <- get now ;;
      lift (Store.update_profiles (ById userId) (status_patch "unauthorized" t)) ;;;
      ret (Some (json_response 200
                   [("success", JBool true); ("qr_code", uri); ("message", JStr message)]))
    else ret None
  else ret None.

Definition is_pairing (st : Json) : bool :=
  is_str st "qr" || is_str st "unauthorized".

(** [while (attempts < 8) { ... attempts++; await delay 2000 }], by the
    number of attempts that remain. *)
Fixpoint poll_for_qr (env : Env) (token : Json) (userId : string) (remaining : nat)
  : M (option Response) :=
  match remaining with
  | O => ret None
  | S n =>
      healthCheck <- fetchM env (gate_get "/health" token) ;;
      r <- (if ok healthCheck then
              health <- jsonM healthCheck ;;
              st <- propM health "status" ;;
              if is_pairing st
              then fetch_qr env token userId
                     "New instance created! Scan QR code with WhatsApp"
              else ret None
            else ret None) ;;
      match r with
      | Some resp => ret (Some resp)
      | None => lift (Store.delay 2000) ;;; poll_for_qr env token userId n
      end
  end.

(** [projects?.length > 0] then [projects[0].id]; a response that is not
    an array has no first project. *)
Definition first_project_id (projects : Json) : M Json :=
  match projects with
  | JArr (p :: _) => propM p "id"
  | _ => ret JNull
  end.

Definition resolve_project (env : Env) : M Json :=
  if truthy_text (WHAPI_PROJECT_ID env) then ret (of_text (WHAPI_PROJECT_ID env))
  else
    projectsRes <- fetchM env {| method := "GET";
                                 url := "https://manager.whapi.cloud/projects";
                                 auth := JStr (WHAPI_PARTNER_TOKEN env);
                                 body := JNull |} ;;
    if ok projectsRes then
      projects <- jsonM projectsRes ;;
      first_project_id projects
    else ret JNull.

Definition create_request (env : Env) (userId : string) (projectId : Json) : Request :=
  {| method := "PUT";
     url := "https://manager.whapi.cloud/channels";
     auth := JStr (WHAPI_PARTNER_TOKEN env);
     body := JObj [("name", JStr (String.append "reecher_" (String.substring 0 8 userId)));
                   ("projectId", projectId)] |}.

Definition settings_request (env : Env) (token : Json) : Request :=
  {| method := "PATCH";
     url := "https://gate.whapi.cloud/settings";
     auth := token;
     body := JObj [("webhooks",
               JArr [JObj [("url", JStr (String.append (SUPABASE_URL env)
                                           "/functions/v1/whapi-webhook-simple"));
                           ("events", JArr [JStr "users"; JStr "channel"]);
                           ("mode", JStr "body")]])] |}.

Definition attempts : nat := 8.

(** The second half of [handleConnect], from "Create new instance". *)
Definition create_instance (env : Env) (userId : string) (profile : option Profile)
  : M Response :=
  (match profile with
   | Some p =>
       match instance_id p with
       | Some i =>
           if truthy_text (instance_id p)
           then catch (fetchM env (delete_channel env i) ;;; ret tt) (fun _ => ret tt)
           else ret tt
       | None => ret tt
       end
   | None => ret tt
   end) ;;;
  projectId <- resolve_project env ;;
  if negb (truthy projectId) then raise "No WHAPI project available"
  else
    createRes <- fetchM env (create_request env userId projectId) ;;
    if negb (ok createRes)
    then raise (String.append "Failed to create channel: " (text createRes))
    else
      channel <- jsonM createRes ;;
      channelId <- propM channel "id" ;;
      channelToken <- propM channel "token" ;;
      catch (fetchM env (settings_request env channelToken) ;;; ret tt)
            (fun _ => ret tt) ;;;
      t <- get now ;;
      lift (Store.update_profiles (ById userId)
              {| set_instance_id := written channel "id";
                 set_whapi_token := written channel "token";
                 set_instance_status := Some (Some "initializing");
                 set_updated_at := Some t |}) ;;;
      lift (Store.delay 3000) ;;;
      r <- poll_for_qr env channelToken userId attempts ;;
      match r with
      | Some resp => ret resp
      | None =>
          ret (json_response 200
                 [("success", JBool true);
                  ("message",
                   JStr "Instance created. Please try getting QR code in a moment.");
                  ("instance_id", channelId)])
      end.

Definition handleConnect (env : Env) (userId : string) : M Response :=
  profile <- get (Store.single_profile (ById userId)) ;;
  existing <-
    (match profile with
     | Some p =>
         if truthy_text (whapi_token p) then
           healthCheck <- fetchM env (gate_get "/health" (of_text (whapi_token p))) ;;
           if ok healthCheck then
             health <- jsonM healthCheck ;;
             st <- propM health "status" ;;
             if is_str st "authenticated" || is_str st "ready" then
               t <- get now ;;
               lift (Store.update_profiles (ById userId) (status_patch "connected" t)) ;;;
               ret (Some (json_response 200
                            [("success", JBool true);
                             ("already_connected", JBool true);
                             ("message", JStr "WhatsApp already connected!")]))
             else if is_pairing st then
               fetch_qr env (of_text (whapi_token p)) userId "Scan QR code with WhatsApp"
             else ret None
           else ret None
         else ret None
     | None => ret None
     end) ;;
  match existing with
  | Some resp => ret resp
  | None => create_instance env userId profile
  end.

Definition newStatus (remote : Json) : string :=
  if is_str remote "authenticated" || is_str remote "ready" then "connected"
  else if is_str remote "qr" || is_str remote "unauthorized" then "unauthorized"
  else "disconnected".

Definition trialExpired (p : Profile) (t : Z) : bool :=
  match trial_expires_at p with
  | Some e => (e <? t)%Z
  | None => false
  end.

Definition isPaid (p : Profile) : bool :=
  text_is (payment_plan p) "monthly" || text_is (payment_plan p) "yearly".

Definition handleStatus (env : Env) (userId : string) : M Response :=
  profile <- get (Store.single_profile (ById userId)) ;;
  match profile with
  | None =>
      ret (json_response 200 [("connected", JBool false); ("status", JStr "no_instance");
                              ("message", JStr "No WhatsApp instance found")])
  | Some p =>
      if negb (truthy_text (whapi_token p)) then
        ret (json_response 200 [("connected", JBool false); ("status", JStr "no_instance");
                                ("message", JStr "No WhatsApp instance found")])
      else
        healthCheck <- fetchM env (gate_get "/health" (of_text (whapi_token p))) ;;
        if negb (ok healthCheck) then
          ret (json_response 200 [("connected", JBool false); ("status", JStr "error");
                                  ("message", JStr "Failed to check status")])
        else
          health <- jsonM healthCheck ;;
          st <- propM health "status" ;;
          let connected := is_str st "authenticated" || is_str st "ready" in
          (if negb (text_is (instance_status p) (newStatus st)) then
             t <- get now ;;
             lift (Store.update_profiles (ById userId) (status_patch (newStatus st) t))
           else ret tt) ;;;
          t <- get now ;;
          ret (json_response 200
                 [("connected", JBool connected);
                  ("status", st);
                  ("message", JStr (if connected then "WhatsApp connected"
                                    else "WhatsApp not connected"));
                  ("trial_expired", JBool (trialExpired p t && negb (isPaid p)));
                  ("trial_expires_at",
                   match trial_expires_at p with Some e => JNum e | None => JNull end);
                  ("payment_plan", of_text (payment_plan p))])
  end.

Definition handleDisconnect (env : Env) (userId : string) : M Response :=
  profile <- get (Store.single_profile (ById userId)) ;;
  (match profile with
   | Some p =>
       match instance_id p with
       | Some i =>
           if truthy_text (instance_id p)
           then catch (fetchM env (delete_channel env i) ;;; ret tt) (fun _ => ret tt)
           else ret tt
       | None => ret tt
       end
   | None => ret tt
   end) ;;;
  t <- get now ;;
  lift (Store.update_profiles (ById userId) (reset_patch t)) ;;;
  ret (json_response 200 [("success", JBool true);
                          ("message", JStr "WhatsApp disconnected")]).

Section Serve.

(** The handlers of the other actions are taken as they come. *)
Variable handleSyncGroups : Env -> string -> M Response.
Variables handleSendMessage handleScheduleMessage handleGetMessages
  : Env -> string -> Json -> M Response.

Definition is_basic (a : string) : bool :=
  (a =? "connect") || (a =? "status") || (a =? "disconnect").

Definition trial_profile (u : string) (t : Z) : Profile :=
  {| p_id := u;
     whapi_token := None;
     instance_id := None;
     instance_status := Some "disconnected";
     payment_plan := Some "trial";
     trial_expires_at := Some (t + 3 * 24 * 60 * 60 * 1000)%Z;
     p_updated_at := t |}.

Definition dispatch (env : Env) (req : RequestBody) : M Response :=
  if action req =? "status" then handleStatus env (userId req)
  else if action req =? "disconnect" then handleDisconnect env (userId req)
  else if action req =? "sync-groups" then handleSyncGroups env (userId req)
  else if action req =? "send-message" then handleSendMessage env (userId req) (data req)
  else if action req =? "schedule-message"
       then handleScheduleMessage env (userId req) (data req)
  else if action req =? "get-messages" then handleGetMessages env (userId req) (data req)
  else handleConnect env (userId req).

Definition trial_rejection : Response :=
  json_response 403
    [("error", JStr "Trial expired");
     ("message", JStr "Please upgrade to continue using WhatsApp features")].

Definition handle_request (env : Env) (req : RequestBody) : M Response :=
  if userId req =? "" then ret (json_response 400 [("error", JStr "User ID required")])
  else
    profile <- get (Store.single_profile (ById (userId req))) ;;
    (match profile with
     | None => t <- get now ;; lift (Store.insert_profile (trial_profile (userId req) t))
     | Some _ => ret tt
     end) ;;;
    t <- get now ;;
    let gated :=
      negb (is_basic (action req)) &&
      match profile with
      | Some p => trialExpired p t && negb (isPaid p)
      | None => false
      end in
    if gated then ret trial_rejection
    else dispatch env req.

(** The outer [try]/[catch] of the entry point. *)
Definition serve (env : Env) (req : RequestBody) (w : World) : Response * World :=
  match handle_request env req w with
  | (Ret r, w1) => (r, w1)
  | (Raise e, w1) => (json_response 500 [("error", JStr e)], w1)
  end.

End Serve.

End WhapiSimple.

(** ** The status check ([whapi-check-status]) *)

Module CheckStatus.

Definition partner_get (env : Env) (path : string) : Request :=
  {| method := "GET";
     url := String.append "https://gateway.whapi.cloud/partner/v1/instances" path;
     auth := JStr (WHAPI_PARTNER_TOKEN env);
     body := JNull |}.

(** [inst.instanceId === id || inst.id === id] over the array, left to
    right, stopping at the first match. *)
Fixpoint some_instance (id : string) (items : list Json) : M bool :=
  match items with
  | [] => ret false
  | inst :: rest =>
      a <- propM inst "instanceId" ;;
      b <- propM inst "id" ;;
      if is_str a id || is_str b id then ret true else some_instance id rest
  end.

(** [instances?.some(...)], read as a condition. *)
Definition instanceExists (id : string) (instances : Json) : M bool :=
  match instances with
  | JNull => ret false
  | JArr items => some_instance id items
  | _ => raise "TypeError: instances?.some is not a function"
  end.

Definition isConnected (remote : Json) : bool :=
  is_str remote "active" || is_str remote "connected".

Definition requires_new_instance (message : string) : Response :=
  json_response 200 [("connected", JBool false);
                     ("error", JStr message);
                     ("requiresNewInstance", JBool true)].

Definition check (env : Env) (userId : string) : M Response :=
  if userId =? "" then ret (json_response 400 [("error", JStr "User ID is required")])
  else if WHAPI_PARTNER_TOKEN env =? "" then
    ret (json_response 200 [("connected", JBool false);
                            ("error", JStr "WHAPI partner token not configured")])
  else
    profile <- get (Store.single_profile (ById userId)) ;;
    match profile with
    | None =>
        ret (json_response 200 [("connected", JBool false);
                                ("error", JStr "No instance found")])
    | Some p =>
        match instance_id p with
        | None =>
            ret (json_response 200 [("connected", JBool false);
                                    ("error", JStr "No instance found")])
        | Some id =>
            if id =? "" then
              ret (json_response 200 [("connected", JBool false);
                                      ("error", JStr "No instance found")])
            else
              verifyResponse <- fetchM env (partner_get env "") ;;
              gone <- (if ok verifyResponse then
                         instances <- jsonM verifyResponse ;;
                         found <- instanceExists id instances ;;
                         ret (negb found)
                       else ret false) ;;
              if gone then
                t <- get now ;;
                lift (Store.update_profiles (ById userId) (reset_patch t)) ;;;
                ret (requires_new_instance
                       "Instance no longer exists. Please create a new instance.")
              else
                statusResponse <-
                  fetchM env (partner_get env
                                (String.append "/" (String.append id "/status"))) ;;
                if negb (ok statusResponse) then
                  if (status statusResponse =? 404)%Z then
                    t <- get now ;;
                    lift (Store.update_profiles (ById userId) (reset_patch t)) ;;;
                    ret (requires_new_instance
                           "Instance not found. Please create a new instance.")
                  else
                    ret (json_response 200 [("connected", JBool false);
                                            ("error", JStr "Status check failed")])
                else
                  statusData <- jsonM statusResponse ;;
                  st <- propM statusData "status" ;;
                  (if isConnected st && negb (text_is (instance_status p) "connected") then
                     t <- get now ;;
                     lift (Store.update_profiles (ById userId) (status_patch "connected" t))
                   else ret tt) ;;;
                  ret (json_response 200 [("connected", JBool (isConnected st));
                                          ("status", st);
                                          ("instance_id", JStr id)])
        end
    end.

(** The [catch] of the entry point answers 200 with [connected: false]. *)
Definition serve (env : Env) (userId : string) (w : World) : Response * World :=
  match check env userId w with
  | (Ret r, w1) => (r, w1)
  | (Raise e, w1) =>
      (json_response 200 [("connected", JBool false); ("error", JStr e)], w1)
  end.

End CheckStatus.

(** ** Pairing-code retrieval of the workflow variant ([attemptGetQR]) *)

Module Workflow.

Definition qrEndpoints : list string :=
  [ "https://gate.whapi.cloud/screen";
    "https://gate.whapi.cloud/screenshot";
    "https://gate.whapi.cloud/qr";
    "https://gate.whapi.cloud/auth/qr";
    "https://gate.whapi.cloud/instance/qr" ].

Definition initEndpoints : list string :=
  [ "https://gate.whapi.cloud/start";
    "https://gate.whapi.cloud/init";
    "https://gate.whapi.cloud/instance/start" ].

Definition qr_request (endpoint : string) (channelToken : Json) : Request :=
  {| method := "GET"; url := endpoint; auth := channelToken; body := JNull |}.

Definition init_request (endpoint : string) (channelToken : Json) : Request :=
  {| method := "POST"; url := endpoint; auth := channelToken; body := JNull |}.

(** [qrData.qr || qrData.screen || qrData.image || qrData.base64 ||
     qrData.qrCode || qrData.data || qrData.screenshot || qrData.qr_code];
    [Object.keys(qrData)] raises first on a null body. *)
Definition pick_qr (qrData : Json) : M Json :=
  a <- propM qrData "qr" ;;
  ret (fold_left (fun acc k => or_else acc (opt_prop qrData k))
         ["screen"; "image"; "base64"; "qrCode"; "data"; "screenshot"; "qr_code"] a).

Definition qr_success (uri : Json) : Json :=
  JObj [("success", JBool true); ("qr_code", uri);
        ("message", JStr "Scan this QR code with WhatsApp")].

Definition qr_unavailable : Json :=
  JObj [("success", JBool false);
        ("message",
         JStr "QR code not available yet. The channel may still be initializing.")].

(** The body of the [try] for one endpoint of the first loop. *)
Definition try_endpoint (env : Env) (channelToken : Json) (endpoint : string)
  : M (option Json) :=
  qrRes <- fetchM env (qr_request endpoint channelToken) ;;
  if ok qrRes then
    qrData <- jsonM qrRes ;;
    qrCode <- pick_qr qrData ;;
    if truthy qrCode then
      uri <- WhapiSimple.as_data_uri qrCode ;;
      ret (Some (qr_success uri))
    else ret None
  else ret None.

(** [for (const endpoint of qrEndpoints) { try {...} catch {...} }] *)
Fixpoint try_endpoints (env : Env) (channelToken : Json) (endpoints : list string)
  (w : World) : option Json * World :=
  match endpoints with
  | [] => (None, w)
  | endpoint :: rest =>
      match catch (try_endpoint env channelToken endpoint) (fun _ => ret None) w with
      | (Ret (Some r), w1) => (Some r, w1)
      | (_, w1) => try_endpoints env channelToken rest w1
      end
  end.

(** [attemptGetQR] calls itself after every successful initialisation
    call, without a counter; [fuel] bounds the depth of the calls, and the
    result is [None] when it is exhausted. *)
Fixpoint attemptGetQR (fuel : nat) (env : Env) (channelToken : Json) (w : World)
  : option (Json * World) :=
  match fuel with
  | O => None
  | S fuel' =>
      match try_endpoints env channelToken qrEndpoints w with
      | (Some r, w1) => Some (r, w1)
      | (None, w1) =>
          (fix init (endpoints : list string) (w : World) : option (Json * World) :=
             match endpoints with
             | [] => Some (qr_unavailable, w)
             | initEndpoint :: rest =>
                 match Store.fetch env (init_request initEndpoint channelToken) w with
                 | (Responded initRes, w2) =>
                     if ok initRes
                     then attemptGetQR fuel' env channelToken (Store.delay 3000 w2)
                     else init rest w2
                 | (NetworkError _, w2) => init rest w2
                 end
             end) initEndpoints w1
      end
  end.

End Workflow.

(** ** Pairing-code retrieval of the QR endpoint ([attemptQrRetrieval]) *)

Module GetQr.

Section Retrieval.

(** The QR processor of the endpoint is a collaborator whose code is not
    part of the function; its three operations are taken as given. *)
Variable createErrorResponse : Z -> string -> string -> Json.
Variable processQrResponse : Json -> option Json.
Variable createNetworkErrorResponse : string -> Json.

Definition maxRetries : nat := 2.
Definition baseDelay : Z := 2000.

Definition settings_request (channelToken : string) : Request :=
  {| method := "GET";
     url := "https://gate.whapi.cloud/settings";
     auth := JStr channelToken;
     body := JNull |}.

Definition qr_request (instanceId channelToken : string) : Request :=
  {| method := "GET";
     url := String.append "https://gate.whapi.cloud/instance/qr?id=" instanceId;
     auth := JStr channelToken;
     body := JNull |}.

(** [checkChannelAccessibility]: a network error reads as not accessible. *)
Definition checkChannelAccessibility (env : Env) (channelToken : string) : M bool :=
  catch (response <- fetchM env (settings_request channelToken) ;; ret (ok response))
        (fun _ => ret false).

Inductive Attempt :=
| Return (result : Json)
| Retryable (errorResult : Json).

(** [Object.keys(j)], evaluated for the log line: it raises on [null]. *)
Definition keysM (j : Json) : M unit :=
  match j with
  | JNull => raise "TypeError: Cannot convert undefined or null to object"
  | _ => ret tt
  end.

(** The body of the [try] up to the decision to retry. *)
Definition attempt_once (env : Env) (instanceId channelToken : string) : M Attempt :=
  if channelToken =? "" then raise "Channel token is required for QR generation"
  else
    isAccessible <- checkChannelAccessibility env channelToken ;;
    if negb isAccessible
    then ret (Return (createErrorResponse 404 "Channel not accessible" instanceId))
    else
      qrResponse <- fetchM env (qr_request instanceId channelToken) ;;
      if ok qrResponse then
        qrData <- jsonM qrResponse ;;
        keysM qrData ;;;
        match processQrResponse qrData with
        | Some r => ret (Return r)
        | None => raise "QR processing failed"
        end
      else
        let errorResult :=
          createErrorResponse (status qrResponse) (text qrResponse) instanceId in
        retryable <- propM errorResult "retryable" ;;
        if truthy retryable then ret (Retryable errorResult)
        else ret (Return errorResult).

Definition delayMs (retryCount : nat) : Z := (baseDelay * 2 ^ Z.of_nat retryCount)%Z.

(** [attemptQrRetrieval(..., retryCount)]; every recursive call has
    [retryCount + 1], and [fuel] bounds their number. *)
Fixpoint attemptQrRetrieval (fuel : nat) (env : Env) (instanceId channelToken : string)
  (retryCount : nat) (w : World) : option (Json * World) :=
  match fuel with
  | O => None
  | S fuel' =>
      match attempt_once env instanceId channelToken w with
      | (Ret (Return r), w1) => Some (r, w1)
      | (Ret (Retryable errorResult), w1) =>
          if (retryCount <? maxRetries)%nat
          then attemptQrRetrieval fuel' env instanceId channelToken (S retryCount)
                 (Store.delay (delayMs retryCount) w1)
          else Some (errorResult, w1)
      | (Raise e, w1) =>
          if (retryCount <? maxRetries)%nat
          then attemptQrRetrieval fuel' env instanceId channelToken (S retryCount)
                 (Store.delay (delayMs retryCount) w1)
          else Some (createNetworkErrorResponse e, w1)
      end
  end.

End Retrieval.

End GetQr.

(** ** Status writes as the store sees them *)

(** A status write is the update a handler sends to the store: the status,
    and the timestamp the handler read from its clock when it built the
    update.  The poll ([handleStatus]) addresses the row by user id, the
    webhook by channel identifier. *)
Record StatusWrite := {
  target : ProfileFilter;
  written_status : string;
  stamped_at : Z
}.

Definition apply_write (tbl : list Profile) (wr : StatusWrite) : list Profile :=
  Store.patch_where (target wr) (status_patch (written_status wr) (stamped_at wr)) tbl.

(** The writes in the order the store applies them. *)
Definition apply_writes (tbl : list Profile) (ws : list StatusWrite) : list Profile :=
  fold_left apply_write ws tbl.

Definition addresses (p : Profile) (wr : StatusWrite) : bool :=
  Store.matches (target wr) p.

(** In the words of the specification: the write with the latest timestamp
    (the first of them on a tie). *)
Fixpoint latest (d : StatusWrite) (ws : list StatusWrite) : StatusWrite :=
  match ws with
  | [] => d
  | wr :: rest => if (stamped_at d <? stamped_at wr)%Z then latest wr rest else latest d rest
  end.

Definition latest_of (ws : list StatusWrite) : option StatusWrite :=
  match ws with
  | [] => None
  | d :: rest => Some (latest d rest)
  end.

Definition earlier (a b : StatusWrite) : Prop := (stamped_at a < stamped_at b)%Z.

(** ** Observations on traces *)

(** The ids claimed (set to [sending]), newest first. *)
Fixpoint claims (t : list Event) : list string :=
  match t with
  | [] => []
  | EvUpdateScheduled id st :: rest =>
      if st =? "sending" then id :: claims rest else claims rest
  | _ :: rest => claims rest
  end.

(** In the words of the specification: ordered by [send_at] ascending. *)
Fixpoint ascending (l : list Z) : bool :=
  match l with
  | a :: (b :: _) as rest => (a <=? b)%Z && ascending rest
  | _ => true
  end.

Definition has_profile (tbl : list Profile) (m : ScheduledMessage) : bool :=
  existsb (fun p => p_id p =? sm_user_id m) tbl.

(** What the loop over the recipients may do between two worlds: [n]
    gateway calls, history rows, and nothing else. *)
Definition send_effects (n : nat) (w w' : World) : Prop :=
  exists evs,
    trace w' = evs ++ trace w /\
    fetch_count evs = n /\
    filter is_scheduled_update evs = [] /\
    claims evs = [] /\
    scheduled_messages w' = scheduled_messages w /\
    profiles w' = profiles w /\
    now w' = now w.

(** A gateway that answers every call, and with a JSON body other than
    [null] when it accepts. *)
Definition answers (env : Env) : Prop :=
  forall (n : nat) (r : Request),
    exists res, gateway env n r = Responded res /\
      (ok res = true -> exists j, json res = Some j /\ j <> JNull).

(** An entry of the partner's instance list that is not the channel [id],
    and one that is. *)
Definition other_instance (id : string) (inst : Json) : Prop :=
  inst <> JNull /\
  is_str (opt_prop inst "instanceId") id = false /\
  is_str (opt_prop inst "id") id = false.

Definition names_instance (id : string) (inst : Json) : Prop :=
  inst <> JNull /\
  is_str (opt_prop inst "instanceId") id || is_str (opt_prop inst "id") id = true.

(** The gateway reports the channel [id] as not found to a status check
    whose first call has index [n]: the instance list lacks it, or the
    status endpoint answers 404 (it is asked when the list could not be
    read or names the channel). *)
Inductive reported_gone (env : Env) (n : nat) (id : string) : Prop :=
| absent_from_list (res : HttpResponse) (items : list Json) :
    gateway env n (CheckStatus.partner_get env "") = Responded res ->
    ok res = true ->
    json res = Some (JArr items) ->
    Forall (other_instance id) items ->
    reported_gone env n id
| not_found_unlisted (res res' : HttpResponse) :
    gateway env n (CheckStatus.partner_get env "") = Responded res ->
    ok res = false ->
    gateway env (S n)
      (CheckStatus.partner_get env (String.append "/" (String.append id "/status")))
    = Responded res' ->
    status res' = 404%Z ->
    reported_gone env n id
| not_found_listed (res res' : HttpResponse) (before after : list Json) (inst : Json) :
    gateway env n (CheckStatus.partner_get env "") = Responded res ->
    ok res = true ->
    json res = Some (JArr (before ++ inst :: after)) ->
    Forall (other_instance id) before ->
    names_instance id inst ->
    gateway env (S n)
      (CheckStatus.partner_get env (String.append "/" (String.append id "/status")))
    = Responded res' ->
    status res' = 404%Z ->
    reported_gone env n id.

Definition calls (w : World) : nat := fetch_count (trace w).

(** The delays waited so far, newest first. *)
Definition waits (w : World) : list Z := delays (trace w).

(** The gateway accepts the send that is its call number [n]. *)
Definition accepted_send (env : Env) (n : nat) (r : Request) : bool :=
  match gateway env n r with
  | Responded res => ok res
  | NetworkError _ => false
  end.

(** What happened to the recipients [gs] of a broadcast, in order, when the
    send to the first of them is the call number [n]: [true] for a send
    that the gateway accepted, [false] for one it refused or that raised. *)
Fixpoint outcomes (env : Env) (token : string) (m : ScheduledMessage) (n : nat)
  (gs : list string) : list bool :=
  match gs with
  | [] => []
  | g :: rest =>
      accepted_send env n (Scheduler.send_request token m g)
      :: outcomes env token m (S n) rest
  end.

(** The gateway answers a call it accepts with a JSON body other than
    [null]; it may refuse a call, and a call may raise. *)
Definition readable_answers (env : Env) : Prop :=
  forall (n : nat) (r : Request) (res : HttpResponse),
    gateway env n r = Responded res ->
    ok res = true ->
    exists j, json res = Some j /\ j <> JNull.

(** The user has no channel: no stored credential and no stored identifier. *)
Definition no_channel (userId : string) (w : World) : Prop :=
  match Store.single_profile (ById userId) w with
  | Some p => truthy_text (whapi_token p) = false /\ truthy_text (instance_id p) = false
  | None => True
  end.

(** The answers of [connect]: a pairing code as a data URI, or the
    acknowledgement that the instance was created. *)
Definition pairing_payload (r : Response) : Prop :=
  resp_status r = 200%Z /\
  opt_prop (resp_body r) "success" = JBool true /\
  exists uri,
    opt_prop (resp_body r) "qr_code" = JStr uri /\
    String.prefix "data:image/" uri = true.

Definition pending_ack (r : Response) : Prop :=
  resp_status r = 200%Z /\
  opt_prop (resp_body r) "success" = JBool true /\
  opt_prop (resp_body r) "qr_code" = JNull /\
  opt_prop (resp_body r) "message"
  = JStr "Instance created. Please try getting QR code in a moment.".

(** Exponential backoff in the words of the specification: each delay is
    twice the one before. *)
Fixpoint doubling (l : list Z) : bool :=
  match l with
  | a :: (b :: _) as rest => (b =? 2 * a)%Z && doubling rest
  | _ => true
  end.

(** What [connect] may have done between two worlds, and its answer. *)
Definition connect_outcome (w : World) (x : Result Response * World) : Prop :=
  (calls (snd x) <= calls w + 19)%nat /\
  (waits (snd x) = waits w \/
   exists k : nat, (k <= 8)%nat /\ waits (snd x) = repeat 2000%Z k ++ 3000%Z :: waits w) /\
  match fst x with
  | Ret resp => pairing_payload resp \/ pending_ack resp
  | Raise _ => True
  end.

(** ** Sample data *)

Module Sample.

Definition alice : Profile :=
  {| p_id := "alice";
     whapi_token := Some "tok-alice";
     instance_id := Some "chan-1";
     instance_status := Some "connected";
     payment_plan := Some "trial";
     trial_expires_at := Some 5000%Z;
     p_updated_at := 0 |}.

Definition broadcast (id : string) (groups : list string) (at_ : Z) : ScheduledMessage :=
  {| sm_id := id;
     sm_user_id := "alice";
     sm_message := "hello";
     media_url := None;
     media_type := None;
     group_ids := groups;
     send_at := at_;
     sm_status := "pending";
     sm_updated_at := 0 |}.

Definition world (msgs : list ScheduledMessage) : World :=
  {| profiles := [alice];
     scheduled_messages := msgs;
     message_history := [];
     now := 1000;
     trace := [] |}.

Definition accepted : FetchResult :=
  Responded {| status := 200; text := "{}"; json := Some (JObj [("id", JStr "wamid")]) |}.

Definition rejected : FetchResult :=
  Responded {| status := 400; text := "group not found"; json := None |}.

Definition env_of (g : nat -> Request -> FetchResult) : Env :=
  {| gateway := g;
     SUPABASE_URL := "https://project.supabase.co";
     WHAPI_PARTNER_TOKEN := "partner";
     WHAPI_PROJECT_ID := Some "proj" |}.

(** Every send is accepted. *)
Definition all_accepted : Env := env_of (fun _ _ => accepted).

(** The second call gets an error response. *)
Definition second_rejected : Env :=
  env_of (fun n _ => if (n =? 1)%nat then rejected else accepted).

(** The second call raises. *)
Definition second_raises : Env :=
  env_of (fun n _ => if (n =? 1)%nat then NetworkError "connection reset" else accepted).

(** Every send is accepted, with the body [null]. *)
Definition accepted_with_null : Env :=
  env_of (fun _ _ => Responded {| status := 200; text := "null"; json := Some JNull |}).

(** The same store after the trial of [alice] has run out. *)
Definition late_world : World :=
  {| profiles := [alice];
     scheduled_messages := [];
     message_history := [];
     now := 9000;
     trace := [] |}.

Definition no_handler (_ : Env) (_ : string) : M Response :=
  ret (json_response 200 []).

Definition no_data_handler (_ : Env) (_ : string) (_ : Json) : M Response :=
  ret (json_response 200 []).

Definition channel_event (id st : string) : Json :=
  JObj [("event", JStr "channel");
        ("data", JObj [("id", JStr id); ("status", JStr st)])].

(** A gateway whose instance list holds another channel only. *)
Definition lists_other_channel : Env :=
  env_of (fun _ _ =>
    Responded {| status := 200; text := "[]";
                 json := Some (JArr [JObj [("id", JStr "chan-2")]]) |}).

(** A user without a channel. *)
Definition bob : Profile :=
  {| p_id := "bob";
     whapi_token := None;
     instance_id := None;
     instance_status := Some "disconnected";
     payment_plan := Some "trial";
     trial_expires_at := Some 5000%Z;
     p_updated_at := 0 |}.

Definition fresh_world : World :=
  {| profiles := [alice; bob];
     scheduled_messages := [];
     message_history := [];
     now := 1000;
     trace := [] |}.

Definition connect_bob : WhapiSimple.RequestBody :=
  {| WhapiSimple.userId := "bob"; WhapiSimple.action := "connect";
     WhapiSimple.data := JNull |}.

(** The gateway refuses every call. *)
Definition create_fails : Env :=
  env_of (fun _ _ =>
    Responded {| status := 500; text := "quota exceeded"; json := None |}).

(** The channel is created and then stays in [loading]. *)
Definition never_ready : Env :=
  env_of (fun _ r =>
    if url r =? "https://manager.whapi.cloud/channels" then
      Responded {| status := 200; text := "";
                   json := Some (JObj [("id", JStr "chan-9"); ("token", JStr "tok-9")]) |}
    else
      Responded {| status := 200; text := "";
                   json := Some (JObj [("status", JStr "loading")]) |}).

(** No QR endpoint serves a code, and the initialisation call is accepted
    every time. *)
Definition always_initialising : Env :=
  env_of (fun _ r =>
    if method r =? "POST" then Responded {| status := 200; text := ""; json := None |}
    else Responded {| status := 404; text := "not found"; json := None |}).

End Sample.

(** * Further handlers of the action endpoint *)

Module Actions.

(** The payload of [send-message], as the client declares it; a field that
    may be missing is an option. *)
Record SendData := {
  sd_groupIds : option (list string);
  sd_message : option string;
  sd_mediaUrl : option string;
  sd_mediaType : option string
}.

Definition groups_of (o : option (list string)) : list string :=
  match o with
  | Some l => l
  | None => []
  end.

Definition text_of (o : option string) : string :=
  match o with
  | Some s => s
  | None => ""
  end.

Definition direct_body (d : SendData) (groupId : string) : Json :=
  JObj ([("to", JStr groupId); ("body", JStr (text_of (sd_message d)))]
        ++ (if truthy_text (sd_mediaUrl d)
            then [("media",
                   JObj [("url", of_text (sd_mediaUrl d));
                         ("type", or_else (of_text (sd_mediaType d)) (JStr "image"))])]
            else [])).

Definition direct_request (token : string) (d : SendData) (groupId : string) : Request :=
  {| method := "POST";
     url := "https://gate.whapi.cloud/messages/text";
     auth := JStr token;
     body := direct_body d groupId |}.

(** A row of [message_history] for a direct send: no scheduled message. *)
Definition direct_row (userId : string) (d : SendData) (groupId st : string)
  (err : option string) (mid : Json) : HistoryRow :=
  {| h_user_id := userId;
     scheduled_message_id := None;
     h_group_id := groupId;
     h_message := text_of (sd_message d);
     h_media_url := sd_mediaUrl d;
     h_status := st;
     error_message := err;
     whapi_message_id := mid |}.

Definition delivered (groupId : string) (mid : Json) : Json :=
  JObj [("groupId", JStr groupId); ("success", JBool true); ("messageId", mid)].

Definition undelivered (groupId error : string) : Json :=
  JObj [("groupId", JStr groupId); ("success", JBool false); ("error", JStr error)].

Record Progress := {
  results : list Json;
  sent : nat
}.

(** One iteration of the loop over [groupIds]: the inner [try] and its
    [catch], which pushes a failed result and writes no history row. *)
Definition send_direct (env : Env) (token userId : string) (d : SendData)
  (st : World * Progress) (groupId : string) : World * Progress :=
  let '(w, p) := st in
  match Store.fetch env (direct_request token d groupId) w with
  | (NetworkError e, w1) =>
      (w1, {| results := results p ++ [undelivered groupId e]; sent := sent p |})
  | (Responded sendRes, w1) =>
      if ok sendRes then
        match json sendRes with
        | None =>
            (w1, {| results := results p
                               ++ [undelivered groupId "SyntaxError: body is not JSON"];
                    sent := sent p |})
        | Some result =>
            match prop result "id" with
            | None =>
                (w1, {| results := results p
                                   ++ [undelivered groupId
                                         "TypeError: cannot read properties of null"];
                        sent := sent p |})
            | Some mid =>
                (Store.insert_history (direct_row userId d groupId "sent" None mid) w1,
                 {| results := results p ++ [delivered groupId mid];
                    sent := S (sent p) |})
            end
        end
      else
        (Store.insert_history
           (direct_row userId d groupId "failed" (Some (text sendRes)) JNull) w1,
         {| results := results p ++ [undelivered groupId (text sendRes)];
            sent := sent p |})
  end.

Definition not_connected : Response :=
  json_response 400 [("error", JStr "WhatsApp not connected")].

(** [handleSendMessage]; the text of its message, built from the two
    counts, is left out of the answer. *)
Definition handleSendMessage (env : Env) (userId : string) (d : SendData) : M Response :=
  match groups_of (sd_groupIds d) with
  | [] => ret (json_response 400 [("error", JStr "Group IDs and message are required")])
  | groupIds =>
      if negb (truthy_text (sd_message d)) then
        ret (json_response 400 [("error", JStr "Group IDs and message are required")])
      else
        profile <- get (Store.single_profile (ById userId)) ;;
        match profile with
        | None => ret not_connected
        | Some p =>
            if negb (truthy_text (whapi_token p))
               || negb (text_is (instance_status p) "connected")
            then ret not_connected
            else
              fun w =>
                let '(w1, done) :=
                  fold_left (send_direct env (text_of (whapi_token p)) userId d) groupIds
                    (w, {| results := []; sent := 0 |}) in
                (Ret (json_response 200
                        [("success", JBool (0 <? sent done)%nat);
                         ("results", JArr (results done))]), w1)
        end
  end.

(** The two tables read by [handleScheduleMessage] to resolve tags; only
    the columns of the query are kept. *)
Record GroupRow := {
  g_id : string;
  g_user_id : string;
  g_group_id : string
}.

Record TagAssignment := {
  a_group_id : string;
  a_tag_id : string
}.

(** The payload of [schedule-message], as the client declares it. *)
Record ScheduleData := {
  sc_message : option string;
  sc_sendAt : option string;
  sc_groupIds : option (list string);
  sc_tagIds : option (list string);
  sc_mediaUrl : option string;
  sc_mediaType : option string
}.

Definition mem (x : string) (l : list string) : bool := existsb (String.eqb x) l.

(** [[...new Set(l)]]: the first occurrence of each element, in order. *)
Fixpoint dedup (seen l : list string) : list string :=
  match l with
  | [] => []
  | x :: rest => if mem x seen then dedup seen rest else x :: dedup (x :: seen) rest
  end.

(** [.from('group_tag_assignments').select('group_id, whatsapp_groups!inner(group_id)')
     .in('tag_id', tagIds).eq('whatsapp_groups.user_id', userId)], mapped to
    [tg.whatsapp_groups.group_id]. *)
Definition tagGroupIds (groups : list GroupRow) (assignments : list TagAssignment)
  (userId : string) (tagIds : list string) : list string :=
  flat_map
    (fun a =>
       match find (fun g => g_id g =? a_group_id a) groups with
       | Some g => if g_user_id g =? userId then [g_group_id g] else []
       | None => []
       end)
    (filter (fun a => mem (a_tag_id a) tagIds) assignments).

Definition finalGroupIds (groups : list GroupRow) (assignments : list TagAssignment)
  (userId : string) (d : ScheduleData) : list string :=
  match groups_of (sc_tagIds d) with
  | [] => groups_of (sc_groupIds d)
  | tagIds =>
      dedup [] (groups_of (sc_groupIds d) ++ tagGroupIds groups assignments userId tagIds)
  end.

Section Schedule.

(** The store reads the text of [send_at] as a timestamp and draws the id
    of the new row. *)
Variable parse_timestamp : string -> option Z.
Variable gen_random_uuid : World -> string.

Variable groups : list GroupRow.
Variable assignments : list TagAssignment.

Definition new_row (userId : string) (d : ScheduleData) (t : Z) (w : World)
  : ScheduledMessage :=
  {| sm_id := gen_random_uuid w;
     sm_user_id := userId;
     sm_message := text_of (sc_message d);
     media_url := sc_mediaUrl d;
     media_type := sc_mediaType d;
     group_ids := finalGroupIds groups assignments userId d;
     send_at := t;
     sm_status := "pending";
     sm_updated_at := now w |}.

(** [.from('scheduled_messages').insert(row)]: refused when the owner has
    no profile (foreign key) or the send time cannot be read.  The column
    [tag_ids], which no code reads, is not kept; the trace has no event for
    this insert. *)
Definition insert_scheduled (userId : string) (d : ScheduleData) (w : World)
  : option ScheduledMessage * World :=
  match parse_timestamp (text_of (sc_sendAt d)) with
  | Some t =>
      if existsb (fun p => p_id p =? userId) (profiles w) then
        (Some (new_row userId d t w),
         {| profiles := profiles w;
            scheduled_messages := scheduled_messages w ++ [new_row userId d t w];
            message_history := message_history w;
            now := now w;
            trace := trace w |})
      else (None, w)
  | None => (None, w)
  end.

Definition has_length (o : option (list string)) : bool :=
  match o with
  | Some (_ :: _) => true
  | _ => false
  end.

(** [handleScheduleMessage]; the text of its message is left out. *)
Definition handleScheduleMessage (env : Env) (userId : string) (d : ScheduleData)
  : M Response :=
  if negb (truthy_text (sc_message d))
     || (negb (has_length (sc_groupIds d)) && negb (has_length (sc_tagIds d)))
     || negb (truthy_text (sc_sendAt d))
  then ret (json_response 400
              [("error", JStr "Message, recipients, and send time are required")])
  else
    fun w =>
      match insert_scheduled userId d w with
      | (Some scheduled, w1) =>
          (Ret (json_response 200
                  [("success", JBool true);
                   ("scheduled_message",
                    JObj [("id", JStr (sm_id scheduled));
                          ("user_id", JStr (sm_user_id scheduled));
                          ("group_ids", JArr (map JStr (group_ids scheduled)));
                          ("status", JStr (sm_status scheduled))])]), w1)
      | (None, w1) =>
          (Ret (json_response 400 [("error", JStr "Failed to schedule message")]), w1)
      end.

End Schedule.

End Actions.

(** * Further observations *)

(** The gateway calls a pass has to make for a batch: one for each recipient
    of each broadcast whose joined profile is connected. *)
Fixpoint planned_calls (batch : list Scheduler.PendingMessage) : nat :=
  match batch with
  | [] => 0
  | pm :: rest =>
      ((if Scheduler.connected_view (Scheduler.joined pm)
        then List.length (group_ids (Scheduler.row pm)) else 0)
       + planned_calls rest)%nat
  end.

(** A stored broadcast before and after a pass: nothing but the status and
    the update time may differ, and nothing at all when its id is not among
    [ids]. *)
Definition retouched (ids : list string) (m m' : ScheduledMessage) : Prop :=
  sm_id m' = sm_id m /\
  sm_user_id m' = sm_user_id m /\
  sm_message m' = sm_message m /\
  media_url m' = media_url m /\
  media_type m' = media_type m /\
  group_ids m' = group_ids m /\
  send_at m' = send_at m /\
  (~ In (sm_id m) ids -> m' = m).

(** A history row written for a recipient of the broadcast [m]. *)
Definition record_of (m : ScheduledMessage) (h : HistoryRow) : Prop :=
  scheduled_message_id h = Some (sm_id m) /\
  h_user_id h = sm_user_id m /\
  h_message h = sm_message m /\
  In (h_group_id h) (group_ids m) /\
  (h_status h = "sent" \/ h_status h = "failed").

(** Two versions of a profile that differ at most by the status and the
    update time. *)
Definition status_only (p p' : Profile) : Prop :=
  p_id p' = p_id p /\
  whapi_token p' = whapi_token p /\
  instance_id p' = instance_id p /\
  payment_plan p' = payment_plan p /\
  trial_expires_at p' = trial_expires_at p.

(** The channel identifier and the status that an event makes the webhook
    receiver write, when it makes it write at all. *)
Definition webhook_target (ev : Json) : option (Json * string) :=
  match prop ev "event", prop ev "data" with
  | Some e, Some d =>
      if is_str e "channel" && truthy (opt_prop d "id")
      then Some (opt_prop d "id", Webhook.newStatus (opt_prop d "status"))
      else None
  | _, _ => None
  end.

(** The gateway answers a status check whose first call has index [n]
    with the remote status [st] of the channel [id]: the status endpoint is
    asked when the instance list could not be read or names the channel. *)
Inductive reported_status (env : Env) (n : nat) (id : string) (st : Json) : Prop :=
| status_unlisted (res res' : HttpResponse) (statusData : Json) :
    gateway env n (CheckStatus.partner_get env "") = Responded res ->
    ok res = false ->
    gateway env (S n)
      (CheckStatus.partner_get env (String.append "/" (String.append id "/status")))
    = Responded res' ->
    ok res' = true ->
    json res' = Some statusData ->
    prop statusData "status" = Some st ->
    reported_status env n id st
| status_listed (res res' : HttpResponse) (before after : list Json) (inst : Json)
    (statusData : Json) :
    gateway env n (CheckStatus.partner_get env "") = Responded res ->
    ok res = true ->
    json res = Some (JArr (before ++ inst :: after)) ->
    Forall (other_instance id) before ->
    names_instance id inst ->
    gateway env (S n)
      (CheckStatus.partner_get env (String.append "/" (String.append id "/status")))
    = Responded res' ->
    ok res' = true ->
    json res' = Some statusData ->
    prop statusData "status" = Some st ->
    reported_status env n id st.

(** * Further sample data *)

Module Scenario.

(** The instance list cannot be read; the status endpoint reports [st]. *)
Definition reports (st : string) : Env :=
  Sample.env_of (fun _ r =>
    if url r =? "https://gateway.whapi.cloud/partner/v1/instances" then
      Responded {| status := 500; text := "unavailable"; json := None |}
    else
      Responded {| status := 200; text := "";
                   json := Some (JObj [("status", JStr st)]) |}).

(** The health check of the stored credential reports [st]. *)
Definition healthy (st : string) : Env :=
  Sample.env_of (fun _ _ =>
    Responded {| status := 200; text := ""; json := Some (JObj [("status", JStr st)]) |}).

End Scenario.

(** The record of the user [u] holds the channel [cid] with the credential
    [tok], and is waiting for the pairing. *)
Definition holds_channel (u cid tok : string) (w : World) : Prop :=
  exists p : Profile,
    Store.single_profile (ById u) w = Some p /\
    instance_id p = Some cid /\
    whapi_token p = Some tok /\
    (instance_status p = Some "initializing" \/ instance_status p = Some "unauthorized").

(** No QR endpoint serves: every GET is refused or raises. *)
Definition serves_no_code (env : Env) : Prop :=
  forall (n : nat) (r : Request),
    method r = "GET" ->
    match gateway env n r with
    | Responded res => ok res = false
    | NetworkError _ => True
    end.

(** The gateway accepts the first initialisation call, whenever it comes. *)
Definition accepts_start (env : Env) (channelToken : Json) : Prop :=
  forall n : nat,
    exists res,
      gateway env n (Workflow.init_request "https://gate.whapi.cloud/start" channelToken)
      = Responded res /\ ok res = true.

(** No initialisation call is accepted. *)
Definition refuses_init (env : Env) : Prop :=
  forall (n : nat) (r : Request),
    method r = "POST" ->
    match gateway env n r with
    | Responded res => ok res = false
    | NetworkError _ => True
    end.

(** A result of [send-message] that reports a delivery. *)
Definition is_delivered (r : Json) : bool :=
  match opt_prop r "success" with
  | JBool true => true
  | _ => false
  end.

(** A history row of a direct send by [u] to one of [gs]. *)
Definition direct_record (u : string) (gs : list string) (h : HistoryRow) : Prop :=
  scheduled_message_id h = None /\
  h_user_id h = u /\
  In (h_group_id h) gs /\
  (h_status h = "sent" \/ h_status h = "failed").

(** The group [g] belongs to [u] and carries one of the tags [tagIds]. *)
Definition tagged_group (groups : list Actions.GroupRow)
  (assignments : list Actions.TagAssignment) (u : string) (tagIds : list string)
  (g : string) : Prop :=
  exists (a : Actions.TagAssignment) (r : Actions.GroupRow),
    In a assignments /\
    In (Actions.a_tag_id a) tagIds /\
    find (fun x => Actions.g_id x =? Actions.a_group_id a) groups = Some r /\
    Actions.g_user_id r = u /\
    Actions.g_group_id r = g.

Module ScheduleSample.

(** Send times are written as decimal seconds in these examples; only two
    texts are read. *)
Definition parse_timestamp (s : string) : option Z :=
  if s =? "100" then Some 100%Z
  else if s =? "200" then Some 200%Z
  else None.

Definition gen_random_uuid (w : World) : string :=
  String.append "sm-"
    (String.concat "" (repeat "x" (List.length (scheduled_messages w)))).

Definition groups : list Actions.GroupRow :=
  [ {| Actions.g_id := "r1"; Actions.g_user_id := "alice"; Actions.g_group_id := "g1" |};
    {| Actions.g_id := "r2"; Actions.g_user_id := "alice"; Actions.g_group_id := "g2" |};
    {| Actions.g_id := "r3"; Actions.g_user_id := "bob"; Actions.g_group_id := "g9" |} ].

Definition assignments : list Actions.TagAssignment :=
  [ {| Actions.a_group_id := "r1"; Actions.a_tag_id := "vip" |};
    {| Actions.a_group_id := "r2"; Actions.a_tag_id := "vip" |};
    {| Actions.a_group_id := "r3"; Actions.a_tag_id := "vip" |} ].

Definition by_tag : Actions.ScheduleData :=
  {| Actions.sc_message := Some "hello";
     Actions.sc_sendAt := Some "100";
     Actions.sc_groupIds := Some ["g2"; "g5"];
     Actions.sc_tagIds := Some ["vip"];
     Actions.sc_mediaUrl := None;
     Actions.sc_mediaType := None |}.

End ScheduleSample.

(** A record has a credential exactly when it has a channel identifier. *)
Definition paired (p : Profile) : Prop :=
  instance_id p = None <-> whapi_token p = None.

(** ** The life of the store between two requests *)

(** Two versions of a profile with the same owner, plan and trial. *)
Definition same_account (p p' : Profile) : Prop :=
  p_id p' = p_id p /\
  payment_plan p' = payment_plan p /\
  trial_expires_at p' = trial_expires_at p.

(** A handler that adds and removes no profile and leaves the owner, the
    plan and the trial of each as they are. *)
Definition keeps_accounts {A : Type} (c : M A) : Prop :=
  forall w : World, Forall2 same_account (profiles w) (profiles (snd (c w))).

(** The clock shows [t]. *)
Definition at_time (t : Z) (w : World) : World :=
  {| profiles := profiles w;
     scheduled_messages := scheduled_messages w;
     message_history := message_history w;
     now := t;
     trace := trace w |}.

(** One thing that happens to the store: a request to the action endpoint
    (whose handlers of [sync-groups], [send-message], [schedule-message] and
    [get-messages] are any handlers that leave the accounts alone), a direct
    send or a scheduling as modelled above, a webhook delivery, a status
    check, a pass of the scheduler, or time that passes. *)
Inductive step (w : World) : World -> Prop :=
| step_request (handleSyncGroups : Env -> string -> M Response)
    (handleSendMessage handleScheduleMessage handleGetMessages
       : Env -> string -> Json -> M Response)
    (env : Env) (req : WhapiSimple.RequestBody) :
    (forall e u, keeps_accounts (handleSyncGroups e u)) ->
    (forall e u d, keeps_accounts (handleSendMessage e u d)) ->
    (forall e u d, keeps_accounts (handleScheduleMessage e u d)) ->
    (forall e u d, keeps_accounts (handleGetMessages e u d)) ->
    step w (snd (WhapiSimple.serve handleSyncGroups handleSendMessage
                   handleScheduleMessage handleGetMessages env req w))
| step_send (env : Env) (u : string) (d : Actions.SendData) :
    step w (snd (Actions.handleSendMessage env u d w))
| step_schedule (parse_timestamp : string -> option Z) (gen_random_uuid : World -> string)
    (groups : list Actions.GroupRow) (assignments : list Actions.TagAssignment)
    (env : Env) (u : string) (d : Actions.ScheduleData) :
    step w (snd (Actions.handleScheduleMessage parse_timestamp gen_random_uuid groups
                   assignments env u d w))
| step_webhook (ev : Json) :
    step w (snd (Webhook.serve ev w))
| step_check (env : Env) (u : string) :
    step w (snd (CheckStatus.serve env u w))
| step_pass (env : Env) :
    step w (snd (Scheduler.run env w))
| step_clock (t : Z) :
    step w (at_time t w).

(** [w'] is reached from [w] by any number of such steps. *)
Inductive evolves (w : World) : World -> Prop :=
| evolves_refl : evolves w w
| evolves_step (w1 w2 : World) : evolves w w1 -> step w1 w2 -> evolves w w2.

(** The user [u] has one profile, whose trial runs until [e]. *)
Definition trial_until (u : string) (e : Z) (w : World) : Prop :=
  exists p : Profile,
    Store.single_profile (ById u) w = Some p /\ trial_expires_at p = Some e.

Definition keeps_trial {A : Type} (u : string) (e : Z) (c : M A) : Prop :=
  forall w : World, trial_until u e w -> trial_until u e (snd (c w)).

(** * Properties of the scheduler *)

Section SchedulerFacts.

Import Scheduler.

Variable env : Env.

Lemma fetch_count_app (a b : list Event) :
  fetch_count (a ++ b) = (fetch_count a + fetch_count b)%nat.
Proof.
  unfold fetch_count. now rewrite filter_app, length_app.
Qed.

Lemma claims_app (a b : list Event) : claims (a ++ b) = claims a ++ claims b.
Proof.
  induction a as [|e a IH]; simpl; [reflexivity|].
  destruct e; try assumption.
  destruct (new_status =? "sending"); simpl; now rewrite IH.
Qed.

Lemma send_effects_refl (w : World) : send_effects 0 w w.
Proof. exists []. repeat split. Qed.

Lemma send_effects_trans (n k : nat) (w1 w2 w3 : World) :
  send_effects n w1 w2 -> send_effects k w2 w3 -> send_effects (n + k) w1 w3.
Proof.
  intros (e1 & T1 & F1 & U1 & C1 & S1 & P1 & N1) (e2 & T2 & F2 & U2 & C2 & S2 & P2 & N2).
  exists (e2 ++ e1). repeat split.
  - now rewrite T2, T1, app_assoc.
  - rewrite fetch_count_app. lia.
  - now rewrite filter_app, U1, U2.
  - now rewrite claims_app, C1, C2.
  - congruence.
  - congruence.
  - congruence.
Qed.

(** One iteration makes one gateway call, whatever its outcome. *)
Lemma send_one_effects (tok : string) (m : ScheduledMessage) (w : World) (c : Counters)
  (g : string) :
  send_effects 1 w (fst (send_one env tok m (w, c) g)).
Proof.
  unfold send_one, Store.fetch.
  destruct (gateway env (fetch_count (trace w)) (send_request tok m g)) as [e|res].
  - exists [EvFetch (send_request tok m g)]. repeat split.
  - destruct (ok res).
    + destruct (json res) as [result|].
      * destruct (prop result "id") as [mid|]; simpl.
        -- exists [EvInsertHistory (history_row m g "sent" None mid);
                   EvFetch (send_request tok m g)]. repeat split.
        -- exists [EvFetch (send_request tok m g)]. repeat split.
      * exists [EvFetch (send_request tok m g)]. repeat split.
    + exists [EvInsertHistory (history_row m g "failed" (Some (text res)) JNull);
              EvFetch (send_request tok m g)]. repeat split.
Qed.

Lemma send_loop_effects (tok : string) (m : ScheduledMessage) (gs : list string) :
  forall (w : World) (c : Counters),
    send_effects (List.length gs) w (fst (fold_left (send_one env tok m) gs (w, c))).
Proof.
  induction gs as [|g gs IH]; intros w c; cbn [fold_left List.length fst].
  - apply send_effects_refl.
  - pose proof (send_one_effects tok m w c g) as H1.
    destruct (send_one env tok m (w, c) g) as [w1 c1]; simpl in H1.
    change (S (List.length gs)) with (1 + List.length gs)%nat.
    eapply send_effects_trans; [exact H1 | apply IH].
Qed.

(** A failure never aborts the loop: every recipient is attempted. *)
Lemma send_all_effects (tok : string) (m : ScheduledMessage) (w : World) :
  send_effects (List.length (group_ids m)) w (fst (send_all env tok m w)).
Proof. apply send_loop_effects. Qed.

Lemma finalStatus_not_sending (c : Counters) : (finalStatus c =? "sending") = false.
Proof.
  unfold finalStatus.
  destruct (0 <? successCount c)%nat; [destruct (0 <? failCount c)%nat|]; reflexivity.
Qed.

(** The trace of one broadcast: the claim, then the sends, then one final
    status, or the claim and [failed] when the channel is not connected. *)
Lemma process_message_trace (w : World) (pm : PendingMessage) :
  exists (mid : list Event) (final : string),
    trace (process_message env w pm)
    = EvUpdateScheduled (sm_id (row pm)) final
        :: mid ++ EvUpdateScheduled (sm_id (row pm)) "sending" :: trace w /\
    (final =? "sending") = false /\
    filter is_scheduled_update mid = [] /\
    claims mid = [] /\
    fetch_count mid
    = (if connected_view (joined pm) then List.length (group_ids (row pm)) else 0%nat) /\
    final
    = (if connected_view (joined pm)
       then finalStatus
              (snd (send_all env (token_of (joined pm)) (row pm)
                      (Store.update_scheduled (sm_id (row pm)) "sending" None w)))
       else "failed").
Proof.
  unfold process_message.
  destruct (connected_view (joined pm)); simpl.
  - pose proof (send_all_effects (token_of (joined pm)) (row pm)
                  (Store.update_scheduled (sm_id (row pm)) "sending" None w)) as H.
    destruct (send_all env (token_of (joined pm)) (row pm)
                (Store.update_scheduled (sm_id (row pm)) "sending" None w)) as [w2 c].
    simpl in H. destruct H as (evs & T & F & U & C & _).
    exists evs, (finalStatus c). simpl. rewrite T. simpl.
    repeat split; auto using finalStatus_not_sending.
  - exists [], "failed". repeat split.
Qed.

Lemma process_message_claims (w : World) (pm : PendingMessage) :
  claims (trace (process_message env w pm)) = sm_id (row pm) :: claims (trace w).
Proof.
  destruct (process_message_trace w pm) as (mid & final & T & NS & _ & C & _).
  rewrite T. simpl. rewrite NS, claims_app, C. reflexivity.
Qed.

(** Broadcasts are claimed in the order of the batch. *)
Lemma process_batch_claims (batch : list PendingMessage) :
  forall w : World,
    claims (trace (process_batch env batch w))
    = rev (map (fun pm => sm_id (row pm)) batch) ++ claims (trace w).
Proof.
  unfold process_batch.
  induction batch as [|pm batch IH]; intros w; simpl; [reflexivity|].
  rewrite IH, process_message_claims, <- app_assoc. reflexivity.
Qed.

Lemma join_profile_rows (tbl : list Profile) (l : list ScheduledMessage) :
  map row (flat_map (join_profile tbl) l) = filter (has_profile tbl) l.
Proof.
  induction l as [|m l IH]; simpl; [reflexivity|].
  rewrite map_app, IH. unfold join_profile, has_profile.
  destruct (find (fun p => p_id p =? sm_user_id m) tbl) as [p|] eqn:F.
  - apply find_some in F. destruct F as [Hin Heq].
    assert (E : existsb (fun p => p_id p =? sm_user_id m) tbl = true).
    { apply existsb_exists. eauto. }
    rewrite E. reflexivity.
  - assert (E : existsb (fun p => p_id p =? sm_user_id m) tbl = false).
    { apply not_true_is_false. intros H. apply existsb_exists in H.
      destruct H as (p & Hin & Hp). now rewrite (find_none _ _ F p Hin) in Hp. }
    rewrite E. reflexivity.
Qed.

Lemma select_pending_rows (w : World) :
  map row (select_pending w)
  = firstn 10 (filter (has_profile (profiles w))
                 (filter (is_due (now w)) (scheduled_messages w))).
Proof.
  unfold select_pending. now rewrite <- firstn_map, join_profile_rows.
Qed.

End SchedulerFacts.

Section SchedulerClaims.

Import Scheduler.

Lemma status_after_update (id st : string) (upd : option Z) (tbl : list ScheduledMessage) :
  Forall (fun m => sm_status m = st)
    (filter (fun m => sm_id m =? id) (map (Store.set_message_status id st upd) tbl)).
Proof.
  induction tbl as [|m tbl IH]; cbn [map filter]; [constructor|].
  unfold Store.set_message_status at 1 2 3.
  destruct (sm_id m =? id) eqn:E.
  - cbn [sm_id]. rewrite E. constructor; [reflexivity | exact IH].
  - rewrite E. exact IH.
Qed.

(** C4, as amended: a pass takes at most 10 rows, each pending and due, which
    are the first ten due rows with an owner profile in the order the store
    returns them; no order on [send_at] is asked for, and the broadcasts are
    claimed in the order of that batch. *)
Theorem select_pending_batch (env : Env) (w : World) :
  (List.length (select_pending w) <= 10)%nat /\
  Forall (fun pm => sm_status (row pm) = "pending" /\ (send_at (row pm) <= now w)%Z)
    (select_pending w) /\
  map row (select_pending w)
  = firstn 10 (filter (has_profile (profiles w))
                 (filter (is_due (now w)) (scheduled_messages w))) /\
  claims (trace (snd (run env w)))
  = rev (map (fun pm => sm_id (row pm)) (select_pending w)) ++ claims (trace w).
Proof.
  split; [|split; [|split]].
  - unfold select_pending. apply firstn_le_length.
  - pose proof (select_pending_rows w) as R.
    assert (A : Forall (fun m => sm_status m = "pending" /\ (send_at m <= now w)%Z)
                  (map row (select_pending w))).
    { rewrite R. apply Forall_forall. intros m Hm.
      apply (In_nth_error _ _) in Hm. destruct Hm as [i Hi].
      assert (Hin : In m (filter (has_profile (profiles w))
                            (filter (is_due (now w)) (scheduled_messages w)))).
      { apply nth_error_In in Hi.
        rewrite <- (firstn_skipn 10 (filter _ _)). apply in_or_app. now left. }
      apply filter_In in Hin. destruct Hin as [Hin _].
      apply filter_In in Hin. destruct Hin as [_ D].
      unfold is_due in D. apply andb_true_iff in D. destruct D as [D1 D2].
      split; [now apply String.eqb_eq | now apply Z.leb_le]. }
    apply Forall_map in A. exact A.
  - apply select_pending_rows.
  - unfold run. destruct (select_pending w) as [|pm batch] eqn:E; [reflexivity|].
    cbn [snd]. apply process_batch_claims.
Qed.

(** C4, as stated, fails: two due broadcasts stored with the later one first
    are selected and claimed in that order, not by ascending [send_at]. *)
Lemma select_pending_not_oldest_first :
  let w := Sample.world [Sample.broadcast "later" ["g1"] 500;
                         Sample.broadcast "earlier" ["g1"] 300] in
  map (fun pm => sm_id (row pm)) (select_pending w) = ["later"; "earlier"] /\
  ascending (map (fun pm => send_at (row pm)) (select_pending w)) = false /\
  rev (claims (trace (snd (run Sample.all_accepted w)))) = ["later"; "earlier"].
Proof. repeat split. Qed.

(** C1, as amended: the claim is an update by id alone, which sets [sending]
    whatever status is stored, and it is the first effect of processing a
    broadcast; its result is not looked at, so that the sends follow in
    every case: one gateway call per recipient when the joined profile is
    connected, none otherwise. *)
Theorem claim_is_unconditional (env : Env) (w : World) (pm : PendingMessage) :
  Forall (fun m => sm_status m = "sending")
    (filter (fun m => sm_id m =? sm_id (row pm))
       (scheduled_messages (Store.update_scheduled (sm_id (row pm)) "sending" None w))) /\
  exists later : list Event,
    trace (process_message env w pm)
    = later ++ EvUpdateScheduled (sm_id (row pm)) "sending" :: trace w /\
    fetch_count later
    = (if connected_view (joined pm) then List.length (group_ids (row pm)) else 0%nat).
Proof.
  split.
  - apply status_after_update.
  - destruct (process_message_trace env w pm) as (mid & final & T & _ & _ & _ & F & _).
    exists (EvUpdateScheduled (sm_id (row pm)) final :: mid). split.
    + exact T.
    + exact F.
Qed.

(** C1, as stated, fails: a broadcast that another pass has already claimed
    (stored status [sending]) is processed and sent all the same, and two
    passes that selected the same batch both deliver it. *)
Lemma claimed_broadcast_is_sent_again :
  let w0 := Sample.world [Sample.broadcast "m1" ["g1"] 100] in
  let batch := select_pending w0 in
  let claimed := Store.update_scheduled "m1" "sending" None w0 in
  let twice := process_batch Sample.all_accepted batch
                 (process_batch Sample.all_accepted batch w0) in
  map sm_status (scheduled_messages claimed) = ["sending"] /\
  fetch_count (trace (process_batch Sample.all_accepted batch claimed)) = 1%nat /\
  fetch_count (trace twice) = 2%nat /\
  map h_group_id (message_history twice) = ["g1"; "g1"].
Proof. repeat split. Qed.

(** C2 at the failing input: three recipients, the send to the second one
    raises.  All three are attempted and the broadcast ends [partial], but
    the history holds two rows only, both [sent]: the raised attempt is
    counted and leaves no record. *)
Theorem raised_send_leaves_no_record :
  let w := Sample.world [Sample.broadcast "m1" ["g1"; "g2"; "g3"] 100] in
  let w' := snd (run Sample.second_raises w) in
  fetch_count (trace w') = 3%nat /\
  map (fun h => (h_group_id h, h_status h)) (message_history w')
  = [("g1", "sent"); ("g3", "sent")] /\
  map sm_status (scheduled_messages w') = ["partial"].
Proof. repeat split. Qed.

(** When the gateway answers every send, each recipient gets exactly one
    history row. *)
Lemma one_record_per_answered_send (env : Env) (tok : string) (m : ScheduledMessage)
  (w : World) :
  answers env ->
  List.length (message_history (fst (send_all env tok m w)))
  = (List.length (message_history w) + List.length (group_ids m))%nat.
Proof.
  intros A. unfold send_all.
  generalize {| successCount := 0; failCount := 0 |}.
  revert w. induction (group_ids m) as [|g gs IH]; intros w c; cbn [fold_left List.length fst].
  - lia.
  - assert (H1 : List.length (message_history (fst (send_one env tok m (w, c) g)))
                 = S (List.length (message_history w))).
    { unfold send_one, Store.fetch.
      destruct (A (fetch_count (trace w)) (send_request tok m g)) as (res & G & J).
      rewrite G. destruct (ok res).
      - destruct (J eq_refl) as (j & Hj & Hn). rewrite Hj.
        destruct j; try (exfalso; apply Hn; reflexivity);
          cbn [prop fst Store.insert_history message_history Store.log];
          rewrite length_app; simpl; lia.
      - cbn [fst Store.insert_history message_history Store.log].
        rewrite length_app. simpl. lia. }
    destruct (send_one env tok m (w, c) g) as [w1 c1]. cbn [fst] in H1.
    rewrite IH, H1. lia.
Qed.

(** The scenario with an error response to the second of three recipients:
    three rows, two [sent] and one [failed], and the status [partial]. *)
Example rejected_send_is_recorded :
  let w := Sample.world [Sample.broadcast "m1" ["g1"; "g2"; "g3"] 100] in
  let w' := snd (run Sample.second_rejected w) in
  map (fun h => (h_group_id h, h_status h)) (message_history w')
  = [("g1", "sent"); ("g2", "failed"); ("g3", "sent")] /\
  map sm_status (scheduled_messages w') = ["partial"].
Proof. repeat split. Qed.

(** C3, as stated, fails on a broadcast without recipients: no send failed,
    every recipient (there is none) has its [sent] row, and the status
    written is [failed], not [sent]. *)
Lemma empty_broadcast_is_failed :
  let m0 := Sample.broadcast "m0" [] 100 in
  let w := Sample.world [m0] in
  let w' := snd (run Sample.all_accepted w) in
  failCount (snd (send_all Sample.all_accepted "tok-alice" m0
                    (Store.update_scheduled "m0" "sending" None w))) = 0%nat /\
  ~ In false (outcomes Sample.all_accepted "tok-alice" m0 (calls w) (group_ids m0)) /\
  Forall (fun g => In (g, "sent")
                     (map (fun h => (h_group_id h, h_status h)) (message_history w')))
    (group_ids m0) /\
  map sm_status (scheduled_messages w') = ["failed"].
Proof. repeat split; [intros [] | constructor]. Qed.

(** The counters of the loop after one iteration, read off the answer of
    the gateway. *)
Lemma send_one_counts (env : Env) (tok : string) (m : ScheduledMessage) (w : World)
  (c : Counters) (g : string) :
  readable_answers env ->
  snd (send_one env tok m (w, c) g)
  = (if accepted_send env (calls w) (send_request tok m g) then succeeded c else failed c).
Proof.
  intros R. unfold send_one, Store.fetch, accepted_send, calls.
  destruct (gateway env (fetch_count (trace w)) (send_request tok m g)) as [e|res] eqn:G;
    [reflexivity|].
  destruct (ok res) eqn:O; [|reflexivity].
  destruct (R _ _ _ G O) as (j & Hj & Hn). rewrite Hj.
  destruct j; try (exfalso; apply Hn; reflexivity); reflexivity.
Qed.

Lemma send_one_calls (env : Env) (tok : string) (m : ScheduledMessage) (w : World)
  (c : Counters) (g : string) :
  calls (fst (send_one env tok m (w, c) g)) = S (calls w).
Proof.
  destruct (send_one_effects env tok m w c g) as (evs & T & F & _).
  unfold calls. now rewrite T, fetch_count_app, F.
Qed.

(** The two counters after the loop are the numbers of accepted sends and
    of the other sends. *)
Lemma send_loop_counts (env : Env) (tok : string) (m : ScheduledMessage)
  (gs : list string) :
  readable_answers env ->
  forall (w : World) (c : Counters),
    successCount (snd (fold_left (send_one env tok m) gs (w, c)))
    = (successCount c
       + List.length (filter (fun o => o) (outcomes env tok m (calls w) gs)))%nat /\
    failCount (snd (fold_left (send_one env tok m) gs (w, c)))
    = (failCount c + List.length (filter negb (outcomes env tok m (calls w) gs)))%nat.
Proof.
  intros R. induction gs as [|g gs IH]; intros w c; cbn [fold_left outcomes filter].
  - cbn. lia.
  - pose proof (send_one_counts env tok m w c g R) as C1.
    pose proof (send_one_calls env tok m w c g) as N1.
    destruct (send_one env tok m (w, c) g) as [w1 c1]. cbn [fst snd] in C1, N1.
    destruct (IH w1 c1) as [S1 F1]. rewrite S1, F1, N1, C1.
    destruct (accepted_send env (calls w) (send_request tok m g));
      cbn [negb List.length successCount failCount succeeded failed]; lia.
Qed.

Lemma filter_positive (f : bool -> bool) (l : list bool) :
  (0 < List.length (filter f l))%nat <-> exists o, In o l /\ f o = true.
Proof.
  induction l as [|o l IH]; cbn [filter].
  - split; [cbn; lia | intros (o & [] & _)].
  - destruct (f o) eqn:E.
    + split; [intros _; exists o; split; [now left | exact E] | cbn; lia].
    + rewrite IH. split.
      * intros (x & Hx & Fx). exists x. split; [now right | exact Fx].
      * intros (x & [Hx|Hx] & Fx); [subst; congruence | now exists x].
Qed.

Lemma accepted_positive (l : list bool) :
  (0 < List.length (filter (fun o => o) l))%nat <-> In true l.
Proof.
  rewrite filter_positive. split.
  - intros (o & Ho & E). now subst.
  - intros H. now exists true.
Qed.

Lemma refused_positive (l : list bool) :
  (0 < List.length (filter negb l))%nat <-> In false l.
Proof.
  rewrite filter_positive. split.
  - intros (o & Ho & E). destruct o; [discriminate | exact Ho].
  - intros H. now exists false.
Qed.

(** C3, as amended: for a broadcast whose joined profile is connected, and a
    gateway that answers each accepted send with a readable body, the
    status written at the end follows from what happened to the recipients:
    [sent] when there is at least one recipient and every send was accepted,
    [partial] when at least one send was accepted and at least one was not,
    [failed] when no send was accepted, which includes the empty recipient
    list.  It is the only status written after the claim, and it follows
    one gateway call per recipient. *)
Theorem final_status_rollup (env : Env) (w : World) (pm : PendingMessage) :
  connected_view (joined pm) = true ->
  readable_answers env ->
  exists (outs : list bool) (final : string) (mid : list Event),
    outs = outcomes env (token_of (joined pm)) (row pm) (calls w) (group_ids (row pm)) /\
    trace (process_message env w pm)
    = EvUpdateScheduled (sm_id (row pm)) final
        :: mid ++ EvUpdateScheduled (sm_id (row pm)) "sending" :: trace w /\
    filter is_scheduled_update mid = [] /\
    fetch_count mid = List.length (group_ids (row pm)) /\
    Forall (fun m => sm_status m = final)
      (filter (fun m => sm_id m =? sm_id (row pm))
         (scheduled_messages (process_message env w pm))) /\
    (final = "sent" <-> outs <> [] /\ ~ In false outs) /\
    (final = "partial" <-> In true outs /\ In false outs) /\
    (final = "failed" <-> ~ In true outs).
Proof.
  intros Hc R.
  destruct (process_message_trace env w pm) as (mid & final & T & _ & U & _ & F & E).
  rewrite Hc in F, E.
  exists (outcomes env (token_of (joined pm)) (row pm) (calls w) (group_ids (row pm))),
    final, mid.
  split; [reflexivity|]. split; [exact T|]. split; [exact U|]. split; [exact F|].
  split.
  - unfold process_message. rewrite Hc. cbn [negb].
    destruct (send_all env (token_of (joined pm)) (row pm)
                (Store.update_scheduled (sm_id (row pm)) "sending" None w))
      as [w2 c] eqn:S.
    cbn [snd] in E. subst final. cbn [Store.update_scheduled scheduled_messages].
    apply status_after_update.
  - destruct (send_loop_counts env (token_of (joined pm)) (row pm) (group_ids (row pm)) R
                (Store.update_scheduled (sm_id (row pm)) "sending" None w)
                {| successCount := 0; failCount := 0 |}) as [Sc Fc].
    change (calls (Store.update_scheduled (sm_id (row pm)) "sending" None w))
      with (calls w) in Sc, Fc.
    fold (send_all env (token_of (joined pm)) (row pm)
            (Store.update_scheduled (sm_id (row pm)) "sending" None w)) in Sc, Fc.
    cbn [successCount failCount Nat.add] in Sc, Fc.
    set (outs := outcomes env (token_of (joined pm)) (row pm) (calls w)
                   (group_ids (row pm))) in *.
    pose proof (accepted_positive outs) as A.
    pose proof (refused_positive outs) as B.
    rewrite <- Sc in A. rewrite <- Fc in B.
    assert (N : outs <> [] /\ ~ In false outs <-> In true outs /\ ~ In false outs).
    { split; intros [H1 H2]; split; try exact H2.
      - destruct outs as [|o l]; [now contradiction H1|].
        destruct o; [now left | exfalso; apply H2; now left].
      - intros ->. contradiction H1. }
    rewrite N, <- A, <- B, E. unfold finalStatus.
    destruct (snd (send_all env (token_of (joined pm)) (row pm)
                (Store.update_scheduled (sm_id (row pm)) "sending" None w)))
      as [sc fc]. cbn [successCount failCount].
    destruct sc as [|sc], fc as [|fc]; cbn [Nat.ltb Nat.leb];
      repeat split; intros; try discriminate; try lia;
      try (match goal with H : _ /\ _ |- _ => destruct H end; try lia; try discriminate).
Qed.

Lemma final_status_rollup_witness :
  exists (final : string) (mid : list Event),
    trace (process_message Sample.second_raises
             (Sample.world [Sample.broadcast "m1" ["g1"; "g2"; "g3"] 100])
             {| row := Sample.broadcast "m1" ["g1"; "g2"; "g3"] 100;
                joined := {| pv_whapi_token := Some "tok-alice";
                             pv_instance_status := Some "connected" |} |})
    = EvUpdateScheduled "m1" final
        :: mid ++ EvUpdateScheduled "m1" "sending" :: [] /\
    final = "partial" /\
    fetch_count mid = 3%nat.
Proof.
  destruct (final_status_rollup Sample.second_raises
              (Sample.world [Sample.broadcast "m1" ["g1"; "g2"; "g3"] 100])
              {| row := Sample.broadcast "m1" ["g1"; "g2"; "g3"] 100;
                 joined := {| pv_whapi_token := Some "tok-alice";
                              pv_instance_status := Some "connected" |} |}
              eq_refl)
    as (outs & final & mid & Ho & T & _ & F & _ & _ & P & _).
  - intros n r res G O. cbn in G. destruct (n =? 1)%nat; [discriminate|].
    injection G as <-. eexists. split; [reflexivity | discriminate].
  - exists final, mid. split; [exact T|]. split; [|exact F].
    apply P. rewrite Ho. split; [left; reflexivity | right; left; reflexivity].
Defined.

(** Outside of that condition: an accepted send answered with the body
    [null] is counted as a success and, after the read of its id raises, as
    a failure, so that a broadcast with one recipient ends [partial], with
    no history row. *)
Example null_body_is_counted_twice :
  let w := Sample.world [Sample.broadcast "m1" ["g1"] 100] in
  let w' := snd (run Sample.accepted_with_null w) in
  outcomes Sample.accepted_with_null "tok-alice" (Sample.broadcast "m1" ["g1"] 100)
    (calls w) ["g1"] = [true] /\
  map sm_status (scheduled_messages w') = ["partial"] /\
  message_history w' = [].
Proof. repeat split. Qed.

End SchedulerClaims.

(** * Properties of the connection handlers *)

Section StoreFacts.

Lemma is_str_true (j : Json) (s : string) : is_str j s = true <-> j = JStr s.
Proof.
  destruct j; simpl; split; intros H; try discriminate.
  - apply String.eqb_eq in H. now subst.
  - injection H as ->. apply String.eqb_refl.
Qed.

Lemma patch_keeps_id (c : ProfilePatch) (p : Profile) : p_id (Store.patch c p) = p_id p.
Proof. reflexivity. Qed.

(** The rows of a user after an update addressed to that user. *)
Lemma rows_after_patch (u : string) (c : ProfilePatch) (tbl : list Profile) :
  filter (Store.matches (ById u)) (Store.patch_where (ById u) c tbl)
  = map (Store.patch c) (filter (Store.matches (ById u)) tbl).
Proof.
  unfold Store.patch_where.
  induction tbl as [|p tbl IH]; cbn [map filter]; [reflexivity|].
  destruct (Store.matches (ById u) p) eqn:E.
  - change (Store.matches (ById u) (Store.patch c p)) with (Store.matches (ById u) p).
    rewrite E. cbn [map]. now rewrite IH.
  - rewrite E. exact IH.
Qed.

Lemma reset_rows (u : string) (t : Z) (tbl : list Profile) :
  Forall (fun p => instance_id p = None /\ whapi_token p = None /\
                   instance_status p = Some "disconnected")
    (filter (Store.matches (ById u)) (Store.patch_where (ById u) (reset_patch t) tbl)).
Proof.
  rewrite rows_after_patch. apply Forall_map, Forall_forall.
  intros p _. repeat split.
Qed.

Lemma patch_where_ids (f : ProfileFilter) (c : ProfilePatch) (tbl : list Profile) :
  map p_id (Store.patch_where f c tbl) = map p_id tbl.
Proof.
  unfold Store.patch_where. rewrite map_map. apply map_ext.
  intros p. now destruct (Store.matches f p).
Qed.

End StoreFacts.

Section ConnectionClaims.

(** C5, as amended: the poll of the action endpoint and the webhook receiver
    map a remote status with the same function: [authenticated] and [ready]
    give [connected], [qr] and [unauthorized] give [unauthorized] (pairing
    needed), and every other value, [active] included, gives [disconnected].
    The status check reads another vocabulary: it takes exactly [active] and
    [connected] as connected. *)
Theorem status_vocabulary (remote : Json) :
  Webhook.newStatus remote = WhapiSimple.newStatus remote /\
  (In remote [JStr "authenticated"; JStr "ready"] ->
   Webhook.newStatus remote = "connected") /\
  (In remote [JStr "qr"; JStr "unauthorized"] ->
   Webhook.newStatus remote = "unauthorized") /\
  (~ In remote [JStr "authenticated"; JStr "ready"; JStr "qr"; JStr "unauthorized"] ->
   Webhook.newStatus remote = "disconnected") /\
  (CheckStatus.isConnected remote = true <->
   In remote [JStr "active"; JStr "connected"]).
Proof.
  split; [reflexivity|]. split; [|split; [|split]].
  - intros [<-|[<-|[]]]; reflexivity.
  - intros [<-|[<-|[]]]; reflexivity.
  - intros H. unfold Webhook.newStatus.
    destruct (is_str remote "authenticated") eqn:A.
    { apply is_str_true in A. exfalso. apply H. subst. simpl. auto. }
    destruct (is_str remote "ready") eqn:B.
    { apply is_str_true in B. exfalso. apply H. subst. simpl. auto. }
    destruct (is_str remote "qr") eqn:C.
    { apply is_str_true in C. exfalso. apply H. subst. simpl. auto. }
    destruct (is_str remote "unauthorized") eqn:D.
    { apply is_str_true in D. exfalso. apply H. subst. simpl. auto 6. }
    reflexivity.
  - unfold CheckStatus.isConnected. rewrite orb_true_iff, !is_str_true.
    simpl. intuition congruence.
Qed.

Lemma status_vocabulary_witness :
  Webhook.newStatus (JStr "ready") = "connected" /\
  Webhook.newStatus (JStr "qr") = "unauthorized" /\
  Webhook.newStatus (JStr "loading") = "disconnected".
Proof.
  split; [|split].
  - apply (status_vocabulary (JStr "ready")). simpl. auto.
  - apply (status_vocabulary (JStr "qr")). simpl. auto.
  - apply (status_vocabulary (JStr "loading")). simpl.
    intros [H|[H|[H|[H|[]]]]]; discriminate H.
Defined.

(** C5, as stated, fails: a webhook event with the remote status [active]
    stores [disconnected], the poll maps [active] the same way, and the
    status check does not take [authenticated] or [ready] as connected. *)
Lemma active_is_stored_as_disconnected :
  map instance_status
    (profiles (snd (Webhook.serve (Sample.channel_event "chan-1" "active")
                      (Sample.world []))))
  = [Some "disconnected"] /\
  WhapiSimple.newStatus (JStr "active") = "disconnected" /\
  CheckStatus.isConnected (JStr "authenticated") = false /\
  CheckStatus.isConnected (JStr "ready") = false.
Proof. repeat split. Qed.

(** C8: whatever the gateway does with the deletion call (accepts it,
    answers with an error, or the call raises), [handleDisconnect] answers
    200 with [success: true], and the update it sends resets the record of
    the user: [instance_id] and [whapi_token] null, status [disconnected].
    No row is added or removed. *)
Theorem disconnect_resets (env : Env) (userId : string) (w : World) :
  exists w' : World,
    WhapiSimple.handleDisconnect env userId w
    = (Ret (json_response 200 [("success", JBool true);
                               ("message", JStr "WhatsApp disconnected")]), w') /\
    profiles w' = Store.patch_where (ById userId) (reset_patch (now w)) (profiles w) /\
    Forall (fun p => instance_id p = None /\ whapi_token p = None /\
                     instance_status p = Some "disconnected")
      (filter (Store.matches (ById userId)) (profiles w')) /\
    map p_id (profiles w') = map p_id (profiles w).
Proof.
  assert (K : forall w0 : World, profiles w0 = profiles w -> now w0 = now w ->
    exists w' : World,
      (t <- get now ;;
       lift (Store.update_profiles (ById userId) (reset_patch t)) ;;;
       ret (json_response 200 [("success", JBool true);
                               ("message", JStr "WhatsApp disconnected")])) w0
      = (Ret (json_response 200 [("success", JBool true);
                                 ("message", JStr "WhatsApp disconnected")]), w') /\
      profiles w' = Store.patch_where (ById userId) (reset_patch (now w)) (profiles w) /\
      Forall (fun p => instance_id p = None /\ whapi_token p = None /\
                       instance_status p = Some "disconnected")
        (filter (Store.matches (ById userId)) (profiles w')) /\
      map p_id (profiles w') = map p_id (profiles w)).
  { intros w0 P N. eexists. split; [reflexivity|].
    cbn [Store.update_profiles profiles]. rewrite P, N.
    split; [reflexivity|]. split; [apply reset_rows | apply patch_where_ids]. }
  unfold WhapiSimple.handleDisconnect, bind at 1 2, get at 1.
  destruct (Store.single_profile (ById userId) w) as [p|]; [|now apply K].
  destruct (instance_id p) as [i|]; [|now apply K].
  destruct (truthy_text (Some i)); [|now apply K].
  unfold catch, bind, fetchM, Store.fetch.
  destruct (gateway env (fetch_count (trace w)) (WhapiSimple.delete_channel env i));
    now apply K.
Qed.

End ConnectionClaims.

Section TrialGate.

Import WhapiSimple.

Lemma text_is_false (o : option string) (s : string) :
  o <> Some s -> text_is o s = false.
Proof.
  intros H. destruct o as [t|]; simpl; [|reflexivity].
  apply String.eqb_neq. intros ->. now apply H.
Qed.

Lemma eqb_false_of_neq (a b : string) : a <> b -> (a =? b) = false.
Proof. intros H. now apply String.eqb_neq. Qed.

(** C10: with a stored profile whose trial ended before now and whose plan
    is neither [monthly] nor [yearly], every action other than [connect],
    [status] and [disconnect] is answered 403 [Trial expired] and the world
    is left as it was: no handler ran, no gateway call was made, nothing was
    written.  With the same profile the three basic actions go to their
    handlers. *)
Theorem trial_gating
  (handleSyncGroups : Env -> string -> M Response)
  (handleSendMessage handleScheduleMessage handleGetMessages
     : Env -> string -> Json -> M Response)
  (env : Env) (req : RequestBody) (w : World) (p : Profile) (t : Z) :
  userId req <> "" ->
  Store.single_profile (ById (userId req)) w = Some p ->
  trial_expires_at p = Some t ->
  (t < now w)%Z ->
  payment_plan p <> Some "monthly" ->
  payment_plan p <> Some "yearly" ->
  (action req <> "connect" -> action req <> "status" -> action req <> "disconnect" ->
   serve handleSyncGroups handleSendMessage handleScheduleMessage handleGetMessages
     env req w
   = (json_response 403
        [("error", JStr "Trial expired");
         ("message", JStr "Please upgrade to continue using WhatsApp features")], w)) /\
  (action req = "connect" ->
   handle_request handleSyncGroups handleSendMessage handleScheduleMessage
     handleGetMessages env req w
   = handleConnect env (userId req) w) /\
  (action req = "status" ->
   handle_request handleSyncGroups handleSendMessage handleScheduleMessage
     handleGetMessages env req w
   = handleStatus env (userId req) w) /\
  (action req = "disconnect" ->
   handle_request handleSyncGroups handleSendMessage handleScheduleMessage
     handleGetMessages env req w
   = handleDisconnect env (userId req) w).
Proof.
  intros Hu Hp Ht Hlt Hm Hy.
  assert (G : trialExpired p (now w) && negb (isPaid p) = true).
  { unfold trialExpired, isPaid. rewrite Ht.
    rewrite (text_is_false _ _ Hm), (text_is_false _ _ Hy).
    apply andb_true_iff. split; [now apply Z.ltb_lt | reflexivity]. }
  assert (R : handle_request handleSyncGroups handleSendMessage handleScheduleMessage
                handleGetMessages env req w
              = (if negb (is_basic (action req)) then ret trial_rejection
                 else dispatch handleSyncGroups handleSendMessage handleScheduleMessage
                        handleGetMessages env req) w).
  { unfold handle_request. rewrite (eqb_false_of_neq _ _ Hu).
    unfold bind at 1, get at 1. rewrite Hp.
    unfold bind at 1, ret at 1. unfold bind at 1, get at 1.
    rewrite G, andb_true_r. reflexivity. }
  split; [|split; [|split]].
  - intros Hc Hs Hd. unfold serve. rewrite R.
    unfold is_basic.
    rewrite (eqb_false_of_neq _ _ Hc), (eqb_false_of_neq _ _ Hs),
      (eqb_false_of_neq _ _ Hd).
    reflexivity.
  - intros Ha. rewrite R. unfold is_basic, dispatch. rewrite Ha. reflexivity.
  - intros Ha. rewrite R. unfold is_basic, dispatch. rewrite Ha. reflexivity.
  - intros Ha. rewrite R. unfold is_basic, dispatch. rewrite Ha. reflexivity.
Qed.

Lemma trial_gating_witness :
  serve Sample.no_handler Sample.no_data_handler Sample.no_data_handler
    Sample.no_data_handler Sample.all_accepted
    {| userId := "alice"; action := "send-message"; data := JNull |} Sample.late_world
  = (json_response 403
       [("error", JStr "Trial expired");
        ("message", JStr "Please upgrade to continue using WhatsApp features")],
     Sample.late_world).
Proof.
  apply (trial_gating Sample.no_handler Sample.no_data_handler Sample.no_data_handler
           Sample.no_data_handler Sample.all_accepted
           {| userId := "alice"; action := "send-message"; data := JNull |}
           Sample.late_world Sample.alice 5000%Z);
    try reflexivity; try discriminate.
Defined.

End TrialGate.

Section StatusCheck.

Import CheckStatus.

Lemma prop_of_value (inst : Json) (k : string) :
  inst <> JNull -> prop inst k = Some (opt_prop inst k).
Proof. intros H. destruct inst; try reflexivity. now elim H. Qed.

Lemma some_instance_none (id : string) (items : list Json) (w : World) :
  Forall (other_instance id) items -> some_instance id items w = (Ret false, w).
Proof.
  induction 1 as [|inst items (Hn & Ha & Hb) _ IH]; [reflexivity|].
  cbn [some_instance]. unfold bind, propM.
  rewrite !(prop_of_value _ _ Hn). unfold ret at 1 2. rewrite Ha, Hb. exact IH.
Qed.

Lemma some_instance_found (id : string) (before after : list Json) (inst : Json)
  (w : World) :
  Forall (other_instance id) before -> names_instance id inst ->
  some_instance id (before ++ inst :: after) w = (Ret true, w).
Proof.
  intros Hb [Hn Hm].
  induction Hb as [|x before (Xn & Xa & Xb) _ IH]; cbn [app some_instance];
    unfold bind, propM.
  - rewrite !(prop_of_value _ _ Hn). unfold ret at 1 2. rewrite Hm. reflexivity.
  - rewrite !(prop_of_value _ _ Xn). unfold ret at 1 2. rewrite Xa, Xb. exact IH.
Qed.

Lemma single_after_update (u : string) (c : ProfilePatch) (w w0 : World) (p : Profile) :
  Store.single_profile (ById u) w = Some p ->
  profiles w0 = profiles w ->
  Store.single_profile (ById u) (Store.update_profiles (ById u) c w0)
  = Some (Store.patch c p).
Proof.
  unfold Store.single_profile. intros H P.
  cbn [Store.update_profiles profiles]. rewrite P, rows_after_patch.
  destruct (filter (Store.matches (ById u)) (profiles w)) as [|q [|q' l]];
    try discriminate.
  injection H as ->. reflexivity.
Qed.

(** The clean-up branch, from any world that has the profiles of [w]. *)
Lemma cleanup_answer (u msg : string) (w w0 : World) (p : Profile) :
  Store.single_profile (ById u) w = Some p ->
  profiles w0 = profiles w ->
  exists (r : Response) (w' : World) (p' : Profile),
    match (t <- get now ;;
           lift (Store.update_profiles (ById u) (reset_patch t)) ;;;
           ret (requires_new_instance msg)) w0 with
    | (Ret r0, w1) => (r0, w1)
    | (Raise e, w1) =>
        (json_response 200 [("connected", JBool false); ("error", JStr e)], w1)
    end = (r, w') /\
    resp_status r = 200%Z /\
    opt_prop (resp_body r) "requiresNewInstance" = JBool true /\
    opt_prop (resp_body r) "connected" = JBool false /\
    Store.single_profile (ById u) w' = Some p' /\
    instance_id p' = None /\
    whapi_token p' = None /\
    instance_status p' = Some "disconnected".
Proof.
  intros H P.
  exists (requires_new_instance msg),
    (Store.update_profiles (ById u) (reset_patch (now w0)) w0),
    (Store.patch (reset_patch (now w0)) p).
  split; [reflexivity|]. repeat split.
  now apply single_after_update with (w := w).
Qed.

(** C7: when the status check finds a stored channel identifier that the
    gateway reports as not found (the partner's instance list lacks it, or
    the status endpoint answers 404), it answers with [connected: false] and
    [requiresNewInstance: true], and the record of the user then has no
    channel identifier, no credential, and the status [disconnected]. *)
Theorem stale_channel_is_cleared (env : Env) (userId : string) (w : World)
  (p : Profile) (id : string) :
  userId <> "" ->
  WHAPI_PARTNER_TOKEN env <> "" ->
  Store.single_profile (ById userId) w = Some p ->
  instance_id p = Some id ->
  id <> "" ->
  reported_gone env (fetch_count (trace w)) id ->
  exists (r : Response) (w' : World) (p' : Profile),
    serve env userId w = (r, w') /\
    resp_status r = 200%Z /\
    opt_prop (resp_body r) "requiresNewInstance" = JBool true /\
    opt_prop (resp_body r) "connected" = JBool false /\
    Store.single_profile (ById userId) w' = Some p' /\
    instance_id p' = None /\
    whapi_token p' = None /\
    instance_status p' = Some "disconnected".
Proof.
  intros Hu Ht Hp Hi Hid G.
  unfold serve, check.
  rewrite (eqb_false_of_neq _ _ Hu), (eqb_false_of_neq _ _ Ht).
  unfold bind at 1, get at 1. rewrite Hp, Hi, (eqb_false_of_neq _ _ Hid).
  unfold bind at 1, fetchM at 1, Store.fetch.
  destruct G as [res items G1 Ok J F | res res' G1 Ok G2 S | res res' before after inst G1 Ok J F N G2 S];
    rewrite G1.
  - unfold bind at 1. rewrite Ok. unfold bind at 1, jsonM. rewrite J.
    unfold ret at 1. unfold bind at 1. cbn [instanceExists].
    rewrite (some_instance_none _ _ _ F). unfold ret at 1. cbn [negb].
    apply cleanup_answer with (w := w) (p := p); [exact Hp | reflexivity].
  - unfold bind at 1. rewrite Ok. unfold ret at 1.
    unfold bind at 1, fetchM at 1, Store.fetch.
    cbn [Store.log trace fetch_count filter is_fetch List.length].
    fold (fetch_count (trace w)). rewrite G2.
    assert (Ok' : ok res' = false).
    { unfold ok. rewrite S. reflexivity. }
    rewrite Ok'. cbn [negb]. rewrite S. cbn [Z.eqb Pos.eqb].
    apply cleanup_answer with (w := w) (p := p); [exact Hp | reflexivity].
  - unfold bind at 1. rewrite Ok. unfold bind at 1, jsonM. rewrite J.
    unfold ret at 1. unfold bind at 1. cbn [instanceExists].
    rewrite (some_instance_found _ _ _ _ _ F N). unfold ret at 1. cbn [negb].
    unfold bind at 1, fetchM at 1, Store.fetch.
    cbn [Store.log trace fetch_count filter is_fetch List.length].
    fold (fetch_count (trace w)). rewrite G2.
    assert (Ok' : ok res' = false).
    { unfold ok. rewrite S. reflexivity. }
    rewrite Ok'. cbn [negb]. rewrite S. cbn [Z.eqb Pos.eqb].
    apply cleanup_answer with (w := w) (p := p); [exact Hp | reflexivity].
Qed.

Lemma stale_channel_is_cleared_witness :
  exists (r : Response) (w' : World) (p' : Profile),
    serve Sample.lists_other_channel "alice" Sample.late_world = (r, w') /\
    resp_status r = 200%Z /\
    opt_prop (resp_body r) "requiresNewInstance" = JBool true /\
    opt_prop (resp_body r) "connected" = JBool false /\
    Store.single_profile (ById "alice") w' = Some p' /\
    instance_id p' = None /\
    whapi_token p' = None /\
    instance_status p' = Some "disconnected".
Proof.
  apply (stale_channel_is_cleared Sample.lists_other_channel "alice" Sample.late_world
           Sample.alice "chan-1"); try reflexivity; try discriminate.
  eapply absent_from_list; try reflexivity.
  constructor; [|constructor].
  repeat split. discriminate.
Defined.

End StatusCheck.

Section StatusWrites.

Lemma patch_where_nth (f : ProfileFilter) (c : ProfilePatch) (tbl : list Profile)
  (i : nat) :
  nth_error (Store.patch_where f c tbl) i
  = option_map (fun p => if Store.matches f p then Store.patch c p else p)
      (nth_error tbl i).
Proof. unfold Store.patch_where. apply nth_error_map. Qed.

Lemma matches_by_keys (f : ProfileFilter) (p q : Profile) :
  p_id q = p_id p -> instance_id q = instance_id p ->
  Store.matches f q = Store.matches f p.
Proof.
  intros H1 H2. destruct f as [u|j]; cbn [Store.matches]; [now rewrite H1|].
  now rewrite H2.
Qed.

(** Status writes leave the keys of every row as they are. *)
Lemma apply_writes_keys (ws : list StatusWrite) :
  forall (tbl : list Profile) (i : nat) (p : Profile),
    nth_error tbl i = Some p ->
    exists q, nth_error (apply_writes tbl ws) i = Some q /\
              p_id q = p_id p /\ instance_id q = instance_id p.
Proof.
  unfold apply_writes.
  induction ws as [|wr ws IH]; intros tbl i p H; cbn [fold_left].
  - exists p. auto.
  - destruct (IH (apply_write tbl wr) i
                (if addresses p wr
                 then Store.patch (status_patch (written_status wr) (stamped_at wr)) p
                 else p)) as (q & Hq & K1 & K2).
    + unfold apply_write. rewrite patch_where_nth, H. reflexivity.
    + exists q. split; [exact Hq|].
      destruct (addresses p wr); auto.
Qed.

Lemma latest_sorted (rest : list StatusWrite) :
  forall d d0 : StatusWrite,
    StronglySorted earlier (d :: rest) -> latest d rest = last (d :: rest) d0.
Proof.
  induction rest as [|x rest IH]; intros d d0 S; [reflexivity|].
  inversion S as [|? ? S' F]; subst.
  inversion F as [|? ? Hx _]; subst.
  cbn [latest]. unfold earlier in Hx. apply Z.ltb_lt in Hx. rewrite Hx.
  rewrite (IH x d0 S'). reflexivity.
Qed.

(** The webhook receiver sends one status write, stamped with its clock. *)
Lemma webhook_sends_write (i : string) (st : Json) (w : World) :
  i <> "" ->
  profiles (snd (Webhook.serve
                   (JObj [("event", JStr "channel");
                          ("data", JObj [("id", JStr i); ("status", st)])]) w))
  = apply_write (profiles w)
      {| target := ByInstanceId (JStr i);
         written_status := Webhook.newStatus st;
         stamped_at := now w |}.
Proof.
  intros Hi. unfold Webhook.serve, Webhook.handle_event, apply_write.
  cbn [target written_status stamped_at].
  unfold bind at 1. cbn [propM prop assoc String.eqb Ascii.eqb Bool.eqb].
  unfold ret at 1. unfold bind at 1.
  cbn [propM prop assoc String.eqb Ascii.eqb Bool.eqb]. unfold ret at 1.
  cbn [opt_prop assoc String.eqb Ascii.eqb Bool.eqb is_str truthy andb].
  rewrite (eqb_false_of_neq _ _ Hi). cbn [negb].
  unfold bind at 1. unfold bind at 1, get at 1.
  destruct (filter (Store.matches (ByInstanceId (JStr i))) (profiles w)) as [|q l] eqn:F.
  - cbn. unfold Store.patch_where.
    rewrite <- (map_id (profiles w)) at 1. apply map_ext_in.
    intros p Hp. destruct (Store.matches (ByInstanceId (JStr i)) p) eqn:E; [|reflexivity].
    assert (In p (filter (Store.matches (ByInstanceId (JStr i))) (profiles w)))
      by (apply filter_In; auto).
    rewrite F in H. destruct H.
  - reflexivity.
Qed.

(** The poll sends one when the mapped status differs from the one it read. *)
Lemma poll_sends_write (env : Env) (u : string) (w : World) (p : Profile)
  (res : HttpResponse) (health st : Json) :
  Store.single_profile (ById u) w = Some p ->
  truthy_text (whapi_token p) = true ->
  gateway env (fetch_count (trace w))
    (WhapiSimple.gate_get "/health" (of_text (whapi_token p))) = Responded res ->
  ok res = true ->
  json res = Some health ->
  prop health "status" = Some st ->
  profiles (snd (WhapiSimple.handleStatus env u w))
  = if text_is (instance_status p) (WhapiSimple.newStatus st) then profiles w
    else apply_write (profiles w)
           {| target := ById u;
              written_status := WhapiSimple.newStatus st;
              stamped_at := now w |}.
Proof.
  intros Hp Ht G Ok J S.
  unfold WhapiSimple.handleStatus. unfold bind at 1, get at 1. rewrite Hp, Ht.
  cbn [negb]. unfold bind at 1, fetchM at 1, Store.fetch. rewrite G, Ok. cbn [negb].
  unfold bind at 1, jsonM. rewrite J. unfold ret at 1.
  unfold bind at 1, propM. rewrite S. unfold ret at 1.
  unfold bind at 1.
  destruct (text_is (instance_status p) (WhapiSimple.newStatus st)); reflexivity.
Qed.

(** C9, as amended: the store applies status writes in the order they
    arrive and without a look at their timestamps, so that the record holds
    the status and the timestamp of the write applied last; that write is
    the one with the latest timestamp when the timestamps grow along the
    order of application. *)
Theorem last_applied_write_wins (tbl : list Profile) (i : nat) (p : Profile)
  (ws : list StatusWrite) (wr : StatusWrite) :
  nth_error tbl i = Some p ->
  addresses p wr = true ->
  exists p' : Profile,
    nth_error (apply_writes tbl (ws ++ [wr])) i = Some p' /\
    instance_status p' = Some (written_status wr) /\
    p_updated_at p' = stamped_at wr /\
    (StronglySorted earlier (ws ++ [wr]) -> latest_of (ws ++ [wr]) = Some wr).
Proof.
  intros H A.
  destruct (apply_writes_keys ws tbl i p H) as (q & Hq & K1 & K2).
  exists (Store.patch (status_patch (written_status wr) (stamped_at wr)) q).
  split; [|split; [reflexivity|split; [reflexivity|]]].
  - unfold apply_writes. rewrite fold_left_app. cbn [fold_left].
    fold (apply_writes tbl ws). unfold apply_write at 1.
    rewrite patch_where_nth, Hq. cbn [option_map].
    unfold addresses in A. now rewrite (matches_by_keys _ p q K1 K2), A.
  - intros S. destruct (ws ++ [wr]) as [|d rest] eqn:E.
    + now destruct ws.
    + cbn [latest_of]. rewrite (latest_sorted rest d wr S), <- E, last_last.
      reflexivity.
Qed.

Lemma last_applied_write_wins_witness :
  exists p' : Profile,
    nth_error
      (apply_writes [Sample.alice]
         ([ {| target := ById "alice"; written_status := "unauthorized";
               stamped_at := 100 |} ]
          ++ [ {| target := ByInstanceId (JStr "chan-1"); written_status := "connected";
                  stamped_at := 200 |} ])) 0 = Some p' /\
    instance_status p' = Some "connected" /\
    p_updated_at p' = 200%Z /\
    latest_of
      ([ {| target := ById "alice"; written_status := "unauthorized"; stamped_at := 100 |} ]
       ++ [ {| target := ByInstanceId (JStr "chan-1"); written_status := "connected";
               stamped_at := 200 |} ])
    = Some {| target := ByInstanceId (JStr "chan-1"); written_status := "connected";
              stamped_at := 200 |}.
Proof.
  destruct (last_applied_write_wins [Sample.alice] 0 Sample.alice
              [ {| target := ById "alice"; written_status := "unauthorized";
                   stamped_at := 100 |} ]
              {| target := ByInstanceId (JStr "chan-1"); written_status := "connected";
                 stamped_at := 200 |} eq_refl eq_refl)
    as (p' & H1 & H2 & H3 & H4).
  exists p'. split; [exact H1|]. split; [exact H2|]. split; [exact H3|].
  apply H4. repeat constructor.
Defined.

(** C9, as stated, fails: a write stamped 100 that reaches the store after
    a write stamped 200 overwrites it; the record ends with the status of
    the older write, not with that of the write with the latest timestamp. *)
Lemma stale_write_overwrites :
  let fresh := {| target := ByInstanceId (JStr "chan-1"); written_status := "connected";
                  stamped_at := 200 |} in
  let stale := {| target := ById "alice"; written_status := "disconnected";
                  stamped_at := 100 |} in
  map (fun p => (instance_status p, p_updated_at p))
    (apply_writes [Sample.alice] [fresh; stale])
  = [(Some "disconnected", 100%Z)] /\
  latest_of [fresh; stale] = Some fresh /\
  written_status fresh = "connected".
Proof. repeat split. Qed.

End StatusWrites.

(** * Pairing-code retrieval is bounded *)

Section Connect.

Import WhapiSimple.

Variable env : Env.

Lemma propM_pure (j : Json) (k : string) (w : World) : snd (propM j k w) = w.
Proof. unfold propM. now destruct (prop j k). Qed.

Lemma pick_qr_pure (qrData : Json) (w : World) : snd (pick_qr qrData w) = w.
Proof.
  unfold pick_qr, bind, propM.
  destruct (prop qrData "qr"); [|reflexivity]. cbn [ret].
  destruct (prop qrData "qrCode"); [|reflexivity]. cbn [ret].
  destruct (prop qrData "image"); [|reflexivity]. cbn [ret].
  destruct (prop qrData "base64"); reflexivity.
Qed.

Lemma repeat_shift (x : Z) (k : nat) (l : list Z) :
  repeat x k ++ x :: l = repeat x (S k) ++ l.
Proof. induction k as [|k IH]; simpl; [reflexivity|]. now rewrite IH. Qed.

Lemma calls_fetch (r : Request) (w : World) :
  calls (Store.log (EvFetch r) w) = S (calls w).
Proof. reflexivity. Qed.

(** The exchange with [/qr] is one gateway call and no delay. *)
Lemma fetch_qr_effects (token : Json) (u msg : string) (w : World) :
  match fetch_qr env token u msg w with
  | (r, w') =>
      calls w' = S (calls w) /\
      waits w' = waits w /\
      match r with
      | Ret (Some resp) => pairing_payload resp
      | _ => True
      end
  end.
Proof.
  unfold fetch_qr, bind at 1, fetchM, Store.fetch.
  destruct (gateway env (fetch_count (trace w)) (gate_get "/qr" token)) as [e|res];
    [repeat split|].
  destruct (ok res); [|repeat split].
  unfold bind at 1, jsonM. destruct (json res) as [qrData|]; [|repeat split].
  unfold ret at 1, bind at 1.
  pose proof (pick_qr_pure qrData (Store.log (EvFetch (gate_get "/qr" token)) w)) as P.
  destruct (pick_qr qrData (Store.log (EvFetch (gate_get "/qr" token)) w))
    as [[qrCode|e] w1]; cbn [snd] in P; subst w1; [|repeat split].
  destruct (truthy qrCode); [|repeat split].
  destruct qrCode; try (repeat split; fail).
  repeat split. eexists. split; [reflexivity|].
  destruct (String.prefix "data:image/" s) eqn:E; [exact E | reflexivity].
Qed.

(** The polling loop: at most two calls and one delay of 2000 ms for each
    attempt. *)
Lemma poll_for_qr_effects (token : Json) (u : string) (n : nat) :
  forall w : World,
    match poll_for_qr env token u n w with
    | (r, w') =>
        (calls w' <= calls w + 2 * n)%nat /\
        exists k : nat,
          (k <= n)%nat /\
          waits w' = repeat 2000%Z k ++ waits w /\
          match r with
          | Ret (Some resp) => pairing_payload resp
          | Ret None => k = n
          | Raise _ => True
          end
    end.
Proof.
  induction n as [|n IH]; intros w.
  - cbn [poll_for_qr ret]. split; [lia|]. exists 0%nat.
    split; [lia|]. split; reflexivity.
  - assert (Next : forall w1 : World,
      calls w1 = S (calls w) \/ calls w1 = S (S (calls w)) ->
      waits w1 = waits w ->
      match (lift (Store.delay 2000) ;;; poll_for_qr env token u n) w1 with
      | (r, w') =>
          (calls w' <= calls w + 2 * S n)%nat /\
          exists k : nat,
            (k <= S n)%nat /\
            waits w' = repeat 2000%Z k ++ waits w /\
            match r with
            | Ret (Some resp) => pairing_payload resp
            | Ret None => k = S n
            | Raise _ => True
            end
      end).
    { intros w1 C W. unfold bind at 1, lift.
      pose proof (IH (Store.delay 2000 w1)) as H.
      destruct (poll_for_qr env token u n (Store.delay 2000 w1)) as [r w'].
      destruct H as (B & k & Hk & Hw & Hr).
      change (calls (Store.delay 2000 w1)) with (calls w1) in B.
      change (waits (Store.delay 2000 w1)) with (2000%Z :: waits w1) in Hw.
      split; [lia|]. exists (S k). split; [lia|]. split.
      - rewrite Hw, W. apply repeat_shift.
      - destruct r as [[resp|]|e]; auto. }
    assert (Stop :
      (calls (Store.log (EvFetch (gate_get "/health" token)) w) <= calls w + 2 * S n)%nat /\
      exists k : nat,
        (k <= S n)%nat /\
        waits (Store.log (EvFetch (gate_get "/health" token)) w)
        = repeat 2000%Z k ++ waits w /\ True).
    { rewrite calls_fetch. split; [lia|]. exists 0%nat. repeat split. lia. }
    cbn [poll_for_qr]. unfold bind at 1, fetchM, Store.fetch.
    destruct (gateway env (fetch_count (trace w)) (gate_get "/health" token)) as [e|res].
    { exact Stop. }
    destruct (ok res).
    2:{ unfold bind at 1, ret at 1. apply Next; [left|]; reflexivity. }
    unfold bind at 1.
    unfold bind at 1, jsonM. destruct (json res) as [health|].
    2:{ exact Stop. }
    unfold ret at 1. unfold bind at 1.
    pose proof (propM_pure health "status"
                  (Store.log (EvFetch (gate_get "/health" token)) w)) as P.
    destruct (propM health "status" (Store.log (EvFetch (gate_get "/health" token)) w))
      as [[st|e] w1]; cbn [snd] in P; subst w1.
    2:{ exact Stop. }
    destruct (is_pairing st).
    2:{ unfold ret at 1. apply Next; [left|]; reflexivity. }
    pose proof (fetch_qr_effects token u "New instance created! Scan QR code with WhatsApp"
                  (Store.log (EvFetch (gate_get "/health" token)) w)) as Q.
    destruct (fetch_qr env token u "New instance created! Scan QR code with WhatsApp"
                (Store.log (EvFetch (gate_get "/health" token)) w)) as [[[resp|]|e] w2];
      destruct Q as (Q1 & Q2 & Q3).
    + cbn [ret]. rewrite calls_fetch in Q1. split.
      * rewrite Q1. lia.
      * exists 0%nat. split; [lia|]. split; [exact Q2 | exact Q3].
    + apply Next; [right; rewrite Q1; reflexivity | exact Q2].
    + rewrite calls_fetch in Q1. split.
      * rewrite Q1. lia.
      * exists 0%nat. split; [lia|]. split; [exact Q2 | exact I].
Qed.

Lemma first_project_id_pure (projects : Json) (w : World) :
  snd (first_project_id projects w) = w.
Proof.
  destruct projects; try reflexivity.
  destruct items; [reflexivity|]. apply propM_pure.
Qed.

Lemma raise_outcome (w w1 : World) (e : string) :
  (calls w1 <= calls w + 3)%nat -> waits w1 = waits w ->
  connect_outcome w (Raise e, w1).
Proof. intros C W. repeat split; cbn [fst snd]; [lia | now left]. Qed.

(** From the creation of the channel on, for a user without channel. *)
Lemma create_instance_effects (u : string) (profile : option Profile) (w : World) :
  match profile with
  | Some p => truthy_text (instance_id p) = false
  | None => True
  end ->
  connect_outcome w (create_instance env u profile w).
Proof.
  intros Hp. unfold create_instance.
  assert (Project : forall w1 : World,
    calls w1 = calls w -> waits w1 = waits w ->
    connect_outcome w
      ((projectId <- resolve_project env ;;
        if negb (truthy projectId) then raise "No WHAPI project available"
        else
          createRes <- fetchM env (create_request env u projectId) ;;
          if negb (ok createRes)
          then raise (String.append "Failed to create channel: " (text createRes))
          else
            channel <- jsonM createRes ;;
            channelId <- propM channel "id" ;;
            channelToken <- propM channel "token" ;;
            catch (fetchM env (settings_request env channelToken) ;;; ret tt)
                  (fun _ => ret tt) ;;;
            t <- get now ;;
            lift (Store.update_profiles (ById u)
                    {| set_instance_id := written channel "id";
                       set_whapi_token := written channel "token";
                       set_instance_status := Some (Some "initializing");
                       set_updated_at := Some t |}) ;;;
            lift (Store.delay 3000) ;;;
            r <- poll_for_qr env channelToken u attempts ;;
            match r with
            | Some resp => ret resp
            | None =>
                ret (json_response 200
                       [("success", JBool true);
                        ("message",
                         JStr "Instance created. Please try getting QR code in a moment.");
                        ("instance_id", channelId)])
            end) w1)).
  { intros w1 C1 W1.
    assert (Created : forall (projectId : Json) (w2 : World),
      (calls w2 <= calls w + 1)%nat -> waits w2 = waits w ->
      connect_outcome w
        ((createRes <- fetchM env (create_request env u projectId) ;;
          if negb (ok createRes)
          then raise (String.append "Failed to create channel: " (text createRes))
          else
            channel <- jsonM createRes ;;
            channelId <- propM channel "id" ;;
            channelToken <- propM channel "token" ;;
            catch (fetchM env (settings_request env channelToken) ;;; ret tt)
                  (fun _ => ret tt) ;;;
            t <- get now ;;
            lift (Store.update_profiles (ById u)
                    {| set_instance_id := written channel "id";
                       set_whapi_token := written channel "token";
                       set_instance_status := Some (Some "initializing");
                       set_updated_at := Some t |}) ;;;
            lift (Store.delay 3000) ;;;
            r <- poll_for_qr env channelToken u attempts ;;
            match r with
            | Some resp => ret resp
            | None =>
                ret (json_response 200
                       [("success", JBool true);
                        ("message",
                         JStr "Instance created. Please try getting QR code in a moment.");
                        ("instance_id", channelId)])
            end) w2)).
    { intros projectId w2 C2 W2.
      unfold bind at 1, fetchM at 1, Store.fetch.
      destruct (gateway env (fetch_count (trace w2)) (create_request env u projectId))
        as [e|createRes].
      { apply raise_outcome; [rewrite calls_fetch; lia | exact W2]. }
      destruct (ok createRes); cbn [negb].
      2:{ apply raise_outcome; [rewrite calls_fetch; lia | exact W2]. }
      unfold bind at 1, jsonM. destruct (json createRes) as [channel|].
      2:{ apply raise_outcome; [rewrite calls_fetch; lia | exact W2]. }
      unfold ret at 1. unfold bind at 1, propM at 1.
      destruct (prop channel "id") as [channelId|].
      2:{ apply raise_outcome; [rewrite calls_fetch; lia | exact W2]. }
      unfold ret at 1. unfold bind at 1, propM at 1.
      destruct (prop channel "token") as [channelToken|].
      2:{ apply raise_outcome; [rewrite calls_fetch; lia | exact W2]. }
      unfold ret at 1.
      set (w3 := Store.log (EvFetch (create_request env u projectId)) w2).
      assert (C3 : (calls w3 <= calls w + 2)%nat) by (unfold w3; rewrite calls_fetch; lia).
      assert (W3 : waits w3 = waits w) by exact W2.
      clearbody w3.
      assert (Poll : forall w4 : World,
        (calls w4 <= calls w + 3)%nat -> waits w4 = waits w ->
        connect_outcome w
          ((t <- get now ;;
            lift (Store.update_profiles (ById u)
                    {| set_instance_id := written channel "id";
                       set_whapi_token := written channel "token";
                       set_instance_status := Some (Some "initializing");
                       set_updated_at := Some t |}) ;;;
            lift (Store.delay 3000) ;;;
            r <- poll_for_qr env channelToken u attempts ;;
            match r with
            | Some resp => ret resp
            | None =>
                ret (json_response 200
                       [("success", JBool true);
                        ("message",
                         JStr "Instance created. Please try getting QR code in a moment.");
                        ("instance_id", channelId)])
            end) w4)).
      { intros w4 C4 W4.
        unfold bind at 1, get at 1. unfold bind at 1, lift at 1.
        unfold bind at 1, lift at 1. unfold bind at 1.
        set (w5 := Store.delay 3000 (Store.update_profiles (ById u) _ w4)).
        assert (C5 : calls w5 = calls w4) by reflexivity.
        assert (W5 : waits w5 = 3000%Z :: waits w4) by reflexivity.
        clearbody w5.
        pose proof (poll_for_qr_effects channelToken u attempts w5) as H.
        destruct (poll_for_qr env channelToken u attempts w5) as [r w6].
        destruct H as (B & k & Hk & Hw & Hr). unfold attempts in *.
        destruct r as [[resp|]|e]; unfold connect_outcome; cbn [ret fst snd].
        - split; [lia|]. split; [|now left].
          right. exists k. split; [exact Hk|]. now rewrite Hw, W5, W4.
        - split; [lia|]. split.
          + right. exists k. split; [lia|]. now rewrite Hw, W5, W4.
          + right. repeat split.
        - split; [lia|]. split; [|exact I].
          right. exists k. split; [exact Hk|]. now rewrite Hw, W5, W4. }
      unfold bind at 1, catch, bind at 1, fetchM at 1, Store.fetch.
      destruct (gateway env (fetch_count (trace w3)) (settings_request env channelToken));
        cbn [ret]; apply Poll; try (rewrite calls_fetch; lia); exact W3. }
    unfold bind at 1, resolve_project.
    destruct (truthy_text (WHAPI_PROJECT_ID env)).
    { unfold ret at 1.
      destruct (negb (truthy (of_text (WHAPI_PROJECT_ID env)))).
      - apply raise_outcome; [lia | exact W1].
      - apply Created; [lia | exact W1]. }
    unfold bind at 1, fetchM at 1, Store.fetch.
    destruct (gateway env (fetch_count (trace w1))
                {| method := "GET"; url := "https://manager.whapi.cloud/projects";
                   auth := JStr (WHAPI_PARTNER_TOKEN env); body := JNull |})
      as [e|projectsRes].
    { apply raise_outcome; [rewrite calls_fetch; lia | exact W1]. }
    set (w2 := Store.log _ w1).
    assert (C2 : (calls w2 <= calls w + 1)%nat) by (unfold w2; rewrite calls_fetch; lia).
    assert (W2 : waits w2 = waits w) by exact W1.
    clearbody w2.
    destruct (ok projectsRes).
    2:{ unfold ret at 1. cbn [truthy negb]. apply raise_outcome; [lia | exact W2]. }
    unfold bind at 1, jsonM. destruct (json projectsRes) as [projects|].
    2:{ apply raise_outcome; [lia | exact W2]. }
    unfold ret at 1.
    pose proof (first_project_id_pure projects w2) as P.
    destruct (first_project_id projects w2) as [[projectId|e] w2']; cbn [snd] in P; subst w2'.
    2:{ apply raise_outcome; [lia | exact W2]. }
    destruct (negb (truthy projectId)).
    - apply raise_outcome; [lia | exact W2].
    - apply Created; [lia | exact W2]. }
  unfold bind at 1.
  destruct profile as [p|]; [|apply Project; reflexivity].
  destruct (instance_id p) as [i|]; [|apply Project; reflexivity].
  rewrite Hp. apply Project; reflexivity.
Qed.

End Connect.

Section ConnectClaims.

Import WhapiSimple.

(** C6, as amended: for a user without channel, [handleConnect] of the
    action endpoint makes at most 19 gateway calls.  After the channel is
    created it waits 3000 ms and then polls at most 8 times with a fixed
    delay of 2000 ms after each attempt that did not succeed: the delay
    does not grow.  It answers with a pairing code (a data URI) or with the
    acknowledgement that the instance was created, or it raises, which the
    entry point reports as an error; it does so in every case, as the
    function is total. *)
Theorem connect_is_bounded (env : Env) (userId : string) (w : World) :
  no_channel userId w ->
  match handleConnect env userId w with
  | (r, w') =>
      (calls w' <= calls w + 19)%nat /\
      (waits w' = waits w \/
       exists k : nat, (k <= 8)%nat /\ waits w' = repeat 2000%Z k ++ 3000%Z :: waits w) /\
      match r with
      | Ret resp => pairing_payload resp \/ pending_ack resp
      | Raise _ => True
      end
  end.
Proof.
  intros H. unfold no_channel in H.
  assert (K : forall profile : option Profile,
    match profile with
    | Some p => truthy_text (instance_id p) = false
    | None => True
    end ->
    match create_instance env userId profile w with
    | (r, w') =>
        (calls w' <= calls w + 19)%nat /\
        (waits w' = waits w \/
         exists k : nat,
           (k <= 8)%nat /\ waits w' = repeat 2000%Z k ++ 3000%Z :: waits w) /\
        match r with
        | Ret resp => pairing_payload resp \/ pending_ack resp
        | Raise _ => True
        end
    end).
  { intros profile Hp.
    pose proof (create_instance_effects env userId profile w Hp) as O.
    unfold connect_outcome in O.
    destruct (create_instance env userId profile w) as [r w']. exact O. }
  unfold handleConnect. unfold bind at 1, get at 1.
  destruct (Store.single_profile (ById userId) w) as [p|].
  - destruct H as [Ht Hi]. rewrite Ht. unfold bind at 1, ret at 1.
    apply K. exact Hi.
  - unfold bind at 1, ret at 1. apply K. exact I.
Qed.

Lemma connect_is_bounded_witness :
  no_channel "bob" Sample.fresh_world /\
  match handleConnect Sample.never_ready "bob" Sample.fresh_world with
  | (r, w') =>
      (calls w' <= calls Sample.fresh_world + 19)%nat /\
      (waits w' = waits Sample.fresh_world \/
       exists k : nat,
         (k <= 8)%nat /\
         waits w' = repeat 2000%Z k ++ 3000%Z :: waits Sample.fresh_world) /\
      match r with
      | Ret resp => pairing_payload resp \/ pending_ack resp
      | Raise _ => True
      end
  end.
Proof.
  assert (N : no_channel "bob" Sample.fresh_world) by (split; reflexivity).
  split; [exact N|].
  exact (connect_is_bounded Sample.never_ready "bob" Sample.fresh_world N).
Defined.

(** C6, as stated, fails on the action endpoint.  When the gateway refuses
    to create the channel, [connect] answers with an error, neither a
    pairing code nor an acknowledgement.  When the channel never becomes
    ready, the delays are 3000 ms and then eight times 2000 ms: they do not
    double. *)
Lemma connect_without_backoff :
  fst (serve Sample.no_handler Sample.no_data_handler Sample.no_data_handler
         Sample.no_data_handler Sample.create_fails Sample.connect_bob
         Sample.fresh_world)
  = json_response 500 [("error", JStr "Failed to create channel: quota exceeded")] /\
  rev (waits (snd (serve Sample.no_handler Sample.no_data_handler Sample.no_data_handler
                     Sample.no_data_handler Sample.never_ready Sample.connect_bob
                     Sample.fresh_world)))
  = 3000%Z :: repeat 2000%Z 8 /\
  doubling (repeat 2000%Z 8) = false /\
  calls (snd (serve Sample.no_handler Sample.no_data_handler Sample.no_data_handler
                Sample.no_data_handler Sample.never_ready Sample.connect_bob
                Sample.fresh_world)) = 10%nat.
Proof. repeat split. Qed.

End ConnectClaims.


(** * The two other retrieval functions *)

Section OtherRetrievals.

(** [attemptGetQR] of the workflow variant has no bound of its own: with a
    gateway that serves no code and accepts every initialisation call, no
    depth of calls is enough for it to return. *)
Lemma try_endpoints_nothing (token : Json) (endpoints : list string) :
  forall w : World,
    fst (Workflow.try_endpoints Sample.always_initialising token endpoints w) = None.
Proof.
  induction endpoints as [|endpoint rest IH]; intros w; [reflexivity|].
  cbn [Workflow.try_endpoints]. unfold catch, Workflow.try_endpoint, bind at 1.
  unfold fetchM, Store.fetch. cbn [gateway Sample.always_initialising Sample.env_of].
  cbn [method Workflow.qr_request]. cbn. apply IH.
Qed.

Lemma attemptGetQR_never_returns (token : Json) (fuel : nat) :
  forall w : World,
    Workflow.attemptGetQR fuel Sample.always_initialising token w = None.
Proof.
  induction fuel as [|fuel IH]; intros w; [reflexivity|].
  cbn [Workflow.attemptGetQR].
  pose proof (try_endpoints_nothing token Workflow.qrEndpoints w) as N.
  destruct (Workflow.try_endpoints Sample.always_initialising token
              Workflow.qrEndpoints w) as [r w1].
  cbn [fst] in N. subst r.
  unfold Workflow.initEndpoints, Store.fetch.
  cbn [gateway Sample.always_initialising Sample.env_of method Workflow.init_request].
  cbn. apply IH.
Qed.

Variable createErrorResponse : Z -> string -> string -> Json.
Variable processQrResponse : Json -> option Json.
Variable createNetworkErrorResponse : string -> Json.
Variable env : Env.

Lemma attempt_once_effects (instanceId channelToken : string) (w : World) :
  match GetQr.attempt_once createErrorResponse processQrResponse env
          instanceId channelToken w with
  | (r, w') => (calls w' <= calls w + 2)%nat /\ waits w' = waits w
  end.
Proof.
  assert (One : forall r : Request,
    (calls (Store.log (EvFetch r) w) <= calls w + 2)%nat /\
    waits (Store.log (EvFetch r) w) = waits w).
  { intros r. rewrite calls_fetch. split; [lia | reflexivity]. }
  assert (Two : forall r r' : Request,
    (calls (Store.log (EvFetch r') (Store.log (EvFetch r) w)) <= calls w + 2)%nat /\
    waits (Store.log (EvFetch r') (Store.log (EvFetch r) w)) = waits w).
  { intros r r'. rewrite !calls_fetch. split; [lia | reflexivity]. }
  unfold GetQr.attempt_once.
  destruct (channelToken =? ""); [split; [cbn; lia | reflexivity]|].
  unfold bind at 1, GetQr.checkChannelAccessibility, catch, bind at 1, fetchM at 1,
    Store.fetch.
  destruct (gateway env (fetch_count (trace w)) (GetQr.settings_request channelToken))
    as [e|response]; [apply One|].
  cbn [ret]. destruct (ok response); cbn [negb]; [|apply One].
  unfold bind at 1, fetchM at 1, Store.fetch.
  destruct (gateway env _ (GetQr.qr_request instanceId channelToken)) as [e|qrResponse];
    [apply Two|].
  destruct (ok qrResponse).
  - unfold bind at 1, jsonM. destruct (json qrResponse) as [qrData|]; [|apply Two].
    cbn [ret]. unfold bind at 1, GetQr.keysM.
    destruct qrData; cbn [ret raise]; try apply Two;
      destruct (processQrResponse _); apply Two.
  - unfold bind at 1, propM.
    destruct (prop (createErrorResponse (status qrResponse) (text qrResponse) instanceId)
                "retryable") as [retryable|]; [|apply Two].
    cbn [ret]. destruct (truthy retryable); apply Two.
Qed.

(** [attemptQrRetrieval] returns after at most [maxRetries] retries: three
    levels of calls are enough from [retryCount = 0].  Its delays are
    2000 ms and then 4000 ms. *)
Lemma attemptQrRetrieval_returns (instanceId channelToken : string) (fuel : nat) :
  forall (retryCount : nat) (w : World),
    (0 < fuel)%nat -> (3 <= fuel + retryCount)%nat ->
    exists (r : Json) (w' : World) (k : nat),
      GetQr.attemptQrRetrieval createErrorResponse processQrResponse
        createNetworkErrorResponse fuel env instanceId channelToken retryCount w
      = Some (r, w') /\
      (retryCount + k <= Nat.max retryCount GetQr.maxRetries)%nat /\
      waits w' = rev (map GetQr.delayMs (seq retryCount k)) ++ waits w /\
      (calls w' <= calls w + 2 * S k)%nat.
Proof.
  induction fuel as [|fuel IH]; intros retryCount w Hf Hb; [lia|].
  cbn [GetQr.attemptQrRetrieval].
  pose proof (attempt_once_effects instanceId channelToken w) as E.
  destruct (GetQr.attempt_once createErrorResponse processQrResponse env
              instanceId channelToken w) as [r w1].
  destruct E as [C W].
  assert (Stop : forall j : Json,
    exists (r0 : Json) (w' : World) (k : nat),
      Some (j, w1) = Some (r0, w') /\
      (retryCount + k <= Nat.max retryCount GetQr.maxRetries)%nat /\
      waits w' = rev (map GetQr.delayMs (seq retryCount k)) ++ waits w /\
      (calls w' <= calls w + 2 * S k)%nat).
  { intros j. exists j, w1, 0%nat. split; [reflexivity|].
    split; [lia|]. split; [exact W | lia]. }
  assert (Again : (retryCount <? GetQr.maxRetries)%nat = true ->
    exists (r0 : Json) (w' : World) (k : nat),
      GetQr.attemptQrRetrieval createErrorResponse processQrResponse
        createNetworkErrorResponse fuel env instanceId channelToken (S retryCount)
        (Store.delay (GetQr.delayMs retryCount) w1)
      = Some (r0, w') /\
      (retryCount + k <= Nat.max retryCount GetQr.maxRetries)%nat /\
      waits w' = rev (map GetQr.delayMs (seq retryCount k)) ++ waits w /\
      (calls w' <= calls w + 2 * S k)%nat).
  { intros L. apply Nat.ltb_lt in L. unfold GetQr.maxRetries in *.
    destruct (IH (S retryCount) (Store.delay (GetQr.delayMs retryCount) w1))
      as (r0 & w' & k & R & B & D & K); [lia | lia |].
    exists r0, w', (S k). split; [exact R|]. split; [lia|]. split.
    - rewrite D. cbn [seq map rev]. rewrite <- app_assoc.
      change (waits (Store.delay (GetQr.delayMs retryCount) w1))
        with (GetQr.delayMs retryCount :: waits w1).
      now rewrite W.
    - change (calls (Store.delay (GetQr.delayMs retryCount) w1)) with (calls w1) in K.
      lia. }
  destruct r as [[j|j]|e].
  - apply Stop.
  - destruct (retryCount <? GetQr.maxRetries)%nat eqn:L; [now apply Again | apply Stop].
  - destruct (retryCount <? GetQr.maxRetries)%nat eqn:L; [now apply Again | apply Stop].
Qed.

End OtherRetrievals.

(** * Further properties of the scheduler *)

Section SchedulerPasses.

Import Scheduler.

Lemma fetch_count_cons_update (id st : string) (t : list Event) :
  fetch_count (EvUpdateScheduled id st :: t) = fetch_count t.
Proof. reflexivity. Qed.

Lemma process_message_calls (env : Env) (w : World) (pm : PendingMessage) :
  calls (process_message env w pm)
  = (calls w + (if connected_view (joined pm)
                then List.length (group_ids (row pm)) else 0))%nat.
Proof.
  destruct (process_message_trace env w pm) as (mid & final & T & _ & _ & _ & F & _).
  unfold calls. rewrite T, fetch_count_cons_update, fetch_count_app,
    fetch_count_cons_update, F. lia.
Qed.

Lemma process_batch_calls (env : Env) (batch : list PendingMessage) :
  forall w : World,
    calls (process_batch env batch w) = (calls w + planned_calls batch)%nat.
Proof.
  unfold process_batch.
  induction batch as [|pm batch IH]; intros w; cbn [fold_left planned_calls]; [lia|].
  rewrite IH, process_message_calls. lia.
Qed.

(** A pass makes one gateway call for each recipient of each selected
    broadcast whose owner is connected, and none for the other broadcasts,
    whatever the gateway answers. *)
Theorem pass_calls_every_recipient (env : Env) (w : World) :
  calls (snd (run env w)) = (calls w + planned_calls (select_pending w))%nat.
Proof.
  unfold run. destruct (select_pending w) as [|pm batch] eqn:E.
  - cbn. lia.
  - cbn [snd]. apply process_batch_calls.
Qed.

(** The history rows of one iteration, and of the loop. *)
Lemma send_one_history (env : Env) (tok : string) (m : ScheduledMessage) (w : World)
  (c : Counters) (g : string) :
  exists added : list HistoryRow,
    message_history (fst (send_one env tok m (w, c) g)) = message_history w ++ added /\
    (List.length added <= 1)%nat /\
    Forall (fun h => scheduled_message_id h = Some (sm_id m) /\
                     h_user_id h = sm_user_id m /\
                     h_message h = sm_message m /\
                     h_group_id h = g /\
                     (h_status h = "sent" \/ h_status h = "failed")) added.
Proof.
  unfold send_one, Store.fetch.
  destruct (gateway env (fetch_count (trace w)) (send_request tok m g)) as [e|res].
  - exists []. cbn. rewrite app_nil_r. auto.
  - destruct (ok res).
    + destruct (json res) as [result|].
      * destruct (prop result "id") as [mid|].
        -- exists [history_row m g "sent" None mid]. cbn. repeat split; auto.
           constructor; [|constructor]. cbn. auto 10.
        -- exists []. cbn. rewrite app_nil_r. auto.
      * exists []. cbn. rewrite app_nil_r. auto.
    + exists [history_row m g "failed" (Some (text res)) JNull]. cbn.
      repeat split; auto. constructor; [|constructor]. cbn. auto 10.
Qed.

Lemma send_loop_history (env : Env) (tok : string) (m : ScheduledMessage)
  (gs : list string) :
  forall (w : World) (c : Counters),
    exists added : list HistoryRow,
      message_history (fst (fold_left (send_one env tok m) gs (w, c)))
      = message_history w ++ added /\
      (List.length added <= List.length gs)%nat /\
      Forall (fun h => scheduled_message_id h = Some (sm_id m) /\
                       h_user_id h = sm_user_id m /\
                       h_message h = sm_message m /\
                       In (h_group_id h) gs /\
                       (h_status h = "sent" \/ h_status h = "failed")) added.
Proof.
  induction gs as [|g gs IH]; intros w c; cbn [fold_left List.length].
  - exists []. cbn. rewrite app_nil_r. auto.
  - destruct (send_one_history env tok m w c g) as (a1 & H1 & L1 & F1).
    destruct (send_one env tok m (w, c) g) as [w1 c1]. cbn [fst] in H1.
    destruct (IH w1 c1) as (a2 & H2 & L2 & F2).
    exists (a1 ++ a2). split; [|split].
    + now rewrite H2, H1, app_assoc.
    + rewrite length_app. lia.
    + apply Forall_app. split.
      * eapply Forall_impl; [|exact F1]. cbn. intros h (A & B & C & D & E).
        repeat split; auto.
      * eapply Forall_impl; [|exact F2]. cbn. intros h (A & B & C & D & E).
        repeat split; auto.
Qed.

Lemma finalStatus_final (c : Counters) :
  In (finalStatus c) ["sent"; "partial"; "failed"].
Proof.
  unfold finalStatus.
  destruct (0 <? successCount c)%nat; [destruct (0 <? failCount c)%nat|]; cbn; auto.
Qed.

(** What processing one broadcast does to the tables. *)
Lemma process_message_tables (env : Env) (w : World) (pm : PendingMessage) :
  exists (final : string) (upd : option Z) (added : list HistoryRow),
    scheduled_messages (process_message env w pm)
    = map (Store.set_message_status (sm_id (row pm)) final upd)
        (map (Store.set_message_status (sm_id (row pm)) "sending" None)
           (scheduled_messages w)) /\
    In final ["sent"; "partial"; "failed"] /\
    profiles (process_message env w pm) = profiles w /\
    now (process_message env w pm) = now w /\
    message_history (process_message env w pm) = message_history w ++ added /\
    (List.length added
     <= (if connected_view (joined pm)
         then List.length (group_ids (row pm)) else 0))%nat /\
    Forall (record_of (row pm)) added.
Proof.
  unfold process_message.
  destruct (connected_view (joined pm)); cbn [negb].
  - pose proof (send_all_effects env (token_of (joined pm)) (row pm)
                  (Store.update_scheduled (sm_id (row pm)) "sending" None w)) as E.
    destruct (send_loop_history env (token_of (joined pm)) (row pm) (group_ids (row pm))
                (Store.update_scheduled (sm_id (row pm)) "sending" None w)
                {| successCount := 0; failCount := 0 |}) as (added & H & L & F).
    fold (send_all env (token_of (joined pm)) (row pm)
            (Store.update_scheduled (sm_id (row pm)) "sending" None w)) in H.
    destruct (send_all env (token_of (joined pm)) (row pm)
                (Store.update_scheduled (sm_id (row pm)) "sending" None w)) as [w2 c].
    cbn [fst] in E, H. destruct E as (evs & _ & _ & _ & _ & S & P & N).
    exists (finalStatus c), (Some (now w2)), added.
    cbn [Store.update_scheduled scheduled_messages profiles now message_history].
    rewrite S, P, N, H. cbn [Store.update_scheduled scheduled_messages profiles now
                               message_history].
    repeat split; auto using finalStatus_final.
  - exists "failed", (Some (now w)), [].
    cbn. rewrite app_nil_r. repeat split; auto.
Qed.

Lemma retouched_refl (ids : list string) (m : ScheduledMessage) : retouched ids m m.
Proof. unfold retouched. repeat split; auto. Qed.

Lemma retouched_step (id st st' : string) (u u' : option Z) (m : ScheduledMessage) :
  retouched [id] m
    (Store.set_message_status id st' u' (Store.set_message_status id st u m)).
Proof.
  unfold Store.set_message_status at 2.
  destruct (sm_id m =? id) eqn:E.
  - unfold Store.set_message_status. cbn [sm_id]. rewrite E.
    unfold retouched. cbn. repeat split; auto.
    intros H. exfalso. apply H. left. symmetry. now apply String.eqb_eq.
  - unfold Store.set_message_status. rewrite E. apply retouched_refl.
Qed.

Lemma retouched_trans (id : string) (ids : list string) (a b c : ScheduledMessage) :
  retouched [id] a b -> retouched ids b c -> retouched (id :: ids) a c.
Proof.
  intros (A1 & A2 & A3 & A4 & A5 & A6 & A7 & A8) (B1 & B2 & B3 & B4 & B5 & B6 & B7 & B8).
  unfold retouched. repeat split; try congruence.
  intros H. assert (E : b = a).
  { apply A8. intros K. apply H. cbn in K |- *. tauto. }
  subst b. apply B8. intros K. apply H. cbn. tauto.
Qed.

Lemma process_batch_tables (env : Env) (batch : list PendingMessage) :
  forall w : World,
    Forall2 (retouched (map (fun pm => sm_id (row pm)) batch))
      (scheduled_messages w) (scheduled_messages (process_batch env batch w)) /\
    profiles (process_batch env batch w) = profiles w /\
    now (process_batch env batch w) = now w.
Proof.
  unfold process_batch.
  induction batch as [|pm batch IH]; intros w; cbn [fold_left map].
  - split; [|auto]. induction (scheduled_messages w); constructor; auto using retouched_refl.
  - destruct (process_message_tables env w pm)
      as (final & upd & added & S & _ & P & N & _).
    destruct (IH (process_message env w pm)) as (F & P' & N').
    split; [|split; congruence].
    rewrite S in F. clear - F.
    remember (scheduled_messages
                (fold_left (process_message env) batch (process_message env w pm))) as out.
    clear Heqout. revert out F.
    induction (scheduled_messages w) as [|m l IHl]; intros out F; cbn [map] in F.
    + inversion F. constructor.
    + inversion F as [|? m' ? l' R F']; subst. constructor.
      * eapply retouched_trans; [apply retouched_step | exact R].
      * apply IHl. exact F'.
Qed.

(** A pass leaves the profiles alone, and changes nothing of the stored
    broadcasts but the status and the update time of those it selected:
    every other row, and every other column, is as before. *)
Theorem pass_touches_selected_only (env : Env) (w : World) :
  Forall2 (retouched (map (fun pm => sm_id (row pm)) (select_pending w)))
    (scheduled_messages w) (scheduled_messages (snd (run env w))) /\
  profiles (snd (run env w)) = profiles w.
Proof.
  unfold run. destruct (select_pending w) as [|pm batch] eqn:E.
  - cbn [snd map]. split; [|reflexivity].
    induction (scheduled_messages w); constructor; auto using retouched_refl.
  - cbn [snd]. destruct (process_batch_tables env (pm :: batch) w) as (F & P & _).
    split; assumption.
Qed.

Lemma set_twice_hit (id st st' : string) (u u' : option Z) (m : ScheduledMessage) :
  (sm_id m =? id) = true ->
  sm_status (Store.set_message_status id st' u' (Store.set_message_status id st u m)) = st'.
Proof.
  intros E. unfold Store.set_message_status at 2. rewrite E.
  unfold Store.set_message_status. cbn [sm_id]. rewrite E. reflexivity.
Qed.

Lemma set_twice_miss (id st st' : string) (u u' : option Z) (m : ScheduledMessage) :
  (sm_id m =? id) = false ->
  Store.set_message_status id st' u' (Store.set_message_status id st u m) = m.
Proof.
  intros E. unfold Store.set_message_status at 2. rewrite E.
  unfold Store.set_message_status. rewrite E. reflexivity.
Qed.

Lemma process_batch_finals (env : Env) (batch : list PendingMessage) :
  forall (w : World) (done : list string),
    Forall (fun m => In (sm_id m) done -> In (sm_status m) ["sent"; "partial"; "failed"])
      (scheduled_messages w) ->
    Forall (fun m => In (sm_id m) (done ++ map (fun pm => sm_id (row pm)) batch) ->
                     In (sm_status m) ["sent"; "partial"; "failed"])
      (scheduled_messages (process_batch env batch w)).
Proof.
  unfold process_batch.
  induction batch as [|pm batch IH]; intros w done H; cbn [fold_left map].
  - now rewrite app_nil_r.
  - replace (done ++ sm_id (row pm) :: map (fun pm0 => sm_id (row pm0)) batch)
      with ((done ++ [sm_id (row pm)]) ++ map (fun pm0 => sm_id (row pm0)) batch)
      by (now rewrite <- app_assoc).
    apply IH.
    destruct (process_message_tables env w pm) as (final & upd & added & S & Fin & _).
    rewrite S, map_map. apply Forall_map.
    eapply Forall_impl; [|exact H]. cbn beta. intros m Hm.
    destruct (sm_id m =? sm_id (row pm)) eqn:E.
    + rewrite (set_twice_hit _ _ _ _ _ _ E). intros _. exact Fin.
    + rewrite (set_twice_miss _ _ _ _ _ _ E). intros K.
      apply in_app_or in K. destruct K as [K|[K|[]]]; [now apply Hm|].
      apply String.eqb_neq in E. congruence.
Qed.

(** When a pass is over, no broadcast it selected is left [pending] or
    [sending]: each of them is [sent], [partial] or [failed]. *)
Theorem pass_settles_every_selected (env : Env) (w : World) :
  Forall (fun m => In (sm_status m) ["sent"; "partial"; "failed"])
    (filter (fun m => existsb (String.eqb (sm_id m))
                        (map (fun pm => sm_id (row pm)) (select_pending w)))
       (scheduled_messages (snd (run env w)))).
Proof.
  apply Forall_forall. intros m Hm. apply filter_In in Hm. destruct Hm as [Hin Hex].
  apply existsb_exists in Hex. destruct Hex as (i & Hi & Ei).
  apply String.eqb_eq in Ei. subst i.
  unfold run in Hin. destruct (select_pending w) as [|pm batch] eqn:E; [destruct Hi|].
  cbn [snd] in Hin.
  pose proof (process_batch_finals env (pm :: batch) w []) as F.
  cbn [app] in F.
  assert (F0 : Forall (fun m0 => In (sm_id m0) [] ->
                                 In (sm_status m0) ["sent"; "partial"; "failed"])
                 (scheduled_messages w)).
  { apply Forall_forall. intros ? _ []. }
  specialize (F F0). rewrite Forall_forall in F. now apply (F m Hin).
Qed.

Lemma process_batch_history (env : Env) (batch : list PendingMessage) :
  forall w : World,
    exists added : list HistoryRow,
      message_history (process_batch env batch w) = message_history w ++ added /\
      (List.length added <= planned_calls batch)%nat /\
      Forall (fun h => exists pm, In pm batch /\ record_of (row pm) h) added.
Proof.
  unfold process_batch.
  induction batch as [|pm batch IH]; intros w; cbn [fold_left planned_calls].
  - exists []. rewrite app_nil_r. auto.
  - destruct (process_message_tables env w pm)
      as (final & upd & a1 & _ & _ & _ & _ & H1 & L1 & F1).
    destruct (IH (process_message env w pm)) as (a2 & H2 & L2 & F2).
    exists (a1 ++ a2). split; [|split].
    + now rewrite H2, H1, app_assoc.
    + rewrite length_app. lia.
    + apply Forall_app. split.
      * eapply Forall_impl; [|exact F1]. intros h R. exists pm. split; [now left | exact R].
      * eapply Forall_impl; [|exact F2]. intros h (pm' & I & R).
        exists pm'. split; [now right | exact R].
Qed.

(** The history is only appended to by a pass; every row it adds is the
    [sent] or [failed] record of a recipient of a selected broadcast, with
    the id, the owner and the text of that broadcast, and there are no more
    such rows than gateway calls to make. *)
Theorem pass_appends_delivery_records (env : Env) (w : World) :
  exists added : list HistoryRow,
    message_history (snd (run env w)) = message_history w ++ added /\
    (List.length added <= planned_calls (select_pending w))%nat /\
    Forall (fun h => exists pm, In pm (select_pending w) /\ record_of (row pm) h) added.
Proof.
  unfold run. destruct (select_pending w) as [|pm batch] eqn:E.
  - exists []. cbn. rewrite app_nil_r. auto.
  - cbn [snd]. apply process_batch_history.
Qed.

(** A broadcast whose joined profile is not connected is marked [failed]
    at once: no gateway call, no history row. *)
Theorem unconnected_broadcast_fails_fast (env : Env) (w : World) (pm : PendingMessage) :
  connected_view (joined pm) = false ->
  calls (process_message env w pm) = calls w /\
  message_history (process_message env w pm) = message_history w /\
  Forall (fun m => sm_status m = "failed")
    (filter (fun m => sm_id m =? sm_id (row pm))
       (scheduled_messages (process_message env w pm))).
Proof.
  intros H. unfold process_message. rewrite H. cbn [negb].
  split; [reflexivity|]. split; [reflexivity|].
  cbn [Store.update_scheduled scheduled_messages]. apply status_after_update.
Qed.

Lemma unconnected_broadcast_fails_fast_witness :
  calls (process_message Sample.all_accepted (Sample.world [])
           {| row := Sample.broadcast "m1" ["g1"] 100;
              joined := {| pv_whapi_token := Some "tok-alice";
                           pv_instance_status := Some "unauthorized" |} |})
  = calls (Sample.world []).
Proof.
  apply (unconnected_broadcast_fails_fast Sample.all_accepted (Sample.world [])
           {| row := Sample.broadcast "m1" ["g1"] 100;
              joined := {| pv_whapi_token := Some "tok-alice";
                           pv_instance_status := Some "unauthorized" |} |}).
  reflexivity.
Defined.

End SchedulerPasses.

(** * Further properties of the connection handlers *)

Section WebhookFacts.

Lemma patch_where_none (f : ProfileFilter) (c : ProfilePatch) (tbl : list Profile) :
  filter (Store.matches f) tbl = [] -> Store.patch_where f c tbl = tbl.
Proof.
  intros F. unfold Store.patch_where.
  rewrite <- (map_id tbl) at 2. apply map_ext_in.
  intros p Hp. destruct (Store.matches f p) eqn:E; [|reflexivity].
  assert (In p (filter (Store.matches f) tbl)) by (apply filter_In; auto).
  rewrite F in H. destruct H.
Qed.

(** The whole effect of the receiver on the world. *)
Lemma webhook_effect (ev : Json) (w : World) :
  snd (Webhook.serve ev w)
  = match webhook_target ev with
    | Some (i, st) =>
        match filter (Store.matches (ByInstanceId i)) (profiles w) with
        | [] => w
        | _ => Store.update_profiles (ByInstanceId i) (status_patch st (now w)) w
        end
    | None => w
    end.
Proof.
  unfold Webhook.serve, Webhook.handle_event, webhook_target, bind at 1, propM at 1.
  destruct (prop ev "event") as [e|]; [|reflexivity].
  unfold ret at 1, bind at 1, propM at 1.
  destruct (prop ev "data") as [d|]; [|reflexivity].
  unfold ret at 1.
  destruct (is_str e "channel" && truthy (opt_prop d "id")); [|reflexivity].
  unfold bind at 1. unfold bind at 1, get at 1.
  destruct (filter (Store.matches (ByInstanceId (opt_prop d "id"))) (profiles w));
    reflexivity.
Qed.

Lemma status_patch_only (f : ProfileFilter) (st : string) (t : Z) (tbl : list Profile) :
  Forall2 status_only tbl (Store.patch_where f (status_patch st t) tbl).
Proof.
  unfold Store.patch_where.
  induction tbl as [|p tbl IH]; cbn [map]; constructor; [|exact IH].
  destruct (Store.matches f p); unfold status_only; repeat split.
Qed.

Lemma status_only_refl (tbl : list Profile) : Forall2 status_only tbl tbl.
Proof. induction tbl; constructor; auto. unfold status_only. repeat split. Qed.

(** Whatever the event, the webhook receiver makes no gateway call, leaves
    the broadcasts and the history alone, and adds, removes or re-keys no
    profile: of a profile it can change the status and the update time
    only, never the channel identifier, the credential or the plan. *)
Theorem webhook_changes_status_only (ev : Json) (w : World) :
  Forall2 status_only (profiles w) (profiles (snd (Webhook.serve ev w))) /\
  scheduled_messages (snd (Webhook.serve ev w)) = scheduled_messages w /\
  message_history (snd (Webhook.serve ev w)) = message_history w /\
  calls (snd (Webhook.serve ev w)) = calls w.
Proof.
  rewrite webhook_effect.
  destruct (webhook_target ev) as [[i st]|].
  - destruct (filter (Store.matches (ByInstanceId i)) (profiles w)).
    + repeat split. apply status_only_refl.
    + repeat split. apply status_patch_only.
  - repeat split. apply status_only_refl.
Qed.



(** An identifier sent as a number finds the profile that holds its text. *)
Example numeric_channel_id_is_compared_as_text :
  let holder := {| p_id := "dora"; whapi_token := Some "tok-d";
                   instance_id := Some "123"; instance_status := Some "initializing";
                   payment_plan := Some "trial"; trial_expires_at := Some 5000%Z;
                   p_updated_at := 0 |} in
  let w := {| profiles := [holder]; scheduled_messages := []; message_history := [];
              now := 1000; trace := [] |} in
  let ev := JObj [("event", JStr "channel");
                  ("data", JObj [("id", JNum 123); ("status", JStr "ready")])] in
  map instance_status (profiles (snd (Webhook.serve ev w))) = [Some "connected"].
Proof. reflexivity. Qed.

Lemma patch_where_twice (f : ProfileFilter) (st : string) (t : Z) (tbl : list Profile) :
  Store.patch_where f (status_patch st t) (Store.patch_where f (status_patch st t) tbl)
  = Store.patch_where f (status_patch st t) tbl.
Proof.
  unfold Store.patch_where. rewrite map_map. apply map_ext. intros p.
  destruct (Store.matches f p) eqn:E.
  - rewrite (matches_by_keys f p (Store.patch (status_patch st t) p)); try reflexivity.
    now rewrite E.
  - now rewrite E.
Qed.

Lemma filter_patch_where (f : ProfileFilter) (st : string) (t : Z) (tbl : list Profile) :
  filter (Store.matches f) (Store.patch_where f (status_patch st t) tbl)
  = map (Store.patch (status_patch st t)) (filter (Store.matches f) tbl).
Proof.
  unfold Store.patch_where.
  induction tbl as [|p tbl IH]; cbn [map filter]; [reflexivity|].
  destruct (Store.matches f p) eqn:E.
  - rewrite (matches_by_keys f p (Store.patch (status_patch st t) p)); try reflexivity.
    rewrite E. cbn [map]. now rewrite IH.
  - rewrite E. exact IH.
Qed.

(** A duplicate delivery is harmless: the same event served twice leaves
    the profiles as one delivery does. *)
Theorem webhook_duplicate_is_harmless (ev : Json) (w : World) :
  profiles (snd (Webhook.serve ev (snd (Webhook.serve ev w))))
  = profiles (snd (Webhook.serve ev w)).
Proof.
  rewrite (webhook_effect ev (snd (Webhook.serve ev w))), (webhook_effect ev w).
  destruct (webhook_target ev) as [[i st]|]; [|reflexivity].
  destruct (filter (Store.matches (ByInstanceId i)) (profiles w)) as [|p l] eqn:F.
  - rewrite F. reflexivity.
  - cbn [Store.update_profiles profiles now]. rewrite filter_patch_where, F.
    cbn [map]. apply patch_where_twice.
Qed.

End WebhookFacts.

Section DisconnectFacts.

Import WhapiSimple.

(** The world after [handleDisconnect]: the reset update, sent after at
    most one gateway call. *)
Lemma disconnect_world (env : Env) (u : string) (w : World) :
  exists w0 : World,
    snd (handleDisconnect env u w)
    = Store.update_profiles (ById u) (reset_patch (now w)) w0 /\
    profiles w0 = profiles w /\
    scheduled_messages w0 = scheduled_messages w /\
    now w0 = now w /\
    (match Store.single_profile (ById u) w with
     | Some p => truthy_text (instance_id p) = false -> w0 = w
     | None => w0 = w
     end).
Proof.
  unfold handleDisconnect, bind at 1, get at 1.
  destruct (Store.single_profile (ById u) w) as [p|].
  2:{ exists w. repeat split. }
  destruct (instance_id p) as [i|] eqn:I.
  2:{ exists w. repeat split. }
  destruct (truthy_text (Some i)) eqn:T.
  2:{ exists w. repeat split. }
  unfold bind at 1, catch, bind at 1, fetchM, Store.fetch.
  exists (Store.log (EvFetch (delete_channel env i)) w).
  destruct (gateway env (fetch_count (trace w)) (delete_channel env i));
    repeat split; discriminate.
Qed.

Lemma single_is_reset (u : string) (t : Z) (w0 : World) (p : Profile) :
  Store.single_profile (ById u) (Store.update_profiles (ById u) (reset_patch t) w0)
  = Some p ->
  instance_id p = None /\ whapi_token p = None /\
  instance_status p = Some "disconnected".
Proof.
  unfold Store.single_profile. cbn [Store.update_profiles profiles]. intros H.
  pose proof (reset_rows u t (profiles w0)) as R.
  destruct (filter (Store.matches (ById u))
              (Store.patch_where (ById u) (reset_patch t) (profiles w0)))
    as [|q [|q' l]]; try discriminate.
  injection H as ->. now inversion R.
Qed.

(** After a disconnect the user has no channel left, so that a second
    disconnect makes no gateway call at all. *)
Theorem disconnect_leaves_no_channel (env env' : Env) (u : string) (w : World) :
  no_channel u (snd (handleDisconnect env u w)) /\
  calls (snd (handleDisconnect env' u (snd (handleDisconnect env u w))))
  = calls (snd (handleDisconnect env u w)).
Proof.
  destruct (disconnect_world env u w) as (w0 & E & _). rewrite E.
  split.
  - unfold no_channel.
    destruct (Store.single_profile (ById u)
                (Store.update_profiles (ById u) (reset_patch (now w)) w0)) as [p|] eqn:S;
      [|exact I].
    destruct (single_is_reset u (now w) w0 p S) as (A & B & _).
    rewrite A, B. split; reflexivity.
  - destruct (disconnect_world env' u
                (Store.update_profiles (ById u) (reset_patch (now w)) w0))
      as (w1 & E1 & _ & _ & _ & K).
    rewrite E1.
    destruct (Store.single_profile (ById u)
                (Store.update_profiles (ById u) (reset_patch (now w)) w0)) as [p|] eqn:S.
    + destruct (single_is_reset u (now w) w0 p S) as (A & _).
      rewrite K; [reflexivity | now rewrite A].
    + rewrite K. reflexivity.
Qed.

Lemma reset_row_of_user (u : string) (t : Z) (tbl : list Profile) (p : Profile) :
  In p (Store.patch_where (ById u) (reset_patch t) tbl) ->
  p_id p = u -> whapi_token p = None.
Proof.
  intros Hin Hid.
  pose proof (reset_rows u t tbl) as R. rewrite Forall_forall in R.
  apply (R p). apply filter_In. split; [exact Hin|].
  cbn. subst u. apply String.eqb_refl.
Qed.

(** After a disconnect, a due broadcast of that user is not dispatched:
    the pass that selects it marks it [failed] without a gateway call. *)
Theorem disconnect_stops_dispatch (env env' : Env) (u : string) (w w2 : World)
  (pm : Scheduler.PendingMessage) :
  In pm (Scheduler.select_pending (snd (handleDisconnect env u w))) ->
  sm_user_id (Scheduler.row pm) = u ->
  Scheduler.connected_view (Scheduler.joined pm) = false /\
  calls (Scheduler.process_message env' w2 pm) = calls w2 /\
  message_history (Scheduler.process_message env' w2 pm) = message_history w2.
Proof.
  intros Hin Hu.
  assert (C : Scheduler.connected_view (Scheduler.joined pm) = false).
  { destruct (disconnect_world env u w) as (w0 & E & _). rewrite E in Hin.
    unfold Scheduler.select_pending in Hin.
    assert (Hin' : In pm (flat_map
                            (Scheduler.join_profile
                               (profiles (Store.update_profiles (ById u)
                                            (reset_patch (now w)) w0)))
                            (filter (Scheduler.is_due
                                       (now (Store.update_profiles (ById u)
                                               (reset_patch (now w)) w0)))
                               (scheduled_messages
                                  (Store.update_profiles (ById u)
                                     (reset_patch (now w)) w0))))).
    { rewrite <- (firstn_skipn 10 (flat_map _ _)). apply in_or_app. now left. }
    apply in_flat_map in Hin'. destruct Hin' as (m & _ & Hj).
    unfold Scheduler.join_profile in Hj.
    destruct (find (fun p => p_id p =? sm_user_id m) _) as [p|] eqn:F; [|destruct Hj].
    destruct Hj as [<-|[]]. cbn [Scheduler.row] in Hu.
    apply find_some in F. destruct F as [Fin Fid]. apply String.eqb_eq in Fid.
    cbn [Store.update_profiles profiles] in Fin.
    unfold Scheduler.connected_view. cbn [Scheduler.joined Scheduler.pv_whapi_token].
    rewrite (reset_row_of_user u (now w) (profiles w0) p Fin); [reflexivity | congruence]. }
  split; [exact C|].
  unfold Scheduler.process_message. rewrite C. split; reflexivity.
Qed.

Lemma disconnect_stops_dispatch_witness :
  Scheduler.connected_view
    (Scheduler.joined
       {| Scheduler.row := Sample.broadcast "m1" ["g1"] 100;
          Scheduler.joined := {| Scheduler.pv_whapi_token := None;
                                 Scheduler.pv_instance_status := Some "disconnected" |} |})
  = false.
Proof.
  apply (disconnect_stops_dispatch Sample.all_accepted Sample.all_accepted "alice"
           (Sample.world [Sample.broadcast "m1" ["g1"] 100]) (Sample.world [])
           {| Scheduler.row := Sample.broadcast "m1" ["g1"] 100;
              Scheduler.joined := {| Scheduler.pv_whapi_token := None;
                                     Scheduler.pv_instance_status := Some "disconnected" |} |}).
  - left. reflexivity.
  - reflexivity.
Defined.

End DisconnectFacts.

Section StatusFacts.

Import WhapiSimple.

Lemma newStatus_connected (st : Json) :
  (newStatus st =? "connected") = (is_str st "authenticated" || is_str st "ready").
Proof.
  unfold newStatus.
  destruct (is_str st "authenticated" || is_str st "ready"); [reflexivity|].
  destruct (is_str st "qr" || is_str st "unauthorized"); reflexivity.
Qed.

(** When the health check answers, the poll leaves the record of the user
    with the mapped status, whether it had to write or not, and the answer
    agrees with the store: [connected] is true exactly when the stored
    status is [connected].  The channel identifier and the credential are
    as before. *)
Theorem status_poll_synchronises (env : Env) (u : string) (w : World) (p : Profile)
  (res : HttpResponse) (health st : Json) :
  Store.single_profile (ById u) w = Some p ->
  truthy_text (whapi_token p) = true ->
  gateway env (calls w) (gate_get "/health" (of_text (whapi_token p))) = Responded res ->
  ok res = true ->
  json res = Some health ->
  prop health "status" = Some st ->
  exists (resp : Response) (w' : World) (p' : Profile),
    handleStatus env u w = (Ret resp, w') /\
    resp_status resp = 200%Z /\
    opt_prop (resp_body resp) "status" = st /\
    opt_prop (resp_body resp) "connected"
    = JBool (text_is (instance_status p') "connected") /\
    Store.single_profile (ById u) w' = Some p' /\
    instance_status p' = Some (newStatus st) /\
    status_only p p' /\
    calls w' = S (calls w).
Proof.
  intros Hp Ht G Ok J S. unfold calls in G.
  unfold handleStatus. unfold bind at 1, get at 1. rewrite Hp, Ht.
  cbn [negb]. unfold bind at 1, fetchM at 1, Store.fetch. rewrite G, Ok. cbn [negb].
  unfold bind at 1, jsonM. rewrite J. unfold ret at 1.
  unfold bind at 1, propM. rewrite S. unfold ret at 1.
  unfold bind at 1.
  destruct (text_is (instance_status p) (newStatus st)) eqn:E; cbn [negb].
  - cbv [bind ret get lift].
    eexists _, _, p. split; [reflexivity|].
    assert (Es : instance_status p = Some (newStatus st)).
    { destruct (instance_status p) as [s|]; [|discriminate].
      cbn in E. apply String.eqb_eq in E. now subst. }
    split; [reflexivity|]. split; [reflexivity|]. split.
    { cbn. rewrite Es. cbn. now rewrite newStatus_connected. }
    split; [exact Hp|]. split; [exact Es|]. split; [|reflexivity].
    unfold status_only. repeat split.
  - cbv [bind ret get lift].
    eexists _, _, (Store.patch (status_patch (newStatus st) (now w)) p).
    split; [reflexivity|].
    split; [reflexivity|]. split; [reflexivity|]. split.
    { cbn. now rewrite newStatus_connected. }
    split; [now apply single_after_update with (w := w)|].
    split; [reflexivity|]. split; [|reflexivity].
    unfold status_only. repeat split.
Qed.

Lemma status_poll_synchronises_witness :
  exists (resp : Response) (w' : World) (p' : Profile),
    handleStatus Sample.never_ready "alice" Sample.late_world = (Ret resp, w') /\
    opt_prop (resp_body resp) "connected" = JBool false /\
    Store.single_profile (ById "alice") w' = Some p' /\
    instance_status p' = Some "disconnected".
Proof.
  destruct (status_poll_synchronises Sample.never_ready "alice" Sample.late_world
              Sample.alice
              {| status := 200; text := "";
                 json := Some (JObj [("status", JStr "loading")]) |}
              (JObj [("status", JStr "loading")]) (JStr "loading")
              eq_refl eq_refl eq_refl eq_refl eq_refl eq_refl)
    as (resp & w' & p' & H & _ & _ & C & S & I & _).
  exists resp, w', p'. split; [exact H|]. split; [|split; [exact S | exact I]].
  rewrite C, I. reflexivity.
Defined.

(** Whatever the gateway does, the poll makes at most one gateway call,
    leaves the broadcasts and the history alone, and changes nothing of a
    profile but the status and the update time. *)
Theorem status_poll_changes_status_only (env : Env) (u : string) (w : World) :
  Forall2 status_only (profiles w) (profiles (snd (handleStatus env u w))) /\
  scheduled_messages (snd (handleStatus env u w)) = scheduled_messages w /\
  message_history (snd (handleStatus env u w)) = message_history w /\
  (calls (snd (handleStatus env u w)) <= S (calls w))%nat.
Proof.
  assert (R : Forall2 status_only (profiles w) (profiles w)) by apply status_only_refl.
  enough (K : match handleStatus env u w with
              | (_, w') =>
                  Forall2 status_only (profiles w) (profiles w') /\
                  scheduled_messages w' = scheduled_messages w /\
                  message_history w' = message_history w /\
                  (calls w' <= S (calls w))%nat
              end).
  { destruct (handleStatus env u w). exact K. }
  unfold handleStatus. unfold bind at 1, get at 1.
  destruct (Store.single_profile (ById u) w) as [p|]; [|cbn; auto].
  destruct (truthy_text (whapi_token p)); cbn [negb]; [|cbn; auto].
  unfold bind at 1, fetchM at 1, Store.fetch.
  destruct (gateway env (fetch_count (trace w))
              (gate_get "/health" (of_text (whapi_token p)))) as [e|res];
    [cbn; auto|].
  destruct (ok res); cbn [negb]; [|cbn; auto].
  unfold bind at 1, jsonM. destruct (json res) as [health|]; [|cbn; auto].
  unfold ret at 1. unfold bind at 1, propM.
  destruct (prop health "status") as [st|]; [|cbn; auto].
  unfold ret at 1. unfold bind at 1.
  destruct (text_is (instance_status p) (newStatus st)); cbn [negb].
  - cbn. auto.
  - cbn. repeat split; auto.
    exact (status_patch_only (ById u) (newStatus st) (now w) (profiles w)).
Qed.

(** A health check that is not answered with success (an error response)
    is reported as status [error], not connected, and nothing is written:
    the stored status is not downgraded. *)
Theorem status_poll_failure_keeps_store (env : Env) (u : string) (w : World)
  (p : Profile) (res : HttpResponse) :
  Store.single_profile (ById u) w = Some p ->
  truthy_text (whapi_token p) = true ->
  gateway env (calls w) (gate_get "/health" (of_text (whapi_token p))) = Responded res ->
  ok res = false ->
  exists w' : World,
    handleStatus env u w
    = (Ret (json_response 200 [("connected", JBool false); ("status", JStr "error");
                               ("message", JStr "Failed to check status")]), w') /\
    profiles w' = profiles w.
Proof.
  intros Hp Ht G Ok. unfold calls in G.
  unfold handleStatus. unfold bind at 1, get at 1. rewrite Hp, Ht.
  cbn [negb]. unfold bind at 1, fetchM at 1, Store.fetch. rewrite G, Ok. cbn [negb].
  eexists. split; reflexivity.
Qed.

Lemma status_poll_failure_keeps_store_witness :
  exists w' : World,
    handleStatus Sample.create_fails "alice" Sample.late_world
    = (Ret (json_response 200 [("connected", JBool false); ("status", JStr "error");
                               ("message", JStr "Failed to check status")]), w') /\
    profiles w' = profiles Sample.late_world.
Proof.
  apply (status_poll_failure_keeps_store Sample.create_fails "alice" Sample.late_world
           Sample.alice {| status := 500; text := "quota exceeded"; json := None |});
    reflexivity.
Defined.

End StatusFacts.

Section StatusCheckFacts.

Import CheckStatus.

Lemma some_instance_pure (id : string) (items : list Json) (w : World) :
  snd (some_instance id items w) = w.
Proof.
  induction items as [|inst items IH]; [reflexivity|].
  cbn [some_instance]. unfold bind, propM.
  destruct (prop inst "instanceId"); [|reflexivity]. cbn [ret].
  destruct (prop inst "id"); [|reflexivity]. cbn [ret].
  destruct (is_str j id || is_str j0 id); [reflexivity | exact IH].
Qed.

Lemma instanceExists_pure (id : string) (instances : Json) (w : World) :
  snd (instanceExists id instances w) = w.
Proof.
  destruct instances; try reflexivity. apply some_instance_pure.
Qed.

Lemma patch_where_keeps_ids (f : ProfileFilter) (c : ProfilePatch) (w : World) :
  map p_id (profiles (Store.update_profiles f c w)) = map p_id (profiles w).
Proof. apply patch_where_ids. Qed.

(** The status check answers 200 to every request with a user id, also
    when the gateway fails or a call raises, and 400 to a request without
    one.  It makes at most two gateway calls, leaves the broadcasts and the
    history alone, and adds or removes no profile. *)
Theorem status_check_always_answers (env : Env) (u : string) (w : World) :
  resp_status (fst (serve env u w)) = (if u =? "" then 400%Z else 200%Z) /\
  (calls (snd (serve env u w)) <= calls w + 2)%nat /\
  scheduled_messages (snd (serve env u w)) = scheduled_messages w /\
  message_history (snd (serve env u w)) = message_history w /\
  map p_id (profiles (snd (serve env u w))) = map p_id (profiles w).
Proof.
  enough (K : match serve env u w with
              | (r, w') =>
                  resp_status r = (if u =? "" then 400%Z else 200%Z) /\
                  (calls w' <= calls w + 2)%nat /\
                  scheduled_messages w' = scheduled_messages w /\
                  message_history w' = message_history w /\
                  map p_id (profiles w') = map p_id (profiles w)
              end).
  { destruct (serve env u w). exact K. }
  assert (Z0 : forall w0 : World, (calls w0 <= calls w + 2)%nat ->
    scheduled_messages w0 = scheduled_messages w ->
    message_history w0 = message_history w ->
    map p_id (profiles w0) = map p_id (profiles w) ->
    forall (f : ProfileFilter) (c : ProfilePatch),
      (calls (Store.update_profiles f c w0) <= calls w + 2)%nat /\
      scheduled_messages (Store.update_profiles f c w0) = scheduled_messages w /\
      message_history (Store.update_profiles f c w0) = message_history w /\
      map p_id (profiles (Store.update_profiles f c w0)) = map p_id (profiles w)).
  { intros w0 C S H P f c. rewrite patch_where_keeps_ids. repeat split; auto. }
  assert (Z1 : forall r : Request,
    (calls (Store.log (EvFetch r) w) <= calls w + 2)%nat /\
    scheduled_messages (Store.log (EvFetch r) w) = scheduled_messages w /\
    message_history (Store.log (EvFetch r) w) = message_history w /\
    map p_id (profiles (Store.log (EvFetch r) w)) = map p_id (profiles w)).
  { intros r. rewrite calls_fetch. repeat split. lia. }
  assert (Z2 : forall r r' : Request,
    (calls (Store.log (EvFetch r') (Store.log (EvFetch r) w)) <= calls w + 2)%nat /\
    scheduled_messages (Store.log (EvFetch r') (Store.log (EvFetch r) w))
    = scheduled_messages w /\
    message_history (Store.log (EvFetch r') (Store.log (EvFetch r) w))
    = message_history w /\
    map p_id (profiles (Store.log (EvFetch r') (Store.log (EvFetch r) w)))
    = map p_id (profiles w)).
  { intros r r'. rewrite !calls_fetch. repeat split. lia. }
  unfold serve, check.
  destruct (u =? ""); [cbn; repeat split; lia|].
  destruct (WHAPI_PARTNER_TOKEN env =? ""); [cbn; repeat split; lia|].
  unfold bind at 1, get at 1.
  destruct (Store.single_profile (ById u) w) as [p|]; [|cbn; repeat split; lia].
  destruct (instance_id p) as [id|]; [|cbn; repeat split; lia].
  destruct (id =? ""); [cbn; repeat split; lia|].
  unfold bind at 1, fetchM at 1, Store.fetch.
  destruct (gateway env (fetch_count (trace w)) (partner_get env "")) as [e|res].
  { split; [reflexivity | apply Z1]. }
  assert (Status : forall w1 : World, w1 = Store.log (EvFetch (partner_get env "")) w ->
    match
      match
        (statusResponse <-
           fetchM env (partner_get env (String.append "/" (String.append id "/status"))) ;;
         if negb (ok statusResponse) then
           if (status statusResponse =? 404)%Z then
             t <- get now ;;
             lift (Store.update_profiles (ById u) (reset_patch t)) ;;;
             ret (requires_new_instance
                    "Instance not found. Please create a new instance.")
           else
             ret (json_response 200 [("connected", JBool false);
                                     ("error", JStr "Status check failed")])
         else
           statusData <- jsonM statusResponse ;;
           st <- propM statusData "status" ;;
           (if isConnected st && negb (text_is (instance_status p) "connected") then
              t <- get now ;;
              lift (Store.update_profiles (ById u) (status_patch "connected" t))
            else ret tt) ;;;
           ret (json_response 200 [("connected", JBool (isConnected st));
                                   ("status", st);
                                   ("instance_id", JStr id)])) w1
      with
      | (Ret r, w2) => (r, w2)
      | (Raise e, w2) =>
          (json_response 200 [("connected", JBool false); ("error", JStr e)], w2)
      end
    with
    | (r, w') =>
        resp_status r = 200%Z /\
        (calls w' <= calls w + 2)%nat /\
        scheduled_messages w' = scheduled_messages w /\
        message_history w' = message_history w /\
        map p_id (profiles w') = map p_id (profiles w)
    end).
  { intros w1 ->. unfold bind at 1, fetchM at 1, Store.fetch.
    destruct (gateway env _ (partner_get env (String.append "/" (String.append id "/status"))))
      as [e|res'].
    { split; [reflexivity | apply Z2]. }
    destruct (ok res'); cbn [negb].
    - unfold bind at 1, jsonM. destruct (json res') as [statusData|].
      2:{ split; [reflexivity | apply Z2]. }
      unfold ret at 1. unfold bind at 1, propM.
      destruct (prop statusData "status") as [st|].
      2:{ split; [reflexivity | apply Z2]. }
      unfold ret at 1. unfold bind at 1.
      destruct (isConnected st && negb (text_is (instance_status p) "connected")).
      + cbv [bind get lift ret]. split; [reflexivity|]. apply Z0; apply Z2.
      + cbv [ret]. split; [reflexivity | apply Z2].
    - destruct (status res' =? 404)%Z.
      + cbv [bind get lift ret]. split; [reflexivity|]. apply Z0; apply Z2.
      + cbv [ret]. split; [reflexivity | apply Z2]. }
  unfold bind at 1.
  destruct (ok res).
  2:{ unfold ret at 1. apply Status. reflexivity. }
  unfold bind at 1, jsonM. destruct (json res) as [instances|].
  2:{ split; [reflexivity | apply Z1]. }
  unfold ret at 1. unfold bind at 1.
  pose proof (instanceExists_pure id instances
                (Store.log (EvFetch (partner_get env "")) w)) as P.
  destruct (instanceExists id instances (Store.log (EvFetch (partner_get env "")) w))
    as [[found|e] w1]; cbn [snd] in P; subst w1.
  2:{ split; [reflexivity | apply Z1]. }
  unfold ret at 1. destruct found; cbn [negb].
  - apply Status. reflexivity.
  - cbv [bind get lift ret]. split; [reflexivity|]. apply Z0; apply Z1.
Qed.

(** When the status endpoint answers with a remote status, the answer is
    [connected] exactly for [active] and [connected]; then the stored status
    is [connected].  For any other remote status nothing is written: the
    status check raises the stored status to [connected] and never lowers
    it.  The channel identifier and the credential stay. *)
Theorem status_check_only_raises (env : Env) (userId : string) (w : World)
  (p : Profile) (id : string) (st : Json) :
  userId <> "" ->
  WHAPI_PARTNER_TOKEN env <> "" ->
  Store.single_profile (ById userId) w = Some p ->
  instance_id p = Some id ->
  id <> "" ->
  reported_status env (calls w) id st ->
  exists (w' : World) (p' : Profile),
    serve env userId w
    = (json_response 200 [("connected", JBool (isConnected st));
                          ("status", st);
                          ("instance_id", JStr id)], w') /\
    Store.single_profile (ById userId) w' = Some p' /\
    status_only p p' /\
    instance_status p'
    = (if isConnected st then Some "connected" else instance_status p).
Proof.
  intros Hu Ht Hp Hi Hid G. unfold calls in G.
  assert (Tail : forall (res' : HttpResponse) (statusData : Json) (w1 : World),
    profiles w1 = profiles w ->
    ok res' = true -> json res' = Some statusData ->
    prop statusData "status" = Some st ->
    exists (w' : World) (p' : Profile),
      match
        (if negb (ok res') then
           if (status res' =? 404)%Z then
             t <- get now ;;
             lift (Store.update_profiles (ById userId) (reset_patch t)) ;;;
             ret (requires_new_instance
                    "Instance not found. Please create a new instance.")
           else
             ret (json_response 200 [("connected", JBool false);
                                     ("error", JStr "Status check failed")])
         else
           statusData <- jsonM res' ;;
           st <- propM statusData "status" ;;
           (if isConnected st && negb (text_is (instance_status p) "connected") then
              t <- get now ;;
              lift (Store.update_profiles (ById userId) (status_patch "connected" t))
            else ret tt) ;;;
           ret (json_response 200 [("connected", JBool (isConnected st));
                                   ("status", st);
                                   ("instance_id", JStr id)])) w1
      with
      | (Ret r, w2) => (r, w2)
      | (Raise e, w2) =>
          (json_response 200 [("connected", JBool false); ("error", JStr e)], w2)
      end
      = (json_response 200 [("connected", JBool (isConnected st));
                            ("status", st);
                            ("instance_id", JStr id)], w') /\
      Store.single_profile (ById userId) w' = Some p' /\
      status_only p p' /\
      instance_status p'
      = (if isConnected st then Some "connected" else instance_status p)).
  { intros res' statusData w1 P Ok J S. rewrite Ok. cbn [negb].
    unfold bind at 1, jsonM. rewrite J. unfold ret at 1.
    unfold bind at 1, propM. rewrite S. unfold ret at 1. unfold bind at 1.
    destruct (isConnected st) eqn:C; cbn [andb].
    - destruct (text_is (instance_status p) "connected") eqn:E; cbn [negb].
      + cbv [ret]. exists w1, p. split; [reflexivity|]. split.
        * unfold Store.single_profile in *. now rewrite P.
        * split; [unfold status_only; repeat split|].
          destruct (instance_status p) as [s|]; [|discriminate].
          cbn in E. apply String.eqb_eq in E. now subst.
      + cbv [bind get lift ret].
        exists (Store.update_profiles (ById userId) (status_patch "connected" (now w1)) w1),
          (Store.patch (status_patch "connected" (now w1)) p).
        split; [reflexivity|]. split; [now apply single_after_update with (w := w)|].
        split; [unfold status_only; repeat split | reflexivity].
    - cbv [ret]. exists w1, p. split; [reflexivity|]. split.
      + unfold Store.single_profile in *. now rewrite P.
      + split; [unfold status_only; repeat split | reflexivity]. }
  unfold serve, check.
  rewrite (eqb_false_of_neq _ _ Hu), (eqb_false_of_neq _ _ Ht).
  unfold bind at 1, get at 1. rewrite Hp, Hi, (eqb_false_of_neq _ _ Hid).
  unfold bind at 1, fetchM at 1, Store.fetch.
  destruct G as [res res' statusData G1 Ok G2 Ok' J' S'
                | res res' before after inst statusData G1 Ok J F N G2 Ok' J' S'];
    rewrite G1.
  - unfold bind at 1. rewrite Ok. unfold ret at 1.
    unfold bind at 1, fetchM at 1, Store.fetch.
    cbn [Store.log trace fetch_count filter is_fetch List.length].
    fold (fetch_count (trace w)). rewrite G2.
    apply Tail with (statusData := statusData); auto.
  - unfold bind at 1. rewrite Ok. unfold bind at 1, jsonM. rewrite J.
    unfold ret at 1. unfold bind at 1. cbn [instanceExists].
    rewrite (some_instance_found _ _ _ _ _ F N). unfold ret at 1. cbn [negb].
    unfold bind at 1, fetchM at 1, Store.fetch.
    cbn [Store.log trace fetch_count filter is_fetch List.length].
    fold (fetch_count (trace w)). rewrite G2.
    apply Tail with (statusData := statusData); auto.
Qed.

Lemma status_check_only_raises_witness :
  exists (w' : World) (p' : Profile),
    serve (Scenario.reports "qr") "alice" Sample.late_world
    = (json_response 200 [("connected", JBool false);
                          ("status", JStr "qr");
                          ("instance_id", JStr "chan-1")], w') /\
    Store.single_profile (ById "alice") w' = Some p' /\
    instance_status p' = Some "connected".
Proof.
  destruct (status_check_only_raises (Scenario.reports "qr") "alice" Sample.late_world
              Sample.alice "chan-1" (JStr "qr")) as (w' & p' & H & S & _ & I);
    try reflexivity; try discriminate.
  - eapply status_unlisted; reflexivity.
  - exists w', p'. split; [exact H|]. split; [exact S | exact I].
Defined.

End StatusCheckFacts.

Section ConnectFacts.

Import WhapiSimple.

(** With a stored credential whose health is [authenticated] or [ready],
    [connect] answers [already_connected] after the health check alone: no
    channel is created or deleted, and the only write sets the status
    [connected]. *)
Theorem connect_when_healthy (env : Env) (u : string) (w : World) (p : Profile)
  (res : HttpResponse) (health st : Json) :
  Store.single_profile (ById u) w = Some p ->
  truthy_text (whapi_token p) = true ->
  gateway env (calls w) (gate_get "/health" (of_text (whapi_token p))) = Responded res ->
  ok res = true ->
  json res = Some health ->
  prop health "status" = Some st ->
  is_str st "authenticated" || is_str st "ready" = true ->
  exists w' : World,
    handleConnect env u w
    = (Ret (json_response 200 [("success", JBool true);
                               ("already_connected", JBool true);
                               ("message", JStr "WhatsApp already connected!")]), w') /\
    trace w'
    = EvUpdateProfiles (ById u) (status_patch "connected" (now w))
        :: EvFetch (gate_get "/health" (of_text (whapi_token p))) :: trace w /\
    Store.single_profile (ById u) w'
    = Some (Store.patch (status_patch "connected" (now w)) p).
Proof.
  intros Hp Ht G Ok J S C. unfold calls in G.
  unfold handleConnect. unfold bind at 1, get at 1. rewrite Hp, Ht.
  unfold bind at 1. unfold bind at 1, fetchM at 1, Store.fetch. rewrite G, Ok.
  unfold bind at 1, jsonM. rewrite J. unfold ret at 1.
  unfold bind at 1, propM. rewrite S. unfold ret at 1. rewrite C.
  cbv [bind get lift ret].
  eexists. split; [reflexivity|]. split; [reflexivity|].
  now apply single_after_update with (w := w).
Qed.

Lemma connect_when_healthy_witness :
  exists w' : World,
    handleConnect (Scenario.healthy "ready") "alice" Sample.late_world
    = (Ret (json_response 200 [("success", JBool true);
                               ("already_connected", JBool true);
                               ("message", JStr "WhatsApp already connected!")]), w') /\
    calls w' = 1%nat.
Proof.
  destruct (connect_when_healthy (Scenario.healthy "ready") "alice" Sample.late_world
              Sample.alice
              {| status := 200; text := ""; json := Some (JObj [("status", JStr "ready")]) |}
              (JObj [("status", JStr "ready")]) (JStr "ready")
              eq_refl eq_refl eq_refl eq_refl eq_refl eq_refl eq_refl)
    as (w' & H & T & _).
  exists w'. split; [exact H|]. unfold calls. rewrite T. reflexivity.
Defined.

(** The clean-up of an old channel is at most one call, after which
    [create_instance] goes on as for a user without channel. *)
Lemma create_instance_cleanup (env : Env) (u : string) (profile : option Profile)
  (w : World) :
  exists w1 : World,
    create_instance env u profile w = create_instance env u None w1 /\
    (calls w1 <= calls w + 1)%nat /\
    waits w1 = waits w.
Proof.
  destruct profile as [p|].
  2:{ exists w. repeat split. lia. }
  unfold create_instance.
  destruct (instance_id p) as [i|].
  2:{ exists w. repeat split. lia. }
  destruct (truthy_text (Some i)).
  2:{ exists w. repeat split. lia. }
  exists (Store.log (EvFetch (delete_channel env i)) w).
  split; [|split; [rewrite calls_fetch; lia | reflexivity]].
  unfold bind at 1 3, catch, bind at 1, fetchM, Store.fetch.
  destruct (gateway env (fetch_count (trace w)) (delete_channel env i)); reflexivity.
Qed.

Lemma create_instance_bound (env : Env) (u : string) (profile : option Profile)
  (w w0 : World) :
  (calls w0 <= calls w + 2)%nat -> waits w0 = waits w ->
  match create_instance env u profile w0 with
  | (r, w') =>
      (calls w' <= calls w + 22)%nat /\
      (waits w' = waits w \/
       exists k : nat, (k <= 8)%nat /\ waits w' = repeat 2000%Z k ++ 3000%Z :: waits w)
  end.
Proof.
  intros C W.
  destruct (create_instance_cleanup env u profile w0) as (w1 & E & C1 & W1).
  rewrite E.
  pose proof (create_instance_effects env u None w1 I) as O.
  unfold connect_outcome in O.
  destruct (create_instance env u None w1) as [r w']. cbn [fst snd] in O.
  destruct O as (B & D & _). split; [lia|].
  rewrite W1, W in D. exact D.
Qed.

(** [connect] returns in every case, whatever is stored and whatever the
    gateway answers: after at most 22 gateway calls, and after waiting
    either not at all or 3000 ms and then at most 8 times 2000 ms. *)
Theorem connect_always_returns (env : Env) (u : string) (w : World) :
  (calls (snd (handleConnect env u w)) <= calls w + 22)%nat /\
  (waits (snd (handleConnect env u w)) = waits w \/
   exists k : nat,
     (k <= 8)%nat /\
     waits (snd (handleConnect env u w)) = repeat 2000%Z k ++ 3000%Z :: waits w).
Proof.
  enough (K : match handleConnect env u w with
              | (r, w') =>
                  (calls w' <= calls w + 22)%nat /\
                  (waits w' = waits w \/
                   exists k : nat,
                     (k <= 8)%nat /\
                     waits w' = repeat 2000%Z k ++ 3000%Z :: waits w)
              end).
  { destruct (handleConnect env u w). exact K. }
  assert (Stop : forall (r : Result Response) (w0 : World),
    (calls w0 <= calls w + 2)%nat -> waits w0 = waits w ->
    (calls w0 <= calls w + 22)%nat /\
    (waits w0 = waits w \/
     exists k : nat, (k <= 8)%nat /\ waits w0 = repeat 2000%Z k ++ 3000%Z :: waits w)).
  { intros _ w0 C W. split; [lia | now left]. }
  unfold handleConnect. unfold bind at 1, get at 1.
  destruct (Store.single_profile (ById u) w) as [p|].
  2:{ unfold bind at 1, ret at 1. apply create_instance_bound; [lia | reflexivity]. }
  destruct (truthy_text (whapi_token p)).
  2:{ unfold bind at 1, ret at 1. apply create_instance_bound; [lia | reflexivity]. }
  unfold bind at 1. unfold bind at 1, fetchM at 1, Store.fetch.
  destruct (gateway env (fetch_count (trace w))
              (gate_get "/health" (of_text (whapi_token p)))) as [e|res].
  { apply (Stop (Raise e)); [rewrite calls_fetch; lia | reflexivity]. }
  destruct (ok res).
  2:{ unfold ret at 1. apply create_instance_bound; [rewrite calls_fetch; lia | reflexivity]. }
  unfold bind at 1, jsonM. destruct (json res) as [health|].
  2:{ apply (Stop (Raise "")); [rewrite calls_fetch; lia | reflexivity]. }
  unfold ret at 1. unfold bind at 1, propM.
  destruct (prop health "status") as [st|].
  2:{ apply (Stop (Raise "")); [rewrite calls_fetch; lia | reflexivity]. }
  unfold ret at 1.
  destruct (is_str st "authenticated" || is_str st "ready").
  { cbv [bind get lift ret]. apply (Stop (Raise ""));
      [change (calls (Store.update_profiles (ById u) (status_patch "connected"
                 (now (Store.log (EvFetch (gate_get "/health" (of_text (whapi_token p)))) w)))
                 (Store.log (EvFetch (gate_get "/health" (of_text (whapi_token p)))) w)))
         with (calls (Store.log (EvFetch (gate_get "/health" (of_text (whapi_token p)))) w));
       rewrite calls_fetch; lia
      | reflexivity]. }
  destruct (is_pairing st).
  2:{ unfold ret at 1. apply create_instance_bound; [rewrite calls_fetch; lia | reflexivity]. }
  pose proof (fetch_qr_effects env (of_text (whapi_token p)) u "Scan QR code with WhatsApp"
                (Store.log (EvFetch (gate_get "/health" (of_text (whapi_token p)))) w)) as Q.
  destruct (fetch_qr env (of_text (whapi_token p)) u "Scan QR code with WhatsApp"
              (Store.log (EvFetch (gate_get "/health" (of_text (whapi_token p)))) w))
    as [[[resp|]|e] w2]; destruct Q as (Q1 & Q2 & _); rewrite calls_fetch in Q1.
  - cbv [ret]. apply (Stop (Raise "")); [lia | exact Q2].
  - apply create_instance_bound; [lia | exact Q2].
  - apply (Stop (Raise e)); [lia | exact Q2].
Qed.

Lemma holds_same_profiles (u cid tok : string) (w w' : World) :
  profiles w' = profiles w -> holds_channel u cid tok w -> holds_channel u cid tok w'.
Proof.
  intros P (p & S & H). exists p. split; [|exact H].
  unfold Store.single_profile in *. now rewrite P.
Qed.

Lemma holds_after_pairing (u cid tok : string) (t : Z) (w : World) :
  holds_channel u cid tok w ->
  holds_channel u cid tok
    (Store.update_profiles (ById u) (status_patch "unauthorized" t) w).
Proof.
  intros (p & S & I & T & _).
  exists (Store.patch (status_patch "unauthorized" t) p).
  split; [now apply single_after_update with (w := w)|].
  repeat split; auto.
Qed.

Lemma fetch_qr_keeps_channel (env : Env) (token : Json) (u msg cid tok : string)
  (w : World) :
  holds_channel u cid tok w ->
  holds_channel u cid tok (snd (fetch_qr env token u msg w)).
Proof.
  intros H.
  assert (L : holds_channel u cid tok (Store.log (EvFetch (gate_get "/qr" token)) w))
    by (now apply holds_same_profiles with (w := w)).
  unfold fetch_qr, bind at 1, fetchM, Store.fetch.
  destruct (gateway env (fetch_count (trace w)) (gate_get "/qr" token)) as [e|res];
    [exact L|].
  destruct (ok res); [|exact L].
  unfold bind at 1, jsonM. destruct (json res) as [qrData|]; [|exact L].
  unfold ret at 1, bind at 1.
  pose proof (pick_qr_pure qrData (Store.log (EvFetch (gate_get "/qr" token)) w)) as P.
  destruct (pick_qr qrData (Store.log (EvFetch (gate_get "/qr" token)) w))
    as [[qrCode|e] w1]; cbn [snd] in P; subst w1; [|exact L].
  destruct (truthy qrCode); [|exact L].
  destruct qrCode; try exact L.
  cbv [bind as_data_uri ret get lift snd]. now apply holds_after_pairing.
Qed.

Lemma poll_keeps_channel (env : Env) (token : Json) (u cid tok : string) (n : nat) :
  forall w : World,
    holds_channel u cid tok w ->
    holds_channel u cid tok (snd (poll_for_qr env token u n w)).
Proof.
  induction n as [|n IH]; intros w H; [exact H|].
  assert (L : holds_channel u cid tok (Store.log (EvFetch (gate_get "/health" token)) w))
    by (now apply holds_same_profiles with (w := w)).
  assert (Next : forall w1 : World, holds_channel u cid tok w1 ->
    holds_channel u cid tok
      (snd ((lift (Store.delay 2000) ;;; poll_for_qr env token u n) w1))).
  { intros w1 H1. unfold bind, lift. apply IH.
    now apply holds_same_profiles with (w := w1). }
  cbn [poll_for_qr]. unfold bind at 1, fetchM, Store.fetch.
  destruct (gateway env (fetch_count (trace w)) (gate_get "/health" token)) as [e|res];
    [exact L|].
  destruct (ok res).
  2:{ unfold bind at 1, ret at 1. now apply Next. }
  unfold bind at 1. unfold bind at 1, jsonM. destruct (json res) as [health|]; [|exact L].
  unfold ret at 1. unfold bind at 1.
  pose proof (propM_pure health "status"
                (Store.log (EvFetch (gate_get "/health" token)) w)) as P.
  destruct (propM health "status" (Store.log (EvFetch (gate_get "/health" token)) w))
    as [[st|e] w1]; cbn [snd] in P; subst w1; [|exact L].
  destruct (is_pairing st).
  2:{ unfold ret at 1. now apply Next. }
  pose proof (fetch_qr_keeps_channel env token u
                "New instance created! Scan QR code with WhatsApp" cid tok
                (Store.log (EvFetch (gate_get "/health" token)) w) L) as Q.
  destruct (fetch_qr env token u "New instance created! Scan QR code with WhatsApp"
              (Store.log (EvFetch (gate_get "/health" token)) w)) as [[[resp|]|e] w2];
    cbn [snd] in Q.
  - exact Q.
  - now apply Next.
  - exact Q.
Qed.

Lemma truthy_of_text (o : option string) : truthy (of_text o) = truthy_text o.
Proof. now destruct o. Qed.

Lemma assoc_has_key (k : string) (fs : list (string * Json)) :
  assoc k fs <> JNull -> has_key k fs = true.
Proof.
  induction fs as [|[k' v] fs IH]; cbn [assoc has_key existsb fst]; intros H.
  - now contradiction H.
  - destruct (k =? k'); [reflexivity|]. now apply IH.
Qed.

(** A string read from the answer is written as it is. *)
Lemma written_string (j : Json) (k s : string) :
  prop j k = Some (JStr s) -> written j k = Some (Some s).
Proof.
  destruct j; cbn [prop written]; try discriminate.
  intros H. injection H as H.
  rewrite assoc_has_key by (rewrite H; discriminate). now rewrite H.
Qed.

(** Once the gateway has created the channel, its identifier and its
    credential are in the record of the user before the polling starts, and
    they stay there whatever happens next (no code served, a call that
    raises): the record ends with the status [initializing], or
    [unauthorized] when a pairing code was fetched. *)
Theorem connect_persists_channel (env : Env) (u : string) (w : World) (p : Profile)
  (res : HttpResponse) (channel : Json) (cid tok : string) :
  Store.single_profile (ById u) w = Some p ->
  truthy_text (whapi_token p) = false ->
  truthy_text (instance_id p) = false ->
  truthy_text (WHAPI_PROJECT_ID env) = true ->
  gateway env (calls w) (create_request env u (of_text (WHAPI_PROJECT_ID env)))
  = Responded res ->
  ok res = true ->
  json res = Some channel ->
  prop channel "id" = Some (JStr cid) ->
  prop channel "token" = Some (JStr tok) ->
  holds_channel u cid tok (snd (handleConnect env u w)).
Proof.
  intros Hp Ht Hi Hproj G Ok J Cid Tok. unfold calls in G.
  unfold handleConnect. unfold bind at 1, get at 1. rewrite Hp, Ht.
  unfold bind at 1, ret at 1. unfold create_instance.
  assert (Clean : (match instance_id p with
                   | Some i =>
                       if truthy_text (instance_id p)
                       then catch (fetchM env (delete_channel env i) ;;; ret tt)
                              (fun _ => ret tt)
                       else ret tt
                   | None => ret tt
                   end) = ret tt).
  { rewrite Hi. now destruct (instance_id p). }
  rewrite Clean. unfold bind at 1, ret at 1.
  unfold bind at 1, resolve_project. rewrite Hproj. unfold ret at 1.
  rewrite truthy_of_text, Hproj. cbn [negb].
  unfold bind at 1, fetchM at 1, Store.fetch. rewrite G, Ok. cbn [negb].
  unfold bind at 1, jsonM. rewrite J. unfold ret at 1.
  unfold bind at 1, propM at 1. rewrite Cid. unfold ret at 1.
  unfold bind at 1, propM at 1. rewrite Tok. unfold ret at 1.
  rewrite (written_string _ _ _ Cid), (written_string _ _ _ Tok).
  set (w1 := Store.log (EvFetch (create_request env u (of_text (WHAPI_PROJECT_ID env)))) w).
  assert (P1 : profiles w1 = profiles w) by reflexivity. clearbody w1.
  assert (Saved : forall w2 : World, profiles w2 = profiles w ->
    holds_channel u cid tok
      (snd ((t <- get now ;;
             lift (Store.update_profiles (ById u)
                     {| set_instance_id := Some (Some cid);
                        set_whapi_token := Some (Some tok);
                        set_instance_status := Some (Some "initializing");
                        set_updated_at := Some t |}) ;;;
             lift (Store.delay 3000) ;;;
             r <- poll_for_qr env (JStr tok) u attempts ;;
             match r with
             | Some resp => ret resp
             | None =>
                 ret (json_response 200
                        [("success", JBool true);
                         ("message",
                          JStr "Instance created. Please try getting QR code in a moment.");
                         ("instance_id", JStr cid)])
             end) w2))).
  { intros w2 P2.
    unfold bind at 1, get at 1. unfold bind at 1, lift at 1.
    unfold bind at 1, lift at 1. unfold bind at 1.
    set (c := {| set_instance_id := Some (Some cid);
                 set_whapi_token := Some (Some tok);
                 set_instance_status := Some (Some "initializing");
                 set_updated_at := Some (now w2) |}).
    assert (H : holds_channel u cid tok
                  (Store.delay 3000 (Store.update_profiles (ById u) c w2))).
    { apply holds_same_profiles with (w := Store.update_profiles (ById u) c w2);
        [reflexivity|].
      exists (Store.patch c p). split; [now apply single_after_update with (w := w)|].
      repeat split. now left. }
    pose proof (poll_keeps_channel env (JStr tok) u cid tok attempts _ H) as K.
    destruct (poll_for_qr env (JStr tok) u attempts
                (Store.delay 3000 (Store.update_profiles (ById u) c w2)))
      as [[[resp|]|e] w3]; exact K. }
  unfold bind at 1, catch, bind at 1, fetchM at 1, Store.fetch.
  destruct (gateway env (fetch_count (trace w1)) (settings_request env (JStr tok)));
    cbn [ret]; apply Saved; exact P1.
Qed.

Lemma connect_persists_channel_witness :
  holds_channel "bob" "chan-9" "tok-9"
    (snd (handleConnect Sample.never_ready "bob" Sample.fresh_world)).
Proof.
  apply (connect_persists_channel Sample.never_ready "bob" Sample.fresh_world Sample.bob
           {| status := 200; text := "";
              json := Some (JObj [("id", JStr "chan-9"); ("token", JStr "tok-9")]) |}
           (JObj [("id", JStr "chan-9"); ("token", JStr "tok-9")]) "chan-9" "tok-9");
    reflexivity.
Defined.

End ConnectFacts.

Section WebhookAndTrial.

(** An event for the channel that a record holds stores the mapped
    status in that record and leaves its channel and credential alone: after
    [connect] has created a channel, the event [authenticated] or [ready]
    of this channel is what makes the record [connected]. *)
Theorem webhook_updates_known_channel (u cid tok : string) (st : Json) (w : World) :
  cid <> "" ->
  holds_channel u cid tok w ->
  exists p' : Profile,
    Store.single_profile (ById u)
      (snd (Webhook.serve
              (JObj [("event", JStr "channel");
                     ("data", JObj [("id", JStr cid); ("status", st)])]) w))
    = Some p' /\
    instance_status p' = Some (Webhook.newStatus st) /\
    instance_id p' = Some cid /\
    whapi_token p' = Some tok.
Proof.
  intros Hc (p & S & I & T & _).
  pose proof (webhook_sends_write cid st w Hc) as W. unfold apply_write in W.
  cbn [target written_status stamped_at] in W.
  exists (Store.patch (status_patch (Webhook.newStatus st) (now w)) p).
  split; [|repeat split; assumption].
  unfold Store.single_profile in *. rewrite W.
  assert (F : forall tbl : list Profile,
    filter (Store.matches (ById u))
      (Store.patch_where (ByInstanceId (JStr cid))
         (status_patch (Webhook.newStatus st) (now w)) tbl)
    = map (fun q => if Store.matches (ByInstanceId (JStr cid)) q
                    then Store.patch (status_patch (Webhook.newStatus st) (now w)) q
                    else q)
        (filter (Store.matches (ById u)) tbl)).
  { unfold Store.patch_where. induction tbl as [|q tbl IH]; cbn [map filter]; [reflexivity|].
    assert (E : Store.matches (ById u)
                  (if Store.matches (ByInstanceId (JStr cid)) q
                   then Store.patch (status_patch (Webhook.newStatus st) (now w)) q
                   else q)
                = Store.matches (ById u) q)
      by (now destruct (Store.matches (ByInstanceId (JStr cid)) q)).
    rewrite E. destruct (Store.matches (ById u) q); cbn [map]; now rewrite IH. }
  rewrite F.
  destruct (filter (Store.matches (ById u)) (profiles w)) as [|q [|q' l]];
    try discriminate.
  injection S as ->. cbn [map Store.matches]. rewrite I. cbn [text_is].
  now rewrite String.eqb_refl.
Qed.

Lemma webhook_updates_known_channel_witness :
  exists p' : Profile,
    Store.single_profile (ById "bob")
      (snd (Webhook.serve
              (JObj [("event", JStr "channel");
                     ("data", JObj [("id", JStr "chan-9"); ("status", JStr "ready")])])
              (snd (WhapiSimple.handleConnect Sample.never_ready "bob"
                      Sample.fresh_world))))
    = Some p' /\
    instance_status p' = Some "connected".
Proof.
  destruct (webhook_updates_known_channel "bob" "chan-9" "tok-9" (JStr "ready")
              (snd (WhapiSimple.handleConnect Sample.never_ready "bob"
                      Sample.fresh_world))) as (p' & S & I & _).
  - discriminate.
  - exists (Store.patch
              {| set_instance_id := Some (Some "chan-9");
                 set_whapi_token := Some (Some "tok-9");
                 set_instance_status := Some (Some "initializing");
                 set_updated_at := Some 1000%Z |} Sample.bob).
    repeat split. now left.
  - exists p'. split; [exact S | exact I].
Defined.

Lemma no_row_no_match (u : string) (tbl : list Profile) :
  Forall (fun p => p_id p <> u) tbl ->
  filter (Store.matches (ById u)) tbl = [] /\
  existsb (fun q => p_id q =? u) tbl = false.
Proof.
  induction 1 as [|p l Hp _ [IH1 IH2]]; cbn [filter existsb Store.matches]; [auto|].
  rewrite (eqb_false_of_neq _ _ Hp). cbn [orb]. auto.
Qed.

End WebhookAndTrial.

(** * Further properties of the retrieval functions *)

Section RetrievalFacts.

(** One pass over QR endpoints: one call each at most, no delay, and a
    result only as a data URI. *)
Lemma try_endpoints_effects (env : Env) (token : Json) (endpoints : list string) :
  forall w : World,
    match Workflow.try_endpoints env token endpoints w with
    | (r, w') =>
        (calls w' <= calls w + List.length endpoints)%nat /\
        waits w' = waits w /\
        profiles w' = profiles w /\
        match r with
        | Some res =>
            exists uri, res = Workflow.qr_success (JStr uri) /\
                        String.prefix "data:image/" uri = true
        | None => True
        end
    end.
Proof.
  induction endpoints as [|endpoint rest IH]; intros w.
  - cbn. repeat split. lia.
  - assert (Next : forall w1 : World,
      w1 = Store.log (EvFetch (Workflow.qr_request endpoint token)) w ->
      match Workflow.try_endpoints env token rest w1 with
      | (r, w') =>
          (calls w' <= calls w + List.length (endpoint :: rest))%nat /\
          waits w' = waits w /\
          profiles w' = profiles w /\
          match r with
          | Some res =>
              exists uri, res = Workflow.qr_success (JStr uri) /\
                          String.prefix "data:image/" uri = true
          | None => True
          end
      end).
    { intros w1 ->. pose proof (IH (Store.log (EvFetch (Workflow.qr_request endpoint token)) w))
        as H.
      destruct (Workflow.try_endpoints env token rest
                  (Store.log (EvFetch (Workflow.qr_request endpoint token)) w)) as [r w'].
      destruct H as (C & W & P & R). rewrite calls_fetch in C. cbn [List.length].
      repeat split; auto. lia. }
    cbn [Workflow.try_endpoints]. unfold catch, Workflow.try_endpoint, bind at 1.
    unfold fetchM, Store.fetch.
    destruct (gateway env (fetch_count (trace w)) (Workflow.qr_request endpoint token))
      as [e|qrRes]; [now apply Next|].
    destruct (ok qrRes); [|now apply Next].
    unfold bind at 1, jsonM. destruct (json qrRes) as [qrData|]; [|now apply Next].
    unfold ret at 1, bind at 1.
    assert (Pure : snd (Workflow.pick_qr qrData
                          (Store.log (EvFetch (Workflow.qr_request endpoint token)) w))
                   = Store.log (EvFetch (Workflow.qr_request endpoint token)) w).
    { unfold Workflow.pick_qr, bind, propM. now destruct (prop qrData "qr"). }
    destruct (Workflow.pick_qr qrData
                (Store.log (EvFetch (Workflow.qr_request endpoint token)) w))
      as [[qrCode|e] w1]; cbn [snd] in Pure; subst w1; [|now apply Next].
    destruct (truthy qrCode); [|now apply Next].
    destruct qrCode; try (now apply Next).
    cbv [bind WhapiSimple.as_data_uri ret]. rewrite calls_fetch. cbn [List.length].
    repeat split; [lia|]. eexists. split; [reflexivity|].
    destruct (String.prefix "data:image/" s) eqn:E; [exact E | reflexivity].
Qed.

(** When the gateway accepts no initialisation call, [attemptGetQR] returns
    from its first level: after at most 8 gateway calls (5 QR endpoints, 3
    initialisation endpoints) and without a delay, with a data URI or with
    the answer that no code is available yet. *)
Theorem attemptGetQR_returns_when_init_refused (env : Env) (token : Json) (fuel : nat)
  (w : World) :
  refuses_init env ->
  exists (r : Json) (w' : World),
    Workflow.attemptGetQR (S fuel) env token w = Some (r, w') /\
    (calls w' <= calls w + 8)%nat /\
    waits w' = waits w /\
    profiles w' = profiles w /\
    (r = Workflow.qr_unavailable \/
     exists uri, r = Workflow.qr_success (JStr uri) /\
                 String.prefix "data:image/" uri = true).
Proof.
  intros R. cbn [Workflow.attemptGetQR].
  pose proof (try_endpoints_effects env token Workflow.qrEndpoints w) as T.
  destruct (Workflow.try_endpoints env token Workflow.qrEndpoints w) as [[res|] w1];
    destruct T as (C & W & P & Q); cbn [Workflow.qrEndpoints List.length] in C.
  - exists res, w1. split; [reflexivity|]. split; [lia|]. split; [exact W|].
    split; [exact P|]. right. exact Q.
  - unfold Workflow.initEndpoints, Store.fetch.
    assert (Refused : forall (n : nat) (endpoint : string),
      match gateway env n (Workflow.init_request endpoint token) with
      | Responded res => ok res = false
      | NetworkError _ => True
      end) by (intros n endpoint; now apply R).
    pose proof (Refused (fetch_count (trace w1)) "https://gate.whapi.cloud/start") as R1.
    destruct (gateway env (fetch_count (trace w1))
                (Workflow.init_request "https://gate.whapi.cloud/start" token))
      as [e1|r1]; [|rewrite R1];
    match goal with
    | |- context [gateway env ?n (Workflow.init_request "https://gate.whapi.cloud/init" token)] =>
        pose proof (Refused n "https://gate.whapi.cloud/init") as R2;
        destruct (gateway env n (Workflow.init_request "https://gate.whapi.cloud/init" token))
          as [e2|r2]; [|rewrite R2]
    end;
    match goal with
    | |- context [gateway env ?n
                    (Workflow.init_request "https://gate.whapi.cloud/instance/start" token)] =>
        pose proof (Refused n "https://gate.whapi.cloud/instance/start") as R3;
        destruct (gateway env n
                    (Workflow.init_request "https://gate.whapi.cloud/instance/start" token))
          as [e3|r3]; [|rewrite R3]
    end;
    (eexists _, _; split; [reflexivity|];
     rewrite !calls_fetch; split; [lia|]; split; [exact W|]; split; [exact P|];
     now left).
Qed.

Lemma attemptGetQR_returns_when_init_refused_witness :
  exists (r : Json) (w' : World),
    Workflow.attemptGetQR 1 Sample.create_fails (JStr "tok") Sample.fresh_world
    = Some (r, w') /\
    (calls w' <= calls Sample.fresh_world + 8)%nat.
Proof.
  destruct (attemptGetQR_returns_when_init_refused Sample.create_fails (JStr "tok") 0
              Sample.fresh_world) as (r & w' & H & C & _).
  - intros n r _. reflexivity.
  - exists r, w'. split; [exact H | exact C].
Defined.

Lemma try_endpoints_no_code (env : Env) (token : Json) (endpoints : list string) :
  serves_no_code env ->
  forall w : World, fst (Workflow.try_endpoints env token endpoints w) = None.
Proof.
  intros N. induction endpoints as [|endpoint rest IH]; intros w; [reflexivity|].
  cbn [Workflow.try_endpoints]. unfold catch, Workflow.try_endpoint, bind at 1.
  unfold fetchM, Store.fetch.
  pose proof (N (fetch_count (trace w)) (Workflow.qr_request endpoint token) eq_refl) as G.
  destruct (gateway env (fetch_count (trace w)) (Workflow.qr_request endpoint token))
    as [e|qrRes].
  - apply IH.
  - rewrite G. apply IH.
Qed.

(** [attemptGetQR] calls itself after each accepted initialisation call and
    counts nothing: as long as the gateway serves no code and accepts the
    first initialisation endpoint, no depth of calls lets it return. *)
Theorem attemptGetQR_has_no_retry_limit (env : Env) (token : Json) :
  serves_no_code env ->
  accepts_start env token ->
  forall (fuel : nat) (w : World), Workflow.attemptGetQR fuel env token w = None.
Proof.
  intros N A. induction fuel as [|fuel IH]; intros w; [reflexivity|].
  cbn [Workflow.attemptGetQR].
  pose proof (try_endpoints_no_code env token Workflow.qrEndpoints N w) as T.
  destruct (Workflow.try_endpoints env token Workflow.qrEndpoints w) as [r w1].
  cbn [fst] in T. subst r.
  unfold Workflow.initEndpoints, Store.fetch.
  destruct (A (fetch_count (trace w1))) as (res & G & Ok). rewrite G, Ok.
  apply IH.
Qed.

Lemma attemptGetQR_has_no_retry_limit_witness :
  Workflow.attemptGetQR 1000 Sample.always_initialising (JStr "tok") Sample.fresh_world
  = None.
Proof.
  apply (attemptGetQR_has_no_retry_limit Sample.always_initialising (JStr "tok")).
  - intros n r H. cbn. rewrite H. reflexivity.
  - intros n. eexists. split; reflexivity.
Defined.

Lemma attemptQrRetrieval_returns_witness :
  exists (r : Json) (w' : World) (k : nat),
    GetQr.attemptQrRetrieval
      (fun _ _ _ => JObj [("success", JBool false); ("retryable", JBool true)])
      (fun j => Some j) (fun e => JObj [("success", JBool false); ("error", JStr e)])
      3 Sample.create_fails "chan-1" "tok-alice" 0 Sample.fresh_world
    = Some (r, w') /\
    (0 + k <= Nat.max 0 GetQr.maxRetries)%nat /\
    waits w' = rev (map GetQr.delayMs (seq 0 k)) ++ waits Sample.fresh_world /\
    (calls w' <= calls Sample.fresh_world + 2 * S k)%nat.
Proof.
  apply (attemptQrRetrieval_returns
           (fun _ _ _ => JObj [("success", JBool false); ("retryable", JBool true)])
           (fun j => Some j) (fun e => JObj [("success", JBool false); ("error", JStr e)])
           Sample.create_fails "chan-1" "tok-alice" 3 0 Sample.fresh_world); lia.
Defined.

End RetrievalFacts.

(** * Properties of the direct send and of the scheduling *)

Section DirectSend.

Import Actions.

(** Without a connected channel nothing is sent: a direct send for a user
    whose record has no credential or is not [connected] is answered 400
    and leaves the world as it was, with no gateway call. *)
Theorem direct_send_needs_connection (env : Env) (u : string) (d : SendData) (w : World) :
  match Store.single_profile (ById u) w with
  | Some p => truthy_text (whapi_token p) && text_is (instance_status p) "connected" = false
  | None => True
  end ->
  exists r : Response,
    handleSendMessage env u d w = (Ret r, w) /\ resp_status r = 400%Z.
Proof.
  intros H. unfold handleSendMessage.
  destruct (groups_of (sd_groupIds d)) as [|g gs]; [eexists; split; reflexivity|].
  destruct (truthy_text (sd_message d)); cbn [negb]; [|eexists; split; reflexivity].
  unfold bind, get.
  destruct (Store.single_profile (ById u) w) as [p|]; [|eexists; split; reflexivity].
  assert (E : negb (truthy_text (whapi_token p))
              || negb (text_is (instance_status p) "connected") = true).
  { rewrite <- negb_andb, H. reflexivity. }
  rewrite E. eexists. split; reflexivity.
Qed.

Lemma direct_send_needs_connection_witness :
  exists r : Response,
    handleSendMessage Sample.all_accepted "bob"
      {| sd_groupIds := Some ["g1"]; sd_message := Some "hello";
         sd_mediaUrl := None; sd_mediaType := None |} Sample.fresh_world
    = (Ret r, Sample.fresh_world) /\ resp_status r = 400%Z.
Proof.
  apply (direct_send_needs_connection Sample.all_accepted "bob"
           {| sd_groupIds := Some ["g1"]; sd_message := Some "hello";
              sd_mediaUrl := None; sd_mediaType := None |} Sample.fresh_world).
  reflexivity.
Defined.

Lemma send_direct_step (env : Env) (tok u : string) (d : SendData) (w : World)
  (p : Progress) (g : string) :
  match send_direct env tok u d (w, p) g with
  | (w', p') =>
      exists (r : Json) (added : list HistoryRow),
        results p' = results p ++ [r] /\
        opt_prop r "groupId" = JStr g /\
        sent p' = (sent p + (if is_delivered r then 1 else 0))%nat /\
        calls w' = S (calls w) /\
        message_history w' = message_history w ++ added /\
        (List.length added <= 1)%nat /\
        Forall (direct_record u [g]) added /\
        profiles w' = profiles w /\
        scheduled_messages w' = scheduled_messages w
  end.
Proof.
  assert (Quiet : forall e : string,
    exists (r : Json) (added : list HistoryRow),
      results p ++ [undelivered g e] = results p ++ [r] /\
      opt_prop r "groupId" = JStr g /\
      sent p = (sent p + (if is_delivered r then 1 else 0))%nat /\
      calls (Store.log (EvFetch (direct_request tok d g)) w) = S (calls w) /\
      message_history (Store.log (EvFetch (direct_request tok d g)) w)
      = message_history w ++ added /\
      (List.length added <= 1)%nat /\
      Forall (direct_record u [g]) added /\
      profiles (Store.log (EvFetch (direct_request tok d g)) w) = profiles w /\
      scheduled_messages (Store.log (EvFetch (direct_request tok d g)) w)
      = scheduled_messages w).
  { intros e. exists (undelivered g e), []. cbn. rewrite app_nil_r.
    repeat split; auto; lia. }
  unfold send_direct, Store.fetch.
  destruct (gateway env (fetch_count (trace w)) (direct_request tok d g)) as [e|res].
  - apply Quiet.
  - destruct (ok res).
    + destruct (json res) as [result|]; [|apply Quiet].
      destruct (prop result "id") as [mid|]; [|apply Quiet].
      exists (delivered g mid), [direct_row u d g "sent" None mid]. cbn.
      repeat split; auto; try lia.
      constructor; [|constructor]. unfold direct_record. cbn. auto 10.
    + exists (undelivered g (text res)),
        [direct_row u d g "failed" (Some (text res)) JNull]. cbn.
      repeat split; auto; try lia.
      constructor; [|constructor]. unfold direct_record. cbn. auto 10.
Qed.

Lemma direct_record_more (u : string) (gs gs' : list string) (h : HistoryRow) :
  (forall g, In g gs -> In g gs') -> direct_record u gs h -> direct_record u gs' h.
Proof. intros S (A & B & C & D). repeat split; auto. Qed.

Lemma send_direct_loop (env : Env) (tok u : string) (d : SendData) (gs : list string) :
  forall (w : World) (p : Progress),
    match fold_left (send_direct env tok u d) gs (w, p) with
    | (w', p') =>
        exists (rs : list Json) (added : list HistoryRow),
          results p' = results p ++ rs /\
          map (fun r => opt_prop r "groupId") rs = map JStr gs /\
          sent p' = (sent p + List.length (filter is_delivered rs))%nat /\
          calls w' = (calls w + List.length gs)%nat /\
          message_history w' = message_history w ++ added /\
          (List.length added <= List.length gs)%nat /\
          Forall (direct_record u gs) added /\
          profiles w' = profiles w /\
          scheduled_messages w' = scheduled_messages w
    end.
Proof.
  induction gs as [|g gs IH]; intros w p; cbn [fold_left].
  - exists [], []. cbn. rewrite !app_nil_r. repeat split; auto; lia.
  - pose proof (send_direct_step env tok u d w p g) as S1.
    destruct (send_direct env tok u d (w, p) g) as [w1 p1].
    destruct S1 as (r & a1 & R1 & G1 & N1 & C1 & H1 & L1 & F1 & P1 & M1).
    pose proof (IH w1 p1) as S2.
    destruct (fold_left (send_direct env tok u d) gs (w1, p1)) as [w' p'].
    destruct S2 as (rs & a2 & R2 & G2 & N2 & C2 & H2 & L2 & F2 & P2 & M2).
    exists (r :: rs), (a1 ++ a2). split; [|split; [|split; [|split; [|split; [|split;
      [|split; [|split]]]]]]].
    + rewrite R2, R1, <- app_assoc. reflexivity.
    + cbn [map]. now rewrite G1, G2.
    + cbn [filter]. rewrite N2, N1. destruct (is_delivered r); cbn [List.length]; lia.
    + rewrite C2, C1. cbn [List.length]. lia.
    + rewrite H2, H1, app_assoc. reflexivity.
    + rewrite length_app. cbn [List.length]. lia.
    + apply Forall_app. split.
      * eapply Forall_impl; [|exact F1]. intros h.
        apply direct_record_more. intros x [<-|[]]. now left.
      * eapply Forall_impl; [|exact F2]. intros h.
        apply direct_record_more. intros x Hx. now right.
    + congruence.
    + congruence.
Qed.

(** A direct send of a connected user makes one gateway call for each
    group and reports one result for each group, in order, whatever the
    outcome of the call; [success] is true exactly when at least one result
    is a delivery.  The history gets at most one row for each group, tied to
    no scheduled message; profiles and broadcasts are left alone. *)
Theorem direct_send_reports_every_group (env : Env) (u : string) (d : SendData)
  (w : World) (p : Profile) (g : string) (gs : list string) :
  sd_groupIds d = Some (g :: gs) ->
  truthy_text (sd_message d) = true ->
  Store.single_profile (ById u) w = Some p ->
  truthy_text (whapi_token p) = true ->
  text_is (instance_status p) "connected" = true ->
  exists (rs : list Json) (added : list HistoryRow) (w' : World),
    handleSendMessage env u d w
    = (Ret (json_response 200
              [("success", JBool (existsb is_delivered rs)); ("results", JArr rs)]), w') /\
    map (fun r => opt_prop r "groupId") rs = map JStr (g :: gs) /\
    calls w' = (calls w + List.length (g :: gs))%nat /\
    message_history w' = message_history w ++ added /\
    (List.length added <= List.length (g :: gs))%nat /\
    Forall (direct_record u (g :: gs)) added /\
    profiles w' = profiles w /\
    scheduled_messages w' = scheduled_messages w.
Proof.
  intros Hg Hm Hp Ht Hs. unfold handleSendMessage. rewrite Hg. cbn [groups_of].
  rewrite Hm. cbn [negb]. unfold bind, get. rewrite Hp, Ht, Hs. cbn [negb orb].
  pose proof (send_direct_loop env (text_of (whapi_token p)) u d (g :: gs) w
                {| results := []; sent := 0 |}) as L.
  destruct (fold_left (send_direct env (text_of (whapi_token p)) u d) (g :: gs)
              (w, {| results := []; sent := 0 |})) as [w' p'].
  destruct L as (rs & added & R & G & N & C & H & Le & F & P & M).
  cbn [results sent app] in R, N. exists rs, added, w'.
  split; [|repeat split; assumption].
  rewrite R, N.
  assert (X : (0 <? List.length (filter is_delivered rs))%nat = existsb is_delivered rs).
  { clear. induction rs as [|r rs IH]; [reflexivity|].
    cbn [filter existsb]. destruct (is_delivered r); [reflexivity | exact IH]. }
  cbn [Nat.add]. rewrite X. reflexivity.
Qed.

Lemma direct_send_reports_every_group_witness :
  exists (rs : list Json) (added : list HistoryRow) (w' : World),
    handleSendMessage Sample.second_raises "alice"
      {| sd_groupIds := Some ["g1"; "g2"; "g3"]; sd_message := Some "hello";
         sd_mediaUrl := None; sd_mediaType := None |} (Sample.world [])
    = (Ret (json_response 200
              [("success", JBool (existsb is_delivered rs)); ("results", JArr rs)]), w') /\
    map (fun r => opt_prop r "groupId") rs = [JStr "g1"; JStr "g2"; JStr "g3"] /\
    calls w' = 3%nat.
Proof.
  destruct (direct_send_reports_every_group Sample.second_raises "alice"
              {| sd_groupIds := Some ["g1"; "g2"; "g3"]; sd_message := Some "hello";
                 sd_mediaUrl := None; sd_mediaType := None |} (Sample.world [])
              Sample.alice "g1" ["g2"; "g3"] eq_refl eq_refl eq_refl eq_refl eq_refl)
    as (rs & added & w' & H & G & C & _).
  exists rs, added, w'. split; [exact H|]. split; [exact G | exact C].
Defined.

End DirectSend.

Section Scheduling.

Import Actions.

Lemma mem_In (x : string) (l : list string) : mem x l = true <-> In x l.
Proof.
  unfold mem. rewrite existsb_exists. split.
  - intros (y & Hy & E). apply String.eqb_eq in E. now subst.
  - intros H. exists x. split; [exact H | apply String.eqb_refl].
Qed.

Lemma dedup_In (l : list string) :
  forall (seen : list string) (x : string),
    In x (dedup seen l) <-> In x l /\ ~ In x seen.
Proof.
  induction l as [|y l IH]; intros seen x; cbn [dedup].
  - cbn. tauto.
  - destruct (mem y seen) eqn:E.
    + apply mem_In in E. rewrite IH. cbn. split.
      * intros [H1 H2]. auto.
      * intros [[->|H1] H2]; [contradiction | auto].
    + assert (N : ~ In y seen).
      { intros H. apply mem_In in H. congruence. }
      cbn [In]. rewrite IH. cbn [In]. split.
      * intros [->|[H1 H2]]; [auto|]. split; [auto|]. intros H. apply H2. now right.
      * intros [[->|H1] H2]; [now left|].
        destruct (String.eqb_spec y x) as [->|Ne]; [now left|].
        right. split; [exact H1|]. intros [H|H]; [congruence | contradiction].
Qed.

Lemma dedup_NoDup (l : list string) :
  forall seen : list string, NoDup (dedup seen l).
Proof.
  induction l as [|y l IH]; intros seen; cbn [dedup]; [constructor|].
  destruct (mem y seen); [apply IH|].
  constructor; [|apply IH].
  rewrite dedup_In. intros [_ H]. apply H. now left.
Qed.

Lemma tagGroupIds_spec (groups : list GroupRow) (assignments : list TagAssignment)
  (u : string) (tagIds : list string) (g : string) :
  In g (tagGroupIds groups assignments u tagIds)
  <-> tagged_group groups assignments u tagIds g.
Proof.
  unfold tagGroupIds, tagged_group. rewrite in_flat_map. split.
  - intros (a & Ha & Hg). apply filter_In in Ha. destruct Ha as [Ha Ht].
    apply mem_In in Ht.
    destruct (find (fun x => g_id x =? a_group_id a) groups) as [r|] eqn:F; [|destruct Hg].
    destruct (g_user_id r =? u) eqn:E; [|destruct Hg].
    destruct Hg as [<-|[]]. apply String.eqb_eq in E.
    exists a, r. auto.
  - intros (a & r & Ha & Ht & F & E & G).
    exists a. split.
    + apply filter_In. split; [exact Ha | now apply mem_In].
    + rewrite F. subst u. rewrite String.eqb_refl. now left.
Qed.

(** When tags are given, the recipients stored with a scheduled message
    have no duplicate, and they are exactly the groups listed in the
    request and the groups of this user that carry one of the tags: a tag
    never brings in a group of another user. *)
Theorem scheduled_recipients_with_tags (groups : list GroupRow)
  (assignments : list TagAssignment) (u : string) (d : ScheduleData) :
  has_length (sc_tagIds d) = true ->
  NoDup (finalGroupIds groups assignments u d) /\
  forall g : string,
    In g (finalGroupIds groups assignments u d)
    <-> In g (groups_of (sc_groupIds d))
        \/ tagged_group groups assignments u (groups_of (sc_tagIds d)) g.
Proof.
  intros H. unfold finalGroupIds.
  destruct (sc_tagIds d) as [[|t ts]|]; try discriminate. cbn [groups_of].
  split; [apply dedup_NoDup|].
  intros g. rewrite dedup_In, in_app_iff, tagGroupIds_spec. cbn. tauto.
Qed.

Lemma scheduled_recipients_with_tags_witness :
  NoDup (finalGroupIds ScheduleSample.groups ScheduleSample.assignments "alice"
           ScheduleSample.by_tag) /\
  finalGroupIds ScheduleSample.groups ScheduleSample.assignments "alice"
    ScheduleSample.by_tag = ["g2"; "g5"; "g1"].
Proof.
  split; [|reflexivity].
  apply (scheduled_recipients_with_tags ScheduleSample.groups ScheduleSample.assignments
           "alice" ScheduleSample.by_tag eq_refl).
Defined.

Variable parse_timestamp : string -> option Z.
Variable gen_random_uuid : World -> string.
Variable groups : list GroupRow.
Variable assignments : list TagAssignment.

(** A request without text, without recipients (neither groups nor tags)
    or without send time is answered 400 and stores nothing; so is a request
    whose send time the store cannot read, or whose user has no profile. *)
Theorem schedule_rejects_incomplete (env : Env) (u : string) (d : ScheduleData)
  (w : World) :
  truthy_text (sc_message d) = false
  \/ (has_length (sc_groupIds d) = false /\ has_length (sc_tagIds d) = false)
  \/ truthy_text (sc_sendAt d) = false
  \/ parse_timestamp (text_of (sc_sendAt d)) = None
  \/ existsb (fun p => p_id p =? u) (profiles w) = false ->
  exists r : Response,
    handleScheduleMessage parse_timestamp gen_random_uuid groups assignments env u d w
    = (Ret r, w) /\ resp_status r = 400%Z.
Proof.
  intros H. unfold handleScheduleMessage.
  destruct (negb (truthy_text (sc_message d))
            || negb (has_length (sc_groupIds d)) && negb (has_length (sc_tagIds d))
            || negb (truthy_text (sc_sendAt d))) eqn:E.
  - eexists. split; reflexivity.
  - apply orb_false_iff in E. destruct E as [E E3].
    apply orb_false_iff in E. destruct E as [E1 E2].
    apply negb_false_iff in E1, E3.
    unfold insert_scheduled.
    destruct H as [H|[[H1 H2]|[H|[H|H]]]].
    + congruence.
    + rewrite H1, H2 in E2. discriminate.
    + congruence.
    + rewrite H. eexists. split; reflexivity.
    + destruct (parse_timestamp (text_of (sc_sendAt d))); rewrite ?H;
        eexists; split; reflexivity.
Qed.

(** A complete request appends one row to the scheduled messages: it is
    [pending], owned by the user, with the recipients resolved at this
    moment, and every row stored before is left as it was.  When the send
    time has come and fewer than ten due broadcasts are waiting, the next
    pass of the scheduler selects it. *)
Theorem scheduled_message_is_picked_up (env : Env) (u : string) (d : ScheduleData)
  (w : World) (t : Z) :
  truthy_text (sc_message d) = true ->
  has_length (sc_groupIds d) || has_length (sc_tagIds d) = true ->
  truthy_text (sc_sendAt d) = true ->
  parse_timestamp (text_of (sc_sendAt d)) = Some t ->
  existsb (fun p => p_id p =? u) (profiles w) = true ->
  exists (r : Response) (w' : World) (m : ScheduledMessage),
    handleScheduleMessage parse_timestamp gen_random_uuid groups assignments env u d w
    = (Ret r, w') /\
    resp_status r = 200%Z /\
    scheduled_messages w' = scheduled_messages w ++ [m] /\
    sm_status m = "pending" /\
    sm_user_id m = u /\
    send_at m = t /\
    group_ids m = finalGroupIds groups assignments u d /\
    profiles w' = profiles w /\
    calls w' = calls w /\
    ((t <= now w)%Z ->
     (List.length (Scheduler.select_pending w) < 10)%nat ->
     In m (map Scheduler.row (Scheduler.select_pending w'))).
Proof.
  intros Hm Hr Hs Hp Hu. unfold handleScheduleMessage.
  assert (E : negb (truthy_text (sc_message d))
              || negb (has_length (sc_groupIds d)) && negb (has_length (sc_tagIds d))
              || negb (truthy_text (sc_sendAt d)) = false).
  { rewrite Hm, Hs. cbn [negb orb]. rewrite <- negb_orb, Hr. reflexivity. }
  rewrite E. unfold insert_scheduled. rewrite Hp, Hu.
  eexists _, _, (new_row gen_random_uuid groups assignments u d t w).
  split; [reflexivity|]. repeat split.
  intros Ht Hl.
  rewrite select_pending_rows.
  cbn [scheduled_messages profiles now].
  rewrite !filter_app. cbn [filter].
  assert (D : Scheduler.is_due (now w)
                (new_row gen_random_uuid groups assignments u d t w) = true).
  { unfold Scheduler.is_due. cbn [new_row sm_status send_at].
    apply andb_true_iff. split; [reflexivity | now apply Z.leb_le]. }
  rewrite D. cbn [filter].
  assert (P : has_profile (profiles w)
                (new_row gen_random_uuid groups assignments u d t w) = true)
    by exact Hu.
  rewrite P.
  assert (L : List.length (filter (has_profile (profiles w))
                             (filter (Scheduler.is_due (now w)) (scheduled_messages w)))
              = List.length (Scheduler.select_pending w)).
  { rewrite <- (length_map Scheduler.row (Scheduler.select_pending w)),
      select_pending_rows.
    rewrite length_firstn. rewrite <- (length_map Scheduler.row), select_pending_rows,
      length_firstn in Hl. lia. }
  rewrite firstn_all2.
  - apply in_or_app. right. now left.
  - rewrite length_app. cbn [List.length]. lia.
Qed.

End Scheduling.

Lemma schedule_rejects_incomplete_witness :
  exists r : Response,
    Actions.handleScheduleMessage ScheduleSample.parse_timestamp
      ScheduleSample.gen_random_uuid ScheduleSample.groups ScheduleSample.assignments
      Sample.all_accepted "alice"
      {| Actions.sc_message := Some "hello"; Actions.sc_sendAt := Some "tomorrow";
         Actions.sc_groupIds := Some ["g1"]; Actions.sc_tagIds := None;
         Actions.sc_mediaUrl := None; Actions.sc_mediaType := None |} (Sample.world [])
    = (Ret r, Sample.world []) /\ resp_status r = 400%Z.
Proof.
  apply (schedule_rejects_incomplete ScheduleSample.parse_timestamp
           ScheduleSample.gen_random_uuid ScheduleSample.groups ScheduleSample.assignments
           Sample.all_accepted "alice"
           {| Actions.sc_message := Some "hello"; Actions.sc_sendAt := Some "tomorrow";
              Actions.sc_groupIds := Some ["g1"]; Actions.sc_tagIds := None;
              Actions.sc_mediaUrl := None; Actions.sc_mediaType := None |}
           (Sample.world [])).
  right. right. right. left. reflexivity.
Defined.

Lemma scheduled_message_is_picked_up_witness :
  exists (r : Response) (w' : World) (m : ScheduledMessage),
    Actions.handleScheduleMessage ScheduleSample.parse_timestamp
      ScheduleSample.gen_random_uuid ScheduleSample.groups ScheduleSample.assignments
      Sample.all_accepted "alice" ScheduleSample.by_tag (Sample.world [])
    = (Ret r, w') /\
    group_ids m = ["g2"; "g5"; "g1"] /\
    In m (map Scheduler.row (Scheduler.select_pending w')).
Proof.
  destruct (scheduled_message_is_picked_up ScheduleSample.parse_timestamp
              ScheduleSample.gen_random_uuid ScheduleSample.groups
              ScheduleSample.assignments Sample.all_accepted "alice"
              ScheduleSample.by_tag (Sample.world []) 100%Z
              eq_refl eq_refl eq_refl eq_refl eq_refl)
    as (r & w' & m & H & _ & _ & _ & _ & _ & G & _ & _ & K).
  exists r, w', m. split; [exact H|]. split; [exact G|].
  apply K; [cbn; lia | cbn; lia].
Defined.

(** * An invariant of the connection record *)

Section Pairing.

Lemma paired_status_only (p p' : Profile) : status_only p p' -> paired p -> paired p'.
Proof. intros (_ & T & I & _) H. unfold paired in *. now rewrite T, I. Qed.

Lemma paired_after_patch (f : ProfileFilter) (c : ProfilePatch) (tbl : list Profile) :
  (forall p, paired p -> paired (Store.patch c p)) ->
  Forall paired tbl -> Forall paired (Store.patch_where f c tbl).
Proof.
  intros K H. unfold Store.patch_where. apply Forall_map.
  eapply Forall_impl; [|exact H]. intros p Hp.
  destruct (Store.matches f p); auto.
Qed.

Lemma paired_status (f : ProfileFilter) (st : string) (t : Z) (tbl : list Profile) :
  Forall paired tbl -> Forall paired (Store.patch_where f (status_patch st t) tbl).
Proof. apply paired_after_patch. intros p H. exact H. Qed.

Lemma paired_reset (f : ProfileFilter) (t : Z) (tbl : list Profile) :
  Forall paired tbl -> Forall paired (Store.patch_where f (reset_patch t) tbl).
Proof. apply paired_after_patch. intros p _. unfold paired. cbn. tauto. Qed.

(** The profiles after a status check: those of before, possibly after a
    reset or after the status [connected] was written. *)
Lemma check_profiles (env : Env) (u : string) (w : World) :
  profiles (snd (CheckStatus.serve env u w)) = profiles w
  \/ profiles (snd (CheckStatus.serve env u w))
     = Store.patch_where (ById u) (reset_patch (now w)) (profiles w)
  \/ profiles (snd (CheckStatus.serve env u w))
     = Store.patch_where (ById u) (status_patch "connected" (now w)) (profiles w).
Proof.
  enough (K : match CheckStatus.serve env u w with
              | (_, w') =>
                  profiles w' = profiles w
                  \/ profiles w'
                     = Store.patch_where (ById u) (reset_patch (now w)) (profiles w)
                  \/ profiles w'
                     = Store.patch_where (ById u) (status_patch "connected" (now w))
                         (profiles w)
              end).
  { destruct (CheckStatus.serve env u w). exact K. }
  unfold CheckStatus.serve, CheckStatus.check.
  destruct (u =? ""); [now left|].
  destruct (WHAPI_PARTNER_TOKEN env =? ""); [now left|].
  unfold bind at 1, get at 1.
  destruct (Store.single_profile (ById u) w) as [p|]; [|now left].
  destruct (instance_id p) as [id|]; [|now left].
  destruct (id =? ""); [now left|].
  unfold bind at 1, fetchM at 1, Store.fetch.
  destruct (gateway env (fetch_count (trace w)) (CheckStatus.partner_get env ""))
    as [e|res]; [now left|].
  assert (Status : forall w1 : World,
    w1 = Store.log (EvFetch (CheckStatus.partner_get env "")) w ->
    match
      match
        (statusResponse <-
           fetchM env (CheckStatus.partner_get env
                         (String.append "/" (String.append id "/status"))) ;;
         if negb (ok statusResponse) then
           if (status statusResponse =? 404)%Z then
             t <- get now ;;
             lift (Store.update_profiles (ById u) (reset_patch t)) ;;;
             ret (CheckStatus.requires_new_instance
                    "Instance not found. Please create a new instance.")
           else
             ret (json_response 200 [("connected", JBool false);
                                     ("error", JStr "Status check failed")])
         else
           statusData <- jsonM statusResponse ;;
           st <- propM statusData "status" ;;
           (if CheckStatus.isConnected st
               && negb (text_is (instance_status p) "connected") then
              t <- get now ;;
              lift (Store.update_profiles (ById u) (status_patch "connected" t))
            else ret tt) ;;;
           ret (json_response 200 [("connected", JBool (CheckStatus.isConnected st));
                                   ("status", st);
                                   ("instance_id", JStr id)])) w1
      with
      | (Ret r, w2) => (r, w2)
      | (Raise e, w2) =>
          (json_response 200 [("connected", JBool false); ("error", JStr e)], w2)
      end
    with
    | (_, w') =>
        profiles w' = profiles w
        \/ profiles w' = Store.patch_where (ById u) (reset_patch (now w)) (profiles w)
        \/ profiles w'
           = Store.patch_where (ById u) (status_patch "connected" (now w)) (profiles w)
    end).
  { intros w1 ->. unfold bind at 1, fetchM at 1, Store.fetch.
    destruct (gateway env _ (CheckStatus.partner_get env
                               (String.append "/" (String.append id "/status"))))
      as [e|res']; [now left|].
    destruct (ok res'); cbn [negb].
    - unfold bind at 1, jsonM. destruct (json res') as [statusData|]; [|now left].
      unfold ret at 1. unfold bind at 1, propM.
      destruct (prop statusData "status") as [st|]; [|now left].
      unfold ret at 1. unfold bind at 1.
      destruct (CheckStatus.isConnected st
                && negb (text_is (instance_status p) "connected")).
      + cbv [bind get lift ret]. right. right. reflexivity.
      + cbv [ret]. now left.
    - destruct (status res' =? 404)%Z.
      + cbv [bind get lift ret]. right. left. reflexivity.
      + cbv [ret]. now left. }
  unfold bind at 1.
  destruct (ok res).
  2:{ unfold ret at 1. apply Status. reflexivity. }
  unfold bind at 1, jsonM. destruct (json res) as [instances|]; [|now left].
  unfold ret at 1. unfold bind at 1.
  pose proof (instanceExists_pure id instances
                (Store.log (EvFetch (CheckStatus.partner_get env "")) w)) as P.
  destruct (CheckStatus.instanceExists id instances
              (Store.log (EvFetch (CheckStatus.partner_get env "")) w))
    as [[found|e] w1]; cbn [snd] in P; subst w1; [|now left].
  unfold ret at 1. destruct found; cbn [negb].
  - apply Status. reflexivity.
  - cbv [bind get lift ret]. right. left. reflexivity.
Qed.

Lemma poll_profiles (env : Env) (u : string) (w : World) :
  Forall2 status_only (profiles w) (profiles (snd (WhapiSimple.handleStatus env u w))).
Proof.
  assert (R : Forall2 status_only (profiles w) (profiles w)) by apply status_only_refl.
  enough (K : match WhapiSimple.handleStatus env u w with
              | (_, w') => Forall2 status_only (profiles w) (profiles w')
              end).
  { destruct (WhapiSimple.handleStatus env u w). exact K. }
  unfold WhapiSimple.handleStatus. unfold bind at 1, get at 1.
  destruct (Store.single_profile (ById u) w) as [p|]; [|exact R].
  destruct (truthy_text (whapi_token p)); cbn [negb]; [|exact R].
  unfold bind at 1, fetchM at 1, Store.fetch.
  destruct (gateway env (fetch_count (trace w))
              (WhapiSimple.gate_get "/health" (of_text (whapi_token p)))) as [e|res];
    [exact R|].
  destruct (ok res); cbn [negb]; [|exact R].
  unfold bind at 1, jsonM. destruct (json res) as [health|]; [|exact R].
  unfold ret at 1. unfold bind at 1, propM.
  destruct (prop health "status") as [st|]; [|exact R].
  unfold ret at 1. unfold bind at 1.
  destruct (text_is (instance_status p) (WhapiSimple.newStatus st)); cbn [negb].
  - exact R.
  - exact (status_patch_only (ById u) (WhapiSimple.newStatus st) (now w) (profiles w)).
Qed.

Lemma paired_Forall2 (tbl tbl' : list Profile) :
  Forall2 status_only tbl tbl' -> Forall paired tbl -> Forall paired tbl'.
Proof.
  induction 1 as [|p p' l l' S _ IH]; intros H; [constructor|].
  inversion H; subst. constructor; [now apply (paired_status_only p) | now apply IH].
Qed.

(** The webhook receiver, the poll, the disconnect and the status check
    keep the channel identifier and the credential together: if every record
    has both or none before, so it is after each of them. *)
Theorem credentials_stay_paired (env : Env) (u : string) (ev : Json) (w : World) :
  Forall paired (profiles w) ->
  Forall paired (profiles (snd (Webhook.serve ev w))) /\
  Forall paired (profiles (snd (WhapiSimple.handleStatus env u w))) /\
  Forall paired (profiles (snd (WhapiSimple.handleDisconnect env u w))) /\
  Forall paired (profiles (snd (CheckStatus.serve env u w))).
Proof.
  intros H. split; [|split; [|split]].
  - rewrite webhook_effect.
    destruct (webhook_target ev) as [[i st]|]; [|exact H].
    destruct (filter (Store.matches (ByInstanceId i)) (profiles w)); [exact H|].
    now apply paired_status.
  - exact (paired_Forall2 _ _ (poll_profiles env u w) H).
  - destruct (disconnect_world env u w) as (w0 & E & P & _).
    rewrite E. cbn [Store.update_profiles profiles]. rewrite P. now apply paired_reset.
  - destruct (check_profiles env u w) as [E|[E|E]]; rewrite E.
    + exact H.
    + now apply paired_reset.
    + now apply paired_status.
Qed.

End Pairing.

Lemma credentials_stay_paired_witness :
  Forall paired (profiles (snd (CheckStatus.serve Sample.lists_other_channel "alice"
                                  Sample.late_world))).
Proof.
  apply (credentials_stay_paired Sample.lists_other_channel "alice" JNull
           Sample.late_world).
  repeat constructor; discriminate.
Defined.

Lemma one_record_per_answered_send_witness :
  List.length
    (message_history
       (fst (Scheduler.send_all Sample.second_rejected "tok-alice"
               (Sample.broadcast "m1" ["g1"; "g2"; "g3"] 100) (Sample.world []))))
  = (List.length (message_history (Sample.world []))
     + List.length (group_ids (Sample.broadcast "m1" ["g1"; "g2"; "g3"] 100)))%nat.
Proof.
  apply (one_record_per_answered_send Sample.second_rejected "tok-alice"
           (Sample.broadcast "m1" ["g1"; "g2"; "g3"] 100) (Sample.world [])).
  intros n r. cbn. destruct (n =? 1)%nat.
  - eexists. split; [reflexivity|]. discriminate.
  - eexists. split; [reflexivity|]. intros _. eexists. split; [reflexivity | discriminate].
Defined.

(** * The trial of a new user *)

Section TrialPeriod.

Lemma accounts_refl (tbl : list Profile) : Forall2 same_account tbl tbl.
Proof. induction tbl; constructor; auto. unfold same_account. auto. Qed.

Lemma accounts_after_patch (f : ProfileFilter) (c : ProfilePatch) (tbl : list Profile) :
  Forall2 same_account tbl (Store.patch_where f c tbl).
Proof.
  unfold Store.patch_where.
  induction tbl as [|p tbl IH]; cbn [map]; constructor; [|exact IH].
  destruct (Store.matches f p); unfold same_account; auto.
Qed.

Lemma accounts_filter (u : string) (tbl tbl' : list Profile) :
  Forall2 same_account tbl tbl' ->
  Forall2 same_account (filter (Store.matches (ById u)) tbl)
    (filter (Store.matches (ById u)) tbl').
Proof.
  induction 1 as [|p p' l l' S _ IH]; cbn [filter Store.matches]; [constructor|].
  destruct S as (I & Pl & T). rewrite I.
  destruct (p_id p =? u); [constructor; [unfold same_account; auto | exact IH] | exact IH].
Qed.

Lemma trial_same_accounts (u : string) (e : Z) (w w' : World) :
  Forall2 same_account (profiles w) (profiles w') ->
  trial_until u e w -> trial_until u e w'.
Proof.
  intros F (p & S & T). unfold trial_until, Store.single_profile in *.
  pose proof (accounts_filter u _ _ F) as G.
  destruct (filter (Store.matches (ById u)) (profiles w)) as [|q [|q' l]];
    try discriminate.
  injection S as ->.
  inversion G as [|? p' ? l' A B]; subst. inversion B; subst.
  exists p'. split; [reflexivity|]. destruct A as (_ & _ & A). now rewrite A.
Qed.

Lemma trial_same_profiles (u : string) (e : Z) (w w' : World) :
  profiles w' = profiles w -> trial_until u e w -> trial_until u e w'.
Proof.
  intros P. apply trial_same_accounts. rewrite P. apply accounts_refl.
Qed.

(** A profile that is inserted is another user's: the primary key refuses
    a second row with the id of [u]. *)
Lemma trial_after_insert (u : string) (e : Z) (q : Profile) (w : World) :
  trial_until u e w -> trial_until u e (Store.insert_profile q w).
Proof.
  intros (p & S & T). exists p. split; [|exact T].
  unfold Store.single_profile in *. cbn [Store.insert_profile profiles].
  destruct (existsb (fun x => p_id x =? p_id q) (profiles w)) eqn:E; [exact S|].
  rewrite filter_app. cbn [filter Store.matches].
  destruct (p_id q =? u) eqn:Q.
  - exfalso. apply String.eqb_eq in Q.
    destruct (filter (Store.matches (ById u)) (profiles w)) as [|x [|x' l]] eqn:F;
      try discriminate.
    assert (In x (filter (Store.matches (ById u)) (profiles w)))
      by (rewrite F; now left).
    apply filter_In in H. destruct H as [Hin Hm]. cbn [Store.matches] in Hm.
    assert (existsb (fun x => p_id x =? p_id q) (profiles w) = true).
    { apply existsb_exists. exists x. split; [exact Hin|]. now rewrite Q. }
    congruence.
  - now rewrite app_nil_r.
Qed.

Lemma keeps_of_accounts {A : Type} (u : string) (e : Z) (c : M A) :
  keeps_accounts c -> keeps_trial u e c.
Proof. intros K w. apply trial_same_accounts. apply K. Qed.

Lemma keeps_ret {A : Type} (u : string) (e : Z) (a : A) : keeps_trial u e (ret a).
Proof. intros w H. exact H. Qed.

Lemma keeps_raise {A : Type} (u : string) (e : Z) (msg : string) :
  keeps_trial u e (@raise A msg).
Proof. intros w H. exact H. Qed.

Lemma keeps_get {A : Type} (u : string) (e : Z) (f : World -> A) :
  keeps_trial u e (get f).
Proof. intros w H. exact H. Qed.

Lemma keeps_bind {A B : Type} (u : string) (e : Z) (c : M A) (k : A -> M B) :
  keeps_trial u e c -> (forall a, keeps_trial u e (k a)) -> keeps_trial u e (bind c k).
Proof.
  intros Hc Hk w H. specialize (Hc w H). unfold bind.
  destruct (c w) as [[a|msg] w1]; cbn [snd] in *; [now apply Hk | exact Hc].
Qed.

Lemma keeps_catch {A : Type} (u : string) (e : Z) (c : M A) (h : string -> M A) :
  keeps_trial u e c -> (forall msg, keeps_trial u e (h msg)) ->
  keeps_trial u e (catch c h).
Proof.
  intros Hc Hh w H. specialize (Hc w H). unfold catch.
  destruct (c w) as [[a|msg] w1]; cbn [snd] in *; [exact Hc | now apply Hh].
Qed.

Lemma keeps_update (u : string) (e : Z) (f : ProfileFilter) (c : ProfilePatch) :
  keeps_trial u e (lift (Store.update_profiles f c)).
Proof.
  intros w. apply trial_same_accounts. apply accounts_after_patch.
Qed.

Lemma keeps_insert (u : string) (e : Z) (q : Profile) :
  keeps_trial u e (lift (Store.insert_profile q)).
Proof. intros w. apply trial_after_insert. Qed.

Lemma keeps_delay (u : string) (e : Z) (ms : Z) :
  keeps_trial u e (lift (Store.delay ms)).
Proof. intros w. now apply trial_same_profiles. Qed.

Lemma keeps_fetchM (u : string) (e : Z) (env : Env) (r : Request) :
  keeps_trial u e (fetchM env r).
Proof.
  intros w. unfold fetchM, Store.fetch.
  destruct (gateway env (fetch_count (trace w)) r); now apply trial_same_profiles.
Qed.

Lemma keeps_jsonM (u : string) (e : Z) (res : HttpResponse) :
  keeps_trial u e (jsonM res).
Proof. unfold jsonM. destruct (json res); [apply keeps_ret | apply keeps_raise]. Qed.

Lemma keeps_propM (u : string) (e : Z) (j : Json) (k : string) :
  keeps_trial u e (propM j k).
Proof. unfold propM. destruct (prop j k); [apply keeps_ret | apply keeps_raise]. Qed.

Ltac keep :=
  repeat first
    [ apply keeps_ret | apply keeps_raise | apply keeps_get | apply keeps_fetchM
    | apply keeps_jsonM | apply keeps_propM | apply keeps_update | apply keeps_insert
    | apply keeps_delay
    | apply keeps_bind; [|intros ?]
    | apply keeps_catch; [|intros ?]
    | match goal with
      | |- keeps_trial _ _ (if ?b then _ else _) => destruct b
      | |- keeps_trial _ _ (match ?x with _ => _ end) => destruct x
      end ].

Lemma keeps_fetch_qr (u : string) (e : Z) (env : Env) (token : Json)
  (userId message : string) :
  keeps_trial u e (WhapiSimple.fetch_qr env token userId message).
Proof.
  unfold WhapiSimple.fetch_qr, WhapiSimple.pick_qr, WhapiSimple.as_data_uri. keep.
Qed.

Lemma keeps_poll (u : string) (e : Z) (env : Env) (token : Json) (userId : string)
  (n : nat) :
  keeps_trial u e (WhapiSimple.poll_for_qr env token userId n).
Proof.
  induction n as [|n IH]; cbn [WhapiSimple.poll_for_qr]; [apply keeps_ret|].
  apply keeps_bind; [apply keeps_fetchM|]. intros healthCheck.
  apply keeps_bind.
  - destruct (ok healthCheck); [|apply keeps_ret].
    apply keeps_bind; [apply keeps_jsonM|]. intros health.
    apply keeps_bind; [apply keeps_propM|]. intros st.
    destruct (WhapiSimple.is_pairing st); [apply keeps_fetch_qr | apply keeps_ret].
  - intros [resp|]; [apply keeps_ret|].
    apply keeps_bind; [apply keeps_delay | intros _; exact IH].
Qed.

Lemma keeps_connect (u : string) (e : Z) (env : Env) (userId : string) :
  keeps_trial u e (WhapiSimple.handleConnect env userId).
Proof.
  unfold WhapiSimple.handleConnect.
  apply keeps_bind; [apply keeps_get|]. intros profile.
  apply keeps_bind.
  - destruct profile as [p|]; [|apply keeps_ret].
    destruct (truthy_text (whapi_token p)); [|apply keeps_ret].
    apply keeps_bind; [apply keeps_fetchM|]. intros healthCheck.
    destruct (ok healthCheck); [|apply keeps_ret].
    apply keeps_bind; [apply keeps_jsonM|]. intros health.
    apply keeps_bind; [apply keeps_propM|]. intros st.
    destruct (is_str st "authenticated" || is_str st "ready"); [keep|].
    destruct (WhapiSimple.is_pairing st); [apply keeps_fetch_qr | apply keeps_ret].
  - intros [resp|]; [apply keeps_ret|].
    unfold WhapiSimple.create_instance, WhapiSimple.resolve_project,
      WhapiSimple.first_project_id.
    apply keeps_bind; [keep|]. intros _.
    apply keeps_bind; [keep|]. intros projectId.
    destruct (negb (truthy projectId)); [apply keeps_raise|].
    apply keeps_bind; [apply keeps_fetchM|]. intros createRes.
    destruct (negb (ok createRes)); [apply keeps_raise|].
    apply keeps_bind; [apply keeps_jsonM|]. intros channel.
    apply keeps_bind; [apply keeps_propM|]. intros channelId.
    apply keeps_bind; [apply keeps_propM|]. intros channelToken.
    apply keeps_bind; [keep|]. intros _.
    apply keeps_bind; [apply keeps_get|]. intros t.
    apply keeps_bind; [apply keeps_update|]. intros _.
    apply keeps_bind; [apply keeps_delay|]. intros _.
    apply keeps_bind; [apply keeps_poll|]. intros [resp|]; apply keeps_ret.
Qed.

Lemma keeps_status (u : string) (e : Z) (env : Env) (userId : string) :
  keeps_trial u e (WhapiSimple.handleStatus env userId).
Proof. unfold WhapiSimple.handleStatus. cbv zeta. keep. Qed.

Lemma keeps_disconnect (u : string) (e : Z) (env : Env) (userId : string) :
  keeps_trial u e (WhapiSimple.handleDisconnect env userId).
Proof. unfold WhapiSimple.handleDisconnect. keep. Qed.

Section Requests.

Variable handleSyncGroups : Env -> string -> M Response.
Variables handleSendMessage handleScheduleMessage handleGetMessages
  : Env -> string -> Json -> M Response.

Hypothesis sync_keeps : forall e u, keeps_accounts (handleSyncGroups e u).
Hypothesis send_keeps : forall e u d, keeps_accounts (handleSendMessage e u d).
Hypothesis schedule_keeps : forall e u d, keeps_accounts (handleScheduleMessage e u d).
Hypothesis get_keeps : forall e u d, keeps_accounts (handleGetMessages e u d).

Lemma keeps_request (u : string) (e : Z) (env : Env) (req : WhapiSimple.RequestBody) :
  keeps_trial u e
    (WhapiSimple.handle_request handleSyncGroups handleSendMessage handleScheduleMessage
       handleGetMessages env req).
Proof.
  unfold WhapiSimple.handle_request.
  destruct (WhapiSimple.userId req =? ""); [apply keeps_ret|].
  apply keeps_bind; [apply keeps_get|]. intros profile.
  apply keeps_bind; [keep|]. intros _.
  apply keeps_bind; [apply keeps_get|]. intros t.
  cbv zeta.
  destruct (negb (WhapiSimple.is_basic (WhapiSimple.action req)) && _);
    [apply keeps_ret|].
  unfold WhapiSimple.dispatch.
  repeat match goal with
         | |- keeps_trial _ _ (if ?b then _ else _) => destruct b
         end;
    auto using keeps_status, keeps_disconnect, keeps_connect, keeps_of_accounts.
Qed.

End Requests.

Lemma direct_send_keeps_profiles (env : Env) (u : string) (d : Actions.SendData)
  (w : World) :
  profiles (snd (Actions.handleSendMessage env u d w)) = profiles w.
Proof.
  unfold Actions.handleSendMessage.
  destruct (Actions.groups_of (Actions.sd_groupIds d)) as [|g gs]; [reflexivity|].
  destruct (negb (truthy_text (Actions.sd_message d))); [reflexivity|].
  unfold bind, get. destruct (Store.single_profile (ById u) w) as [p|]; [|reflexivity].
  destruct (negb (truthy_text (whapi_token p))
            || negb (text_is (instance_status p) "connected")); [reflexivity|].
  pose proof (send_direct_loop env (Actions.text_of (whapi_token p)) u d (g :: gs) w
                {| Actions.results := []; Actions.sent := 0 |}) as L.
  destruct (fold_left (Actions.send_direct env (Actions.text_of (whapi_token p)) u d)
              (g :: gs) (w, {| Actions.results := []; Actions.sent := 0 |})) as [w1 done].
  destruct L as (rs & added & _ & _ & _ & _ & _ & _ & _ & P & _). exact P.
Qed.

Lemma schedule_keeps_profiles (parse_timestamp : string -> option Z)
  (gen_random_uuid : World -> string) (groups : list Actions.GroupRow)
  (assignments : list Actions.TagAssignment) (env : Env) (u : string)
  (d : Actions.ScheduleData) (w : World) :
  profiles (snd (Actions.handleScheduleMessage parse_timestamp gen_random_uuid groups
                   assignments env u d w)) = profiles w.
Proof.
  unfold Actions.handleScheduleMessage.
  destruct (negb (truthy_text (Actions.sc_message d))
            || negb (Actions.has_length (Actions.sc_groupIds d))
               && negb (Actions.has_length (Actions.sc_tagIds d))
            || negb (truthy_text (Actions.sc_sendAt d))); [reflexivity|].
  unfold Actions.insert_scheduled.
  destruct (parse_timestamp (Actions.text_of (Actions.sc_sendAt d))); [|reflexivity].
  destruct (existsb (fun p => p_id p =? u) (profiles w)); reflexivity.
Qed.

Lemma pass_keeps_profiles (env : Env) (w : World) :
  profiles (snd (Scheduler.run env w)) = profiles w.
Proof.
  unfold Scheduler.run.
  destruct (Scheduler.select_pending w) as [|pm batch]; [reflexivity|].
  cbn [snd]. apply process_batch_tables.
Qed.

Lemma step_keeps_trial (u : string) (e : Z) (w w' : World) :
  step w w' -> trial_until u e w -> trial_until u e w'.
Proof.
  intros S H. destruct S.
  - unfold WhapiSimple.serve.
    pose proof (keeps_request handleSyncGroups handleSendMessage handleScheduleMessage
                  handleGetMessages H0 H1 H2 H3 u e env req w H) as K.
    destruct (WhapiSimple.handle_request handleSyncGroups handleSendMessage
                handleScheduleMessage handleGetMessages env req w) as [[r|msg] w1];
      exact K.
  - apply trial_same_profiles with (w := w); [apply direct_send_keeps_profiles | exact H].
  - apply trial_same_profiles with (w := w); [apply schedule_keeps_profiles | exact H].
  - rewrite webhook_effect.
    destruct (webhook_target ev) as [[i st]|]; [|exact H].
    destruct (filter (Store.matches (ByInstanceId i)) (profiles w)); [exact H|].
    revert H. apply trial_same_accounts. apply accounts_after_patch.
  - destruct (check_profiles env u0 w) as [E|[E|E]].
    + now apply trial_same_profiles with (w := w).
    + revert H. apply trial_same_accounts. rewrite E. apply accounts_after_patch.
    + revert H. apply trial_same_accounts. rewrite E. apply accounts_after_patch.
  - apply trial_same_profiles with (w := w); [apply pass_keeps_profiles | exact H].
  - now apply trial_same_profiles with (w := w).
Qed.

Lemma evolves_keeps_trial (u : string) (e : Z) (w w' : World) :
  evolves w w' -> trial_until u e w -> trial_until u e w'.
Proof.
  induction 1 as [|w1 w2 _ IH S]; intros H; [exact H|].
  apply (step_keeps_trial u e w1 w2 S). now apply IH.
Qed.

(** The first request of a user without profile creates a trial profile
    and goes to its handler, whatever the action.  From then on, whatever
    happens to the store (requests of this user and of others, webhook
    deliveries, status checks, passes of the scheduler), no request of this
    user is rejected for the trial as long as three days (259200000 ms) have
    not passed since that first request. *)
Theorem new_user_has_three_days
  (handleSyncGroups : Env -> string -> M Response)
  (handleSendMessage handleScheduleMessage handleGetMessages
     : Env -> string -> Json -> M Response)
  (env : Env) (req : WhapiSimple.RequestBody) (w : World) :
  WhapiSimple.userId req <> "" ->
  Forall (fun p => p_id p <> WhapiSimple.userId req) (profiles w) ->
  WhapiSimple.handle_request handleSyncGroups handleSendMessage handleScheduleMessage
    handleGetMessages env req w
  = WhapiSimple.dispatch handleSyncGroups handleSendMessage handleScheduleMessage
      handleGetMessages env req
      (Store.insert_profile (WhapiSimple.trial_profile (WhapiSimple.userId req) (now w)) w)
  /\
  forall (env2 : Env) (req2 : WhapiSimple.RequestBody) (w2 : World),
    evolves
      (Store.insert_profile (WhapiSimple.trial_profile (WhapiSimple.userId req) (now w)) w)
      w2 ->
    WhapiSimple.userId req2 = WhapiSimple.userId req ->
    (now w2 <= now w + 259200000)%Z ->
    WhapiSimple.handle_request handleSyncGroups handleSendMessage handleScheduleMessage
      handleGetMessages env2 req2 w2
    = WhapiSimple.dispatch handleSyncGroups handleSendMessage handleScheduleMessage
        handleGetMessages env2 req2 w2.
Proof.
  intros Hu Hn.
  destruct (no_row_no_match _ _ Hn) as [F E].
  split.
  - unfold WhapiSimple.handle_request. rewrite (eqb_false_of_neq _ _ Hu).
    unfold bind at 1, get at 1. unfold Store.single_profile. rewrite F.
    unfold bind at 1. unfold bind at 1, get at 1, lift.
    unfold bind at 1, get at 1. rewrite andb_false_r. reflexivity.
  - intros env2 req2 w2 Ev H2 Ht.
    assert (T : trial_until (WhapiSimple.userId req) (now w + 259200000)
                  (Store.insert_profile
                     (WhapiSimple.trial_profile (WhapiSimple.userId req) (now w)) w)).
    { exists (WhapiSimple.trial_profile (WhapiSimple.userId req) (now w)). split.
      - unfold Store.single_profile.
        cbn [Store.insert_profile profiles WhapiSimple.trial_profile p_id].
        rewrite E, filter_app, F. cbn [app filter Store.matches p_id].
        now rewrite String.eqb_refl.
      - reflexivity. }
    destruct (evolves_keeps_trial _ _ _ _ Ev T) as (p & S & X).
    unfold WhapiSimple.handle_request. rewrite H2, (eqb_false_of_neq _ _ Hu).
    unfold bind at 1, get at 1. rewrite S.
    unfold bind at 1, ret at 1. unfold bind at 1, get at 1.
    assert (N : WhapiSimple.trialExpired p (now w2) = false).
    { unfold WhapiSimple.trialExpired. rewrite X. apply Z.ltb_ge. lia. }
    rewrite N. cbn [andb]. rewrite andb_false_r. reflexivity.
Qed.

End TrialPeriod.

Lemma new_user_has_three_days_witness :
  let first := {| WhapiSimple.userId := "carol"; WhapiSimple.action := "connect";
                  WhapiSimple.data := JNull |} in
  let later := {| WhapiSimple.userId := "carol"; WhapiSimple.action := "send-message";
                  WhapiSimple.data := JNull |} in
  let w1 := Store.insert_profile (WhapiSimple.trial_profile "carol" 9000)
              Sample.late_world in
  let w2 := snd (Webhook.serve (Sample.channel_event "chan-9" "ready")
                   (snd (WhapiSimple.serve Sample.no_handler Sample.no_data_handler
                           Sample.no_data_handler Sample.no_data_handler
                           Sample.never_ready first w1))) in
  WhapiSimple.handle_request Sample.no_handler Sample.no_data_handler
    Sample.no_data_handler Sample.no_data_handler Sample.never_ready first
    Sample.late_world
  = WhapiSimple.dispatch Sample.no_handler Sample.no_data_handler
      Sample.no_data_handler Sample.no_data_handler Sample.never_ready first w1 /\
  map (fun p => (p_id p, instance_id p, instance_status p)) (profiles w2)
  = [("alice", Some "chan-1", Some "connected");
     ("carol", Some "chan-9", Some "connected")] /\
  WhapiSimple.handle_request Sample.no_handler Sample.no_data_handler
    Sample.no_data_handler Sample.no_data_handler Sample.all_accepted later w2
  = WhapiSimple.dispatch Sample.no_handler Sample.no_data_handler
      Sample.no_data_handler Sample.no_data_handler Sample.all_accepted later w2.
Proof.
  intros first later w1 w2.
  destruct (new_user_has_three_days Sample.no_handler Sample.no_data_handler
              Sample.no_data_handler Sample.no_data_handler Sample.never_ready first
              Sample.late_world) as [H1 H2].
  - discriminate.
  - repeat constructor; discriminate.
  - split; [exact H1|]. split; [vm_compute; reflexivity|].
    apply H2.
    + apply evolves_step
        with (w1 := snd (WhapiSimple.serve Sample.no_handler Sample.no_data_handler
                           Sample.no_data_handler Sample.no_data_handler
                           Sample.never_ready first w1)).
      * apply evolves_step with (w1 := w1); [apply evolves_refl|].
        apply step_request; intros; intros w0; apply accounts_refl.
      * apply step_webhook.
    + reflexivity.
    + vm_compute. discriminate.
Defined.
